(** * Bookstore API: carts, orders and reviews

    A shallow embedding of [api/serializers.py] and [api/views.py].  The
    relational store is a record of tables, the ORM calls are primitives of a
    small state-and-exception monad, and every serializer method and view is
    transcribed statement by statement on top of them. *)

From Stdlib Require Import ZArith QArith Qpower Qabs SpecFloat Lia.
From stdpp Require Import gmap strings list.
Close Scope Q_scope.
Open Scope Z_scope.

(** ** Rows

    Primary keys are integers.  A [DecimalField] with two decimal places is
    kept as its number of hundredths, so the price 19.99 is [1999].  A book
    row does not repeat its primary key, which is its key in the table; a
    loaded [Book] instance is the key together with the row.
    [stock_quantity] and [quantity] are integers: the serializers and views
    put no bound on what they subtract or assign, and the columns are
    declared in [api/models.py]. *)

Record User := mkUser { user_id : Z; is_staff : bool }.

Record Book := mkBook {
  title : string;
  price : Z;
  stock_quantity : Z;
  book_user : option Z }.

Record Cart := mkCart { cart_id : Z; cart_user : Z }.

Record CartItem := mkCartItem {
  item_id : Z;
  item_cart : Z;
  item_book : Z;
  quantity : Z }.

Record Order := mkOrder {
  order_id : Z;
  order_user : Z;
  status : string;
  shipping_address : string;
  total_price : Z }.

Record OrderItem := mkOrderItem {
  oi_id : Z;
  oi_order : Z;
  oi_book : Z;
  oi_quantity : Z;
  oi_price : Z }.

Record Review := mkReview {
  review_id : Z;
  review_book : Z;
  review_user : Z;
  rating : Z;
  text : string }.

(** ** The store

    [books] is keyed by primary key, as [book.save()] writes by key.  The
    other tables are row lists in insertion order, each with the next value
    of its auto-increment key. *)

Record DB := mkDB {
  books : gmap Z Book;
  carts : list Cart;
  cart_items : list CartItem;
  next_cart_item : Z;
  orders : list Order;
  next_order : Z;
  order_items : list OrderItem;
  next_order_item : Z;
  reviews : list Review;
  next_review : Z }.

Definition with_books (f : gmap Z Book → gmap Z Book) (d : DB) : DB :=
  mkDB (f (books d)) (carts d) (cart_items d) (next_cart_item d) (orders d)
       (next_order d) (order_items d) (next_order_item d) (reviews d)
       (next_review d).

Definition with_cart_items (f : list CartItem → list CartItem) (d : DB) : DB :=
  mkDB (books d) (carts d) (f (cart_items d)) (next_cart_item d) (orders d)
       (next_order d) (order_items d) (next_order_item d) (reviews d)
       (next_review d).

Definition with_reviews (f : list Review → list Review) (d : DB) : DB :=
  mkDB (books d) (carts d) (cart_items d) (next_cart_item d) (orders d)
       (next_order d) (order_items d) (next_order_item d) (f (reviews d))
       (next_review d).

(** ** Exceptions, outcomes and the monad

    The serializers and views open no [transaction.atomic] block and the
    connection runs in Django's default autocommit mode, so a statement that
    has been executed stays in the store when a later one raises.  An outcome
    therefore carries the store in both cases.  [write_budget] is the
    environment's part: [Some n] means that the storage layer executes [n]
    more writing statements and raises on the next one, [None] that it never
    raises. *)

Inductive exn :=
| DoesNotExist (model : string)
| MultipleObjectsReturned (model : string)
| ValidationError (field msg : string)
| Http404
| NotAuthenticated
| PermissionDenied
| DatabaseError.

Record World := mkWorld { db : DB; write_budget : option nat }.

Inductive outcome (A : Type) :=
| Ok (a : A) (w : World)
| Raise (e : exn) (w : World).
Arguments Ok {A} a w.
Arguments Raise {A} e w.

Definition M (A : Type) : Type := World → outcome A.

#[export] Instance M_ret : MRet M := λ A a w, Ok a w.
#[export] Instance M_bind : MBind M := λ A B f m w,
  match m w with
  | Ok a w' => f a w'
  | Raise e w' => Raise e w'
  end.

Definition raise {A} (e : exn) : M A := λ w, Raise e w.

(** [try: body except model.DoesNotExist: handler]. *)
Definition try_except_DoesNotExist {A} (model : string) (body handler : M A)
  : M A := λ w,
  match body w with
  | Raise (DoesNotExist m) w' =>
      if decide (m = model) then handler w' else Raise (DoesNotExist m) w'
  | r => r
  end.

(** Reading the store never fails. *)
Definition query {A} (f : DB → A) : M A := λ w, Ok (f (db w)) w.

(** One writing statement. *)
Definition execute (f : DB → DB) : M unit := λ w,
  match write_budget w with
  | Some O => Raise DatabaseError w
  | Some (S n) => Ok () (mkWorld (f (db w)) (Some n))
  | None => Ok () (mkWorld (f (db w)) None)
  end.

(** ** ORM primitives *)

(** [Model.objects.get(...)] over the rows that match. *)
Definition objects_get {A} (model : string) (matching : list A) : M A :=
  match matching with
  | [] => raise (DoesNotExist model)
  | [x] => mret x
  | _ => raise (MultipleObjectsReturned model)
  end.

(** [get_object_or_404(Model, ...)]: only [DoesNotExist] becomes a 404. *)
Definition get_object_or_404 {A} (matching : list A) : M A :=
  match matching with
  | [] => raise Http404
  | [x] => mret x
  | _ => raise (MultipleObjectsReturned "")
  end.

Definition carts_of (user : Z) (d : DB) : list Cart :=
  filter (λ c, cart_user c = user) (carts d).

(** [cart.items.all()]. *)
Definition cart_items_all (cart : Z) (d : DB) : list CartItem :=
  filter (λ ci, item_cart ci = cart) (cart_items d).

(** The rows selected by [CartItem.objects.get(cart=cart, book_id=book_id)];
    a [book_id] of [None] selects nothing, the column is not nullable. *)
Definition cart_items_matching (cart : Z) (book : option Z) (d : DB)
  : list CartItem :=
  filter (λ ci, item_cart ci = cart ∧ Some (item_book ci) = book) (cart_items d).

Definition Cart_objects_get (user : Z) : M Cart :=
  l ← query (carts_of user); objects_get "Cart" l.

Definition CartItem_objects_get (cart : Z) (book : option Z) : M CartItem :=
  l ← query (cart_items_matching cart book); objects_get "CartItem" l.

(** Following a foreign key to [Book] loads the row by primary key. *)
Definition Book_objects_get (pk : Z) : M Book :=
  o ← query (λ d, books d !! pk);
  match o with
  | Some b => mret b
  | None => raise (DoesNotExist "Book")
  end.

(** [instance.save()] on a row that has a primary key: the row with that key
    is rewritten, and inserted when there is none. *)
Definition save_cart_item (ci : CartItem) (rows : list CartItem)
  : list CartItem :=
  if decide (item_id ci ∈ item_id <$> rows)
  then (λ r, if decide (item_id r = item_id ci) then ci else r) <$> rows
  else rows ++ [ci].

Definition CartItem_save (ci : CartItem) : M unit :=
  execute (with_cart_items (save_cart_item ci)).

Definition Book_save (pk : Z) (b : Book) : M unit :=
  execute (with_books (λ m, <[pk := b]> m)).

Definition insert_cart_item (cart book qty : Z) (d : DB) : DB :=
  mkDB (books d) (carts d)
       (cart_items d ++ [mkCartItem (next_cart_item d) cart book qty])
       (next_cart_item d + 1) (orders d) (next_order d) (order_items d)
       (next_order_item d) (reviews d) (next_review d).

Definition insert_order (o : Order) (d : DB) : DB :=
  mkDB (books d) (carts d) (cart_items d) (next_cart_item d)
       (orders d ++ [o]) (next_order d + 1) (order_items d)
       (next_order_item d) (reviews d) (next_review d).

Definition insert_order_item (order book qty pr : Z) (d : DB) : DB :=
  mkDB (books d) (carts d) (cart_items d) (next_cart_item d) (orders d)
       (next_order d)
       (order_items d ++ [mkOrderItem (next_order_item d) order book qty pr])
       (next_order_item d + 1) (reviews d) (next_review d).

Definition insert_review (book user rt : Z) (tx : string) (d : DB) : DB :=
  mkDB (books d) (carts d) (cart_items d) (next_cart_item d) (orders d)
       (next_order d) (order_items d) (next_order_item d)
       (reviews d ++ [mkReview (next_review d) book user rt tx])
       (next_review d + 1).

(** [instance.delete()] and [queryset.delete()]. *)
Definition CartItem_delete (ci : CartItem) : M unit :=
  execute (with_cart_items (filter (λ r, item_id r ≠ item_id ci))).

Definition cart_items_all_delete (cart : Z) : M unit :=
  execute (with_cart_items (filter (λ r, item_cart r ≠ cart))).

(** ** Responses and the exception handler of the framework *)

Inductive Body :=
| CartBody (c : Cart) (items : list CartItem)
| OrderBody (o : Order)
| ReviewBody (r : Review)
| ErrorBody (field msg : string)
| NoContent.

Record Response := mkResponse { status_code : Z; body : Body }.

Definition HTTP_200_OK : Z := 200.
Definition HTTP_201_CREATED : Z := 201.
Definition HTTP_204_NO_CONTENT : Z := 204.
Definition HTTP_400_BAD_REQUEST : Z := 400.
Definition HTTP_401_UNAUTHORIZED : Z := 401.
Definition HTTP_403_FORBIDDEN : Z := 403.
Definition HTTP_404_NOT_FOUND : Z := 404.
Definition HTTP_500_INTERNAL_SERVER_ERROR : Z := 500.

(** What the framework answers for an exception that leaves a view. *)
Definition exception_response (e : exn) : Response :=
  match e with
  | ValidationError f m => mkResponse HTTP_400_BAD_REQUEST (ErrorBody f m)
  | Http404 => mkResponse HTTP_404_NOT_FOUND (ErrorBody "detail" "Not found.")
  | NotAuthenticated =>
      mkResponse HTTP_401_UNAUTHORIZED
        (ErrorBody "detail" "Authentication credentials were not provided.")
  | PermissionDenied =>
      mkResponse HTTP_403_FORBIDDEN
        (ErrorBody "detail" "You do not have permission to perform this action.")
  | DoesNotExist _ | MultipleObjectsReturned _ | DatabaseError =>
      mkResponse HTTP_500_INTERNAL_SERVER_ERROR NoContent
  end.

(** A view is a request handler from the store to a response and the store
    it leaves; nothing is undone when the handler raises. *)
Definition dispatch (handler : M Response) (w : World) : Response * World :=
  match handler w with
  | Ok r w' => (r, w')
  | Raise e w' => (exception_response e, w')
  end.

(** ** Permissions

    The permission classes that the modelled views instantiate. *)

Inductive action := List | Create | Retrieve | Update | PartialUpdate | Destroy.

Inductive permission := AllowAny | IsAuthenticated.

Definition has_permission (p : permission) (user : option User) : bool :=
  match p, user with
  | AllowAny, _ => true
  | IsAuthenticated, Some _ => true
  | IsAuthenticated, None => false
  end.

(** Neither class overrides the object-level check. *)
Definition has_object_permission {A} (p : permission) (user : option User)
  (obj : A) : bool := true.

Definition permission_denied {A} (user : option User) : M A :=
  match user with
  | Some _ => raise PermissionDenied
  | None => raise NotAuthenticated
  end.

Definition check_permissions (perms : list permission) (user : option User)
  : M unit :=
  if forallb (λ p, has_permission p user) perms then mret ()
  else permission_denied user.

Definition check_object_permissions {A} (perms : list permission)
  (user : option User) (obj : A) : M unit :=
  if forallb (λ p, has_object_permission p user obj) perms then mret ()
  else permission_denied user.

(** [request.user] once the request is known to be authenticated. *)
Definition request_user (user : option User) : M User :=
  match user with
  | Some u => mret u
  | None => raise NotAuthenticated
  end.

(** ** Request bodies *)

Record CartItemData := mkCartItemData {
  data_book_id : option Z;
  data_quantity : option Z }.

Record OrderData := mkOrderData {
  data_status : option string;
  data_shipping_address : option string }.

Record ReviewData := mkReviewData {
  data_book : option Z;
  data_rating : option Z;
  data_text : option string }.

(** ** Field declarations of the models

    [ModelSerializer] derives the validation of plain fields and the values of
    omitted ones from the field declarations of [api/models.py].  They are
    taken as parameters of the development. *)

Record Models := mkModels {
  (** [default=] of [CartItem.quantity], [None] when it declares none *)
  CartItem_quantity_default : option Z;
  (** the validators of [CartItem.quantity] *)
  CartItem_quantity_valid : Z → bool;
  (** field-level validation of an order's [status] and [shipping_address] *)
  Order_fields_valid : OrderData → bool;
  Order_status_default : string;
  Order_shipping_address_default : string;
  (** field-level cleaning of a review's [rating] and [text]: the cleaned
      values, or [None] when a field is rejected *)
  Review_fields : option Z → option string → option (Z * string) }.

Section Api.

Variable models : Models.

(** ** serializers.py *)

(** [BookSerializer.get_average_rating]: [obj.reviews.all()] and the sum of
    the ratings. *)
Definition book_reviews (obj : Z) (d : DB) : list Review :=
  filter (λ r, review_book r = obj) (reviews d).

Definition sum_ratings (rs : list Review) : Z :=
  foldr (λ r acc, rating r + acc) 0 rs.

(** Python's [a / b] on two [int]s.  The result is a [float], an IEEE-754
    binary64 number (precision 53, largest exponent 1024): the double nearest
    to the quotient of the two integers, ties to even, as the division of
    [SpecFloat] computes it from the integers themselves, which are taken
    whole, whatever their size, as mantissas with exponent 0.  A divisor of 0
    raises [ZeroDivisionError]; a quotient beyond the largest double raises
    [OverflowError]. *)
Inductive truediv_result :=
| Float (x : spec_float)
| ZeroDivisionError
| OverflowError.

Definition int_operand (z : Z) : spec_float :=
  match z with
  | Z0 => S754_zero false
  | Zpos p => S754_finite false p 0
  | Zneg p => S754_finite true p 0
  end.

Definition int_truediv (a b : Z) : truediv_result :=
  if decide (b = 0) then ZeroDivisionError
  else match SFdiv 53 1024 (int_operand a) (int_operand b) with
       | S754_infinity _ => OverflowError
       | x => Float x
       end.

(** The rational number that a double stands for (0 for what is no number). *)
Definition float_value (x : spec_float) : Q :=
  match x with
  | S754_finite s m e =>
      ((if s then inject_Z (Zneg m) else inject_Z (Zpos m)) * Qpower 2 e)%Q
  | _ => 0%Q
  end.

(** [BookSerializer.get_average_rating], the value returned: [None] without
    reviews, else [sum(review.rating for review in reviews) / len(reviews)],
    a [float]. *)
Definition BookSerializer_get_average_rating_float (obj : Z) (d : DB)
  : option truediv_result :=
  let reviews := book_reviews obj d in
  match reviews with
  | [] => None
  | _ => Some (int_truediv (sum_ratings reviews) (Z.of_nat (length reviews)))
  end.


(** [ReviewSerializer.validate]. *)
Definition ReviewSerializer_validate (user : User) (book : Z) : M unit :=
  l ← query (λ d, filter (λ r, review_book r = book ∧ review_user r = user_id user)
                         (reviews d));
  match l with
  | [] => mret ()
  | _ => raise (ValidationError "non_field_errors"
                                "You have already reviewed this book.")
  end.

(** [serializer.is_valid(raise_exception=True)] for a review: the declared
    fields first, then [validate]. *)
Definition ReviewSerializer_is_valid (user : User) (data : ReviewData)
  : M (Z * (Z * string)) :=
  match data_book data with
  | None => raise (ValidationError "book" "This field is required.")
  | Some b =>
      o ← query (λ d, books d !! b);
      match o with
      | None => raise (ValidationError "book" "Invalid pk - object does not exist.")
      | Some _ =>
          match Review_fields models (data_rating data) (data_text data) with
          | None => raise (ValidationError "rating" "Invalid value.")
          | Some rt =>
              ReviewSerializer_validate user b;;
              mret (b, rt)
          end
      end
  end.

Definition Review_objects_create (book user rt : Z) (tx : string) : M Review :=
  pk ← query next_review;
  execute (insert_review book user rt tx);;
  mret (mkReview pk book user rt tx).

(** [ReviewSerializer.create]. *)
Definition ReviewSerializer_create (user : User) (vd : Z * (Z * string))
  : M Review :=
  Review_objects_create vd.1 (user_id user) vd.2.1 vd.2.2.

(** [ModelSerializer.update] followed by [instance.save()]: the writable
    fields are overwritten, [user] is read-only. *)
Definition save_review (r : Review) (rows : list Review) : list Review :=
  if decide (review_id r ∈ review_id <$> rows)
  then (λ x, if decide (review_id x = review_id r) then r else x) <$> rows
  else rows ++ [r].

Definition ReviewSerializer_update (instance : Review) (vd : Z * (Z * string))
  : M Review :=
  let r := mkReview (review_id instance) vd.1 (review_user instance)
                    vd.2.1 vd.2.2 in
  execute (with_reviews (save_review r));;
  mret r.

(** [serializer.is_valid(raise_exception=True)] for [CartItemSerializer]. *)
Definition CartItemSerializer_is_valid (data : CartItemData)
  : M (Z * option Z) :=
  match data_book_id data with
  | None => raise (ValidationError "book_id" "This field is required.")
  | Some b =>
      o ← query (λ d, books d !! b);
      match o with
      | None => raise (ValidationError "book_id" "Invalid pk - object does not exist.")
      | Some _ =>
          match data_quantity data with
          | None =>
              match CartItem_quantity_default models with
              | Some _ => mret (b, None)
              | None => raise (ValidationError "quantity" "This field is required.")
              end
          | Some q =>
              if CartItem_quantity_valid models q then mret (b, Some q)
              else raise (ValidationError "quantity" "Invalid value.")
          end
      end
  end.

(** [CartItem.objects.create(cart=cart, book=book, **validated_data)]. *)
Definition CartItem_objects_create (cart book : Z) (qty : option Z)
  : M CartItem :=
  match (match qty with Some q => Some q
                      | None => CartItem_quantity_default models end) with
  | None => raise DatabaseError
  | Some q =>
      pk ← query next_cart_item;
      execute (insert_cart_item cart book q);;
      mret (mkCartItem pk cart book q)
  end.

(** [CartItemSerializer.create]. *)
Definition CartItemSerializer_create (user : User) (book : Z)
  (qty : option Z) : M CartItem :=
  cart ← Cart_objects_get (user_id user);
  try_except_DoesNotExist "CartItem"
    (cart_item ← CartItem_objects_get (cart_id cart) (Some book);
     let cart_item := mkCartItem (item_id cart_item) (item_cart cart_item)
                        (item_book cart_item)
                        (quantity cart_item + default 1 qty) in
     CartItem_save cart_item;;
     mret cart_item)
    (CartItem_objects_create (cart_id cart) book qty).

(** Modelled from the spec: the sum that [Cart.total_price] computes, a
    property of [api/models.py]; the spec gives it as the sum over the
    cart's items of the book's price times the quantity, read at the time of
    the call. *)
Fixpoint sum_item_prices (items : list CartItem) : M Z :=
  match items with
  | [] => mret 0
  | ci :: rest =>
      b ← Book_objects_get (item_book ci);
      s ← sum_item_prices rest;
      mret (price b * quantity ci + s)
  end.

(** Modelled from the spec: [Cart.total_price] of [api/models.py], over
    [cart.items.all()]. *)
Definition Cart_total_price (cart : Cart) : M Z :=
  items ← query (cart_items_all (cart_id cart));
  sum_item_prices items.

Definition Order_objects_create (user total : Z) (vd : OrderData) : M Order :=
  pk ← query next_order;
  let o := mkOrder pk user
             (default (Order_status_default models) (data_status vd))
             (default (Order_shipping_address_default models)
                      (data_shipping_address vd))
             total in
  execute (insert_order o);;
  mret o.

Definition OrderItem_objects_create (order : Order) (book : Z) (qty pr : Z)
  : M unit :=
  execute (insert_order_item (order_id order) book qty pr).

(** The body of the loop over [cart.items.all()] in [OrderSerializer.create].
    [cart_item.book] is loaded when the iteration reaches the item. *)
Fixpoint create_order_items (order : Order) (items : list CartItem) : M unit :=
  match items with
  | [] => mret ()
  | cart_item :: rest =>
      book ← Book_objects_get (item_book cart_item);
      OrderItem_objects_create order (item_book cart_item)
                               (quantity cart_item) (price book);;
      Book_save (item_book cart_item)
                (mkBook (title book) (price book)
                        (stock_quantity book - quantity cart_item)
                        (book_user book));;
      create_order_items order rest
  end.

(** [OrderSerializer.create]. *)
Definition OrderSerializer_create (user : User) (validated_data : OrderData)
  : M Order :=
  cart ← Cart_objects_get (user_id user);
  items ← query (cart_items_all (cart_id cart));
  match items with
  | [] => raise (ValidationError "error" "Cannot place order with empty cart")
  | _ =>
      total_price ← Cart_total_price cart;
      order ← Order_objects_create (user_id user) total_price validated_data;
      items ← query (cart_items_all (cart_id cart));
      create_order_items order items;;
      cart_items_all_delete (cart_id cart);;
      mret order
  end.

(** ** views.py *)

(** [ReviewViewSet.get_permissions]; the class attribute is
    [permission_classes = [IsAuthenticated]]. *)
Definition ReviewViewSet_permission_classes : list permission :=
  [IsAuthenticated].

Definition ReviewViewSet_get_permissions (a : action) : list permission :=
  match a with
  | Update | PartialUpdate | Destroy => [IsAuthenticated]
  | _ => ReviewViewSet_permission_classes
  end.

(** [ReviewViewSet.get_queryset]. *)
Definition ReviewViewSet_get_queryset (book_pk : option Z) (d : DB)
  : list Review :=
  match book_pk with
  | Some b => filter (λ r, review_book r = b) (reviews d)
  | None => reviews d
  end.

(** [get_object] of the generic view. *)
Definition ReviewViewSet_get_object (a : action) (user : option User)
  (book_pk : option Z) (pk : Z) : M Review :=
  l ← query (λ d, filter (λ r, review_id r = pk)
                         (ReviewViewSet_get_queryset book_pk d));
  obj ← get_object_or_404 l;
  check_object_permissions (ReviewViewSet_get_permissions a) user obj;;
  mret obj.

Definition ReviewViewSet_create (user : option User) (data : ReviewData)
  : World → Response * World :=
  dispatch (
    check_permissions (ReviewViewSet_get_permissions Create) user;;
    u ← request_user user;
    vd ← ReviewSerializer_is_valid u data;
    r ← ReviewSerializer_create u vd;
    mret (mkResponse HTTP_201_CREATED (ReviewBody r))).

Definition ReviewViewSet_update (user : option User) (book_pk : option Z)
  (pk : Z) (data : ReviewData) : World → Response * World :=
  dispatch (
    check_permissions (ReviewViewSet_get_permissions Update) user;;
    u ← request_user user;
    instance ← ReviewViewSet_get_object Update user book_pk pk;
    vd ← ReviewSerializer_is_valid u data;
    r ← ReviewSerializer_update instance vd;
    mret (mkResponse HTTP_200_OK (ReviewBody r))).

Definition ReviewViewSet_destroy (user : option User) (book_pk : option Z)
  (pk : Z) : World → Response * World :=
  dispatch (
    check_permissions (ReviewViewSet_get_permissions Destroy) user;;
    instance ← ReviewViewSet_get_object Destroy user book_pk pk;
    execute (with_reviews (filter (λ r, review_id r ≠ review_id instance)));;
    mret (mkResponse HTTP_204_NO_CONTENT NoContent)).

(** [CartViewSet]: [permission_classes = [IsAuthenticated]]. *)
Definition CartViewSet_permission_classes : list permission :=
  [IsAuthenticated].

Definition get_cart_or_404 (user : User) : M Cart :=
  l ← query (carts_of (user_id user)); get_object_or_404 l.

(** [Response(CartSerializer(cart).data)]. *)
Definition cart_response (cart : Cart) : M Response :=
  items ← query (cart_items_all (cart_id cart));
  mret (mkResponse HTTP_200_OK (CartBody cart items)).

Definition CartViewSet_add_item (user : option User) (data : CartItemData)
  : World → Response * World :=
  dispatch (
    check_permissions CartViewSet_permission_classes user;;
    u ← request_user user;
    vd ← CartItemSerializer_is_valid data;
    CartItemSerializer_create u vd.1 vd.2;;
    cart ← get_cart_or_404 u;
    cart_response cart).

Definition CartViewSet_remove_item (user : option User) (data : CartItemData)
  : World → Response * World :=
  dispatch (
    check_permissions CartViewSet_permission_classes user;;
    u ← request_user user;
    cart ← get_cart_or_404 u;
    let book_id := data_book_id data in
    try_except_DoesNotExist "CartItem"
      (cart_item ← CartItem_objects_get (cart_id cart) book_id;
       CartItem_delete cart_item;;
       cart_response cart)
      (mret (mkResponse HTTP_404_NOT_FOUND
                        (ErrorBody "error" "Book not found in cart")))).

Definition CartViewSet_update_item (user : option User) (data : CartItemData)
  : World → Response * World :=
  dispatch (
    check_permissions CartViewSet_permission_classes user;;
    u ← request_user user;
    cart ← get_cart_or_404 u;
    let book_id := data_book_id data in
    let qty := default 1 (data_quantity data) in
    try_except_DoesNotExist "CartItem"
      (cart_item ← CartItem_objects_get (cart_id cart) book_id;
       let cart_item := mkCartItem (item_id cart_item) (item_cart cart_item)
                          (item_book cart_item) qty in
       CartItem_save cart_item;;
       cart_response cart)
      (mret (mkResponse HTTP_404_NOT_FOUND
                        (ErrorBody "error" "Book not found in cart")))).

Definition CartViewSet_clear (user : option User) : World → Response * World :=
  dispatch (
    check_permissions CartViewSet_permission_classes user;;
    u ← request_user user;
    cart ← get_cart_or_404 u;
    cart_items_all_delete (cart_id cart);;
    cart_response cart).

(** [OrderViewSet]: [get_permissions] gives [[IsAuthenticated]] for the
    [create] action, and [perform_create] saves the serializer with the
    requester as [user]. *)
Definition OrderViewSet_get_permissions_create : list permission :=
  [IsAuthenticated].

Definition OrderSerializer_is_valid (data : OrderData) : M OrderData :=
  if Order_fields_valid models data then mret data
  else raise (ValidationError "shipping_address" "Invalid value.").

Definition OrderViewSet_create (user : option User) (data : OrderData)
  : World → Response * World :=
  dispatch (
    check_permissions OrderViewSet_get_permissions_create user;;
    u ← request_user user;
    vd ← OrderSerializer_is_valid data;
    order ← OrderSerializer_create u vd;
    mret (mkResponse HTTP_201_CREATED (OrderBody order))).

End Api.

(** ** More of views.py *)

(** [CartViewSet.get_queryset]. *)
Definition CartViewSet_get_queryset (user : User) (d : DB) : list Cart :=
  filter (λ c, cart_user c = user_id user) (carts d).

(** [CartViewSet.list]. *)
Definition CartViewSet_list (user : option User) : World → Response * World :=
  dispatch (
    check_permissions CartViewSet_permission_classes user;;
    u ← request_user user;
    cart ← get_cart_or_404 u;
    cart_response cart).

(** [OrderViewSet.get_queryset]: [Order.objects.filter(user=user)], with no
    [order_by].  The source does not fix the order of the rows of such a
    queryset; the order of the list below is that of the table and carries
    no meaning, so the queryset is read up to permutation. *)
Definition OrderViewSet_get_queryset (user : User) (d : DB) : list Order :=
  filter (λ o, order_user o = user_id user) (orders d).

(** ** Registration

    [RegisterSerializer] and [RegisterView] work on the user table of the
    authentication framework, which is kept beside the store together with
    the key counters of users and carts. *)

Record Account := mkAccount {
  account_id : Z;
  username : string;
  email : string;
  first_name : string;
  last_name : string;
  password : string }.

Record Site := mkSite {
  accounts : list Account;
  next_account : Z;
  next_cart : Z;
  world : World }.

Record RegisterData := mkRegisterData {
  reg_username : option string;
  reg_password : option string;
  reg_password2 : option string;
  reg_email : option string;
  reg_first_name : option string;
  reg_last_name : option string }.

(** What the authentication framework and its settings contribute: the
    validators of the fields of its user model, whether [email] must be
    given, the configured password validators, the password hasher, the
    password of a user created without one, and the normalisation that
    [create_user] applies. *)
Record AuthFramework := mkAuthFramework {
  username_valid : string → bool;
  email_valid : string → bool;
  name_valid : string → bool;
  email_required : bool;
  validate_password : string → bool;
  make_password : string → string;
  unusable_password : string;
  normalize_username : string → string;
  normalize_email : string → string }.

Inductive RegisterBody :=
| UserData (username email first_name last_name : string)
| RegisterError (field msg : string)
| RegisterFailure.

(** The validated data: [password2] has been compared and is not used
    again; [email], [first_name] and [last_name] may be absent. *)
Record RegisterAttrs := mkRegisterAttrs {
  attrs_username : string;
  attrs_password : string;
  attrs_password2 : string;
  attrs_email : option string;
  attrs_first_name : option string;
  attrs_last_name : option string }.

Section Registration.

Variable fw : AuthFramework.

(** [RegisterSerializer.validate]. *)
Definition RegisterSerializer_validate (attrs : RegisterAttrs)
  : RegisterAttrs + string * string :=
  if decide (attrs_password attrs ≠ attrs_password2 attrs)
  then inr ("password", "Password fields didn't match.")
  else inl attrs.

Definition optional_valid (valid : string → bool) (o : option string) : bool :=
  match o with
  | Some x => valid x
  | None => true
  end.

(** [serializer.is_valid(raise_exception=True)]: the declared fields, the
    uniqueness of the user name, then [validate]. *)
Definition RegisterSerializer_is_valid (data : RegisterData) (s : Site)
  : RegisterAttrs + string * string :=
  match reg_username data, reg_password data, reg_password2 data with
  | None, _, _ => inr ("username", "This field is required.")
  | _, None, _ => inr ("password", "This field is required.")
  | _, _, None => inr ("password2", "This field is required.")
  | Some name, Some pw, Some pw2 =>
      if negb (username_valid fw name) then
        inr ("username", "Enter a valid username.")
      else if decide (name ∈ username <$> accounts s) then
        inr ("username", "A user with that username already exists.")
      else if negb (validate_password fw pw) then
        inr ("password", "This password is not valid.")
      else if email_required fw && negb (bool_decide (is_Some (reg_email data)))
      then inr ("email", "This field is required.")
      else if negb (optional_valid (email_valid fw) (reg_email data)) then
        inr ("email", "Enter a valid email address.")
      else if negb (optional_valid (name_valid fw) (reg_first_name data)
                    && optional_valid (name_valid fw) (reg_last_name data))
      then inr ("first_name", "Invalid value.")
      else
        RegisterSerializer_validate
          (mkRegisterAttrs name pw pw2 (reg_email data)
                           (reg_first_name data) (reg_last_name data))
  end.

(** One writing statement against the site. *)
Definition site_execute (f : Site → Site) (s : Site) : option Site :=
  match write_budget (world s) with
  | Some O => None
  | Some (S n) =>
      let s' := f s in
      Some (mkSite (accounts s') (next_account s') (next_cart s')
                   (mkWorld (db (world s')) (Some n)))
  | None => Some (f s)
  end.

Definition insert_account (a : Account) (s : Site) : Site :=
  mkSite (accounts s ++ [a]) (next_account s + 1) (next_cart s) (world s).

(** [user.save()]. *)
Definition save_account (a : Account) (s : Site) : Site :=
  mkSite (if decide (account_id a ∈ account_id <$> accounts s)
          then (λ x, if decide (account_id x = account_id a) then a else x)
               <$> accounts s
          else accounts s ++ [a])
         (next_account s) (next_cart s) (world s).

(** [Cart.objects.create(user=user)]. *)
Definition insert_cart (user : Z) (s : Site) : Site :=
  let d := db (world s) in
  mkSite (accounts s) (next_account s) (next_cart s + 1)
         (mkWorld
            (mkDB (books d) (carts d ++ [mkCart (next_cart s) user])
                  (cart_items d) (next_cart_item d) (orders d) (next_order d)
                  (order_items d) (next_order_item d) (reviews d)
                  (next_review d))
            (write_budget (world s))).

Inductive register_exn := KeyError (key : string) | RegisterDatabaseError.

(** [RegisterSerializer.create]: the account on success, the exception
    otherwise, and in both cases the site as the statements executed so far
    have left it. *)
Definition RegisterSerializer_create (validated_data : RegisterAttrs)
  (s : Site) : (Account + register_exn) * Site :=
  match attrs_email validated_data with
  | None => (inr (KeyError "email"), s)
  | Some mail =>
      let user :=
        mkAccount (next_account s)
          (normalize_username fw (attrs_username validated_data))
          (normalize_email fw mail)
          (default "" (attrs_first_name validated_data))
          (default "" (attrs_last_name validated_data))
          (unusable_password fw) in
      match site_execute (insert_account user) s with
      | None => (inr RegisterDatabaseError, s)
      | Some s1 =>
          let user :=
            mkAccount (account_id user) (username user) (email user)
                      (first_name user) (last_name user)
                      (make_password fw (attrs_password validated_data)) in
          match site_execute (save_account user) s1 with
          | None => (inr RegisterDatabaseError, s1)
          | Some s2 =>
              match site_execute (insert_cart (account_id user)) s2 with
              | None => (inr RegisterDatabaseError, s2)
              | Some s3 => (inl user, s3)
              end
          end
      end
  end.

Record RegisterResponse := mkRegisterResponse {
  register_status : Z;
  register_body : RegisterBody }.

(** [RegisterView], a [CreateAPIView] open to anyone. *)
Definition RegisterView_post (data : RegisterData) (s : Site)
  : RegisterResponse * Site :=
  match RegisterSerializer_is_valid data s with
  | inr (f, m) =>
      (mkRegisterResponse HTTP_400_BAD_REQUEST (RegisterError f m), s)
  | inl attrs =>
      match RegisterSerializer_create attrs s with
      | (inl user, s') =>
          (mkRegisterResponse HTTP_201_CREATED
             (UserData (username user) (email user) (first_name user)
                       (last_name user)), s')
      | (inr _, s') =>
          (mkRegisterResponse HTTP_500_INTERNAL_SERVER_ERROR RegisterFailure,
           s')
      end
  end.

End Registration.

(** The [request.user] of a session of an account. *)
Definition session_user (a : Account) : User := mkUser (account_id a) false.

(** ** Invariants of the store *)

#[export] Instance CartItem_eq_dec : EqDecision CartItem.
Proof. solve_decision. Defined.

#[export] Instance Review_eq_dec : EqDecision Review.
Proof. solve_decision. Defined.

(** Primary keys of cart items are pairwise distinct and below the counter. *)
Definition cart_item_keys_wf (d : DB) : Prop :=
  NoDup (item_id <$> cart_items d) ∧
  ∀ ci, ci ∈ cart_items d → item_id ci < next_cart_item d.

(** At most one cart item per (cart, book) pair. *)
Definition one_item_per_pair (d : DB) : Prop :=
  ∀ cart book, (length (cart_items_matching cart (Some book) d) ≤ 1)%nat.

(** Every cart item holds a positive quantity. *)
Definition quantities_positive (d : DB) : Prop :=
  ∀ ci, ci ∈ cart_items d → 0 < quantity ci.

(** At most one review per (book, user) pair. *)
Definition reviews_of (book user : Z) (d : DB) : list Review :=
  filter (λ r, review_book r = book ∧ review_user r = user) (reviews d).

Definition one_review_per_pair (d : DB) : Prop :=
  ∀ book user, (length (reviews_of book user d) ≤ 1)%nat.

(** Every book holds a stock that is not negative. *)
Definition stock_non_negative (d : DB) : Prop :=
  ∀ pk b, books d !! pk = Some b → 0 ≤ stock_quantity b.

(** The quantity of book [pk] over a list of cart items. *)
Definition ordered_quantity (pk : Z) (items : list CartItem) : Z :=
  foldr (λ ci acc, (if decide (item_book ci = pk) then quantity ci else 0) + acc)
        0 items.

(** ** Vocabulary of the statements *)

(** The row that [add_item] leaves for an item that was already there. *)
Definition merged (ci : CartItem) (q : Z) : CartItem :=
  mkCartItem (item_id ci) (item_cart ci) (item_book ci) (quantity ci + q).

(** The rows with [ci] rewritten to [ci'] and every other row as it was. *)
Definition rewrite_row (ci ci' : CartItem) (rows : list CartItem)
  : list CartItem :=
  (λ r, if decide (r = ci) then ci' else r) <$> rows.

(** The subtotal of a cart item at the prices of store [d]. *)
Definition item_subtotal (d : DB) (ci : CartItem) : Z :=
  match books d !! item_book ci with
  | Some b => price b * quantity ci
  | None => 0
  end.

Definition cart_total (d : DB) (items : list CartItem) : Z :=
  foldr (λ ci acc, item_subtotal d ci + acc) 0 items.

(** A book row after [n] copies have left the stock. *)
Definition sold (n : Z) (b : Book) : Book :=
  mkBook (title b) (price b) (stock_quantity b - n) (book_user b).

(** [oi] is the order item made from cart item [ci] for order [o] at the
    prices of store [d]. *)
Definition snapshot_of (d : DB) (o : Order) (ci : CartItem) (oi : OrderItem)
  : Prop :=
  oi_order oi = order_id o ∧ oi_book oi = item_book ci ∧
  oi_quantity oi = quantity ci ∧
  price <$> books d !! item_book ci = Some (oi_price oi).

(** The statements of a placement, each as the change that it makes to the
    store, in the order in which [OrderSerializer.create] executes them: the
    creation of the order; for every cart item the creation of its order
    item at the price of the book and then the saving of the book with the
    quantity taken from its stock; at last the deletion of the cart's
    items. *)
Definition item_statements (order : Order) (ci : CartItem) : list (DB → DB) :=
  [ (λ d, match books d !! item_book ci with
          | Some book => insert_order_item (order_id order) (item_book ci)
                                           (quantity ci) (price book) d
          | None => d
          end);
    (λ d, match books d !! item_book ci with
          | Some book => with_books (λ m, <[item_book ci := sold (quantity ci) book]> m) d
          | None => d
          end) ].

Definition placement_statements (order : Order) (cart : Z)
  (items : list CartItem) : list (DB → DB) :=
  insert_order order
  :: flat_map (item_statements order) items
  ++ [with_cart_items (filter (λ r, item_cart r ≠ cart))].

(** The store after the statements of a list, the first one first. *)
Definition run_statements (statements : list (DB → DB)) (d : DB) : DB :=
  foldl (λ d f, f d) d statements.

(** Statements handed to the storage layer one after the other. *)
Fixpoint execute_statements (statements : list (DB → DB)) : M unit :=
  match statements with
  | [] => mret ()
  | f :: rest => execute f;; execute_statements rest
  end.

(** Requests on reviews that create or delete. *)
Inductive review_request :=
| PostReview (user : option User) (data : ReviewData)
| DeleteReview (user : option User) (book_pk : option Z) (pk : Z).

Definition serve_review (models : Models) (rq : review_request) (w : World)
  : Response * World :=
  match rq with
  | PostReview user data => ReviewViewSet_create models user data w
  | DeleteReview user book_pk pk => ReviewViewSet_destroy user book_pk pk w
  end.

Fixpoint serve_reviews (models : Models) (rqs : list review_request)
  (w : World) : World :=
  match rqs with
  | [] => w
  | rq :: rest => serve_reviews models rest (serve_review models rq w).2
  end.

(** Requests on the cart. *)
Inductive cart_request :=
| AddItem (data : CartItemData)
| RemoveItem (data : CartItemData)
| UpdateItem (data : CartItemData)
| Clear.

Definition serve_cart (models : Models) (user : option User)
  (rq : cart_request) (w : World) : Response * World :=
  match rq with
  | AddItem data => CartViewSet_add_item models user data w
  | RemoveItem data => CartViewSet_remove_item user data w
  | UpdateItem data => CartViewSet_update_item user data w
  | Clear => CartViewSet_clear user w
  end.

(** A run of cart requests, each with its requester. *)
Fixpoint serve_carts (models : Models)
  (rqs : list (option User * cart_request)) (w : World) : World :=
  match rqs with
  | [] => w
  | (user, rq) :: rest => serve_carts models rest (serve_cart models user rq w).2
  end.

(** The store in which a computation ends, whether it returns or raises. *)
Definition world_of {A} (o : outcome A) : World :=
  match o with
  | Ok _ w => w
  | Raise _ w => w
  end.

(** A computation that only reads. *)
Definition read_only {A} (m : M A) : Prop := ∀ w, world_of (m w) = w.

(** ** Sample data *)

Module Sample.

Definition models : Models :=
  mkModels (Some 1) (λ q, 0 <=? q) (λ _, true) "pending" ""
    (λ r t, match r with
            | Some r => if (1 <=? r) && (r <=? 5) then Some (r, default "" t)
                        else None
            | None => None
            end).

Definition alice : User := mkUser 1 false.
Definition bob : User := mkUser 2 false.

Definition book_a : Book := mkBook "Test Book 1" 1999 10 None.
Definition book_b : Book := mkBook "Test Book 2" 2999 5 None.

(** Two users with their carts, two books, nothing else. *)
Definition empty_db : DB :=
  mkDB (<[1 := book_a]> (<[2 := book_b]> ∅)) [mkCart 1 1; mkCart 2 2]
       [] 1 [] 1 [] 1 [] 1.

(** Alice's cart holds two copies of book 1. *)
Definition cart_db : DB :=
  mkDB (<[1 := book_a]> (<[2 := book_b]> ∅)) [mkCart 1 1; mkCart 2 2]
       [mkCartItem 1 1 1 2] 2 [] 1 [] 1 [] 1.

(** Alice's cart holds six copies of book 2, of which five are in stock. *)
Definition short_db : DB :=
  mkDB (<[1 := book_a]> (<[2 := book_b]> ∅)) [mkCart 1 1; mkCart 2 2]
       [mkCartItem 1 1 2 6] 2 [] 1 [] 1 [] 1.

(** Book 1 has the ratings 5 and 3, book 2 has none. *)
Definition reviewed_db : DB :=
  mkDB (<[1 := book_a]> (<[2 := book_b]> ∅)) [mkCart 1 1; mkCart 2 2]
       [] 1 [] 1 [] 1
       [mkReview 1 1 1 5 "great"; mkReview 2 1 2 3 "fine"] 3.

(** Book 1 has the ratings 5, 5 and 4. *)
Definition rated_thrice_db : DB :=
  mkDB (<[1 := book_a]> (<[2 := book_b]> ∅)) [mkCart 1 1; mkCart 2 2]
       [] 1 [] 1 [] 1
       [mkReview 1 1 1 5 "great"; mkReview 2 1 2 5 "great too";
        mkReview 3 1 3 4 "good"] 4.

Definition address : OrderData :=
  mkOrderData None (Some "123 Test St, Test City, TS 12345").

(** Alice's cart holds two copies of book 1 and one of book 2, Bob's cart
    holds four copies of book 1. *)
Definition shared_db : DB :=
  mkDB (<[1 := book_a]> (<[2 := book_b]> ∅)) [mkCart 1 1; mkCart 2 2]
       [mkCartItem 1 1 1 2; mkCartItem 2 2 1 4; mkCartItem 3 1 2 1] 4
       [] 1 [] 1 [] 1.

(** A user who has no cart. *)
Definition carol : User := mkUser 3 false.

Definition framework : AuthFramework :=
  mkAuthFramework (λ _, true) (λ _, true) (λ _, true) false
    (λ p, bool_decide (8 ≤ String.length p)%nat)
    (λ p, "hashed:" +:+ p) "!" (λ x, x) (λ x, x).

(** A site with no account yet. *)
Definition site : Site := mkSite [] 1 1 (mkWorld
  (mkDB (<[1 := book_a]> (<[2 := book_b]> ∅)) [] [] 1 [] 1 [] 1 [] 1) None).

Definition new_user : RegisterData :=
  mkRegisterData (Some "newuser") (Some "newuserpass123")
    (Some "newuserpass123") (Some "newuser@example.com") (Some "New")
    (Some "User").

End Sample.

(** ** Reasoning about the monad *)

Lemma bind_unfold {A B} (m : M A) (f : A → M B) (w : World) :
  (m ≫= f) w =
  match m w with
  | Ok a w' => f a w'
  | Raise e w' => Raise e w'
  end.
Proof. reflexivity. Qed.

Lemma bind_Ok {A B} (m : M A) (f : A → M B) w a w' :
  m w = Ok a w' → (m ≫= f) w = f a w'.
Proof. intros H. rewrite bind_unfold, H. reflexivity. Qed.

Lemma bind_Raise {A B} (m : M A) (f : A → M B) w e w' :
  m w = Raise e w' → (m ≫= f) w = Raise e w'.
Proof. intros H. rewrite bind_unfold, H. reflexivity. Qed.

Lemma execute_no_fault (f : DB → DB) (w : World) :
  write_budget w = None → execute f w = Ok () (mkWorld (f (db w)) None).
Proof. intros H. unfold execute. rewrite H. reflexivity. Qed.

Lemma Cart_objects_get_one user cart w :
  carts_of user (db w) = [cart] → Cart_objects_get user w = Ok cart w.
Proof.
  intros H. unfold Cart_objects_get.
  rewrite bind_unfold. unfold query. rewrite H. reflexivity.
Qed.

Lemma get_cart_or_404_one u cart w :
  carts_of (user_id u) (db w) = [cart] → get_cart_or_404 u w = Ok cart w.
Proof.
  intros H. unfold get_cart_or_404.
  rewrite bind_unfold. unfold query. rewrite H. reflexivity.
Qed.

(** ** The sum of the ratings *)

Lemma sum_ratings_fmap (rs : list Review) :
  sum_ratings rs = foldr Z.add 0 (rating <$> rs).
Proof.
  unfold sum_ratings. induction rs as [|r rs IH]; [reflexivity|].
  cbn [foldr fmap list_fmap]. f_equal. exact IH.
Qed.

(** ** Placing an order on an empty cart *)

Lemma OrderSerializer_create_empty models u vd cart w :
  carts_of (user_id u) (db w) = [cart] →
  cart_items_all (cart_id cart) (db w) = [] →
  OrderSerializer_create models u vd w =
  Raise (ValidationError "error" "Cannot place order with empty cart") w.
Proof.
  intros Hcart Hitems. unfold OrderSerializer_create.
  rewrite (bind_Ok _ _ _ _ _ (Cart_objects_get_one _ _ _ Hcart)).
  rewrite bind_unfold. unfold query. rewrite Hitems. reflexivity.
Qed.

(** C4. When the requester's cart holds no item, placing an order raises the
    validation error "Cannot place order with empty cart", the view answers
    400 with that error, and the store is left exactly as it was: no order is
    created and nothing else is modified. *)
Theorem empty_cart_order_rejected models u data cart w :
  carts_of (user_id u) (db w) = [cart] →
  cart_items_all (cart_id cart) (db w) = [] →
  Order_fields_valid models data = true →
  OrderSerializer_create models u data w =
    Raise (ValidationError "error" "Cannot place order with empty cart") w ∧
  OrderViewSet_create models (Some u) data w =
    (mkResponse HTTP_400_BAD_REQUEST
       (ErrorBody "error" "Cannot place order with empty cart"), w).
Proof.
  intros Hcart Hitems Hvalid. split.
  - by apply OrderSerializer_create_empty with cart.
  - unfold OrderViewSet_create, dispatch.
    rewrite bind_unfold. cbn [check_permissions forallb has_permission
      OrderViewSet_get_permissions_create andb mret M_ret].
    rewrite bind_unfold. cbn [request_user mret M_ret].
    rewrite bind_unfold. unfold OrderSerializer_is_valid. rewrite Hvalid.
    cbn [mret M_ret].
    rewrite bind_unfold.
    rewrite (OrderSerializer_create_empty _ _ _ _ _ Hcart Hitems).
    reflexivity.
Qed.

Lemma empty_cart_order_rejected_witness :
  OrderSerializer_create Sample.models Sample.alice Sample.address
    (mkWorld Sample.empty_db None) =
    Raise (ValidationError "error" "Cannot place order with empty cart")
      (mkWorld Sample.empty_db None) ∧
  OrderViewSet_create Sample.models (Some Sample.alice) Sample.address
    (mkWorld Sample.empty_db None) =
    (mkResponse HTTP_400_BAD_REQUEST
       (ErrorBody "error" "Cannot place order with empty cart"),
     mkWorld Sample.empty_db None).
Proof.
  apply (empty_cart_order_rejected Sample.models Sample.alice Sample.address
           (mkCart 1 1) (mkWorld Sample.empty_db None));
    reflexivity.
Defined.

(** ** Cart items *)

Lemma NoDup_fmap_inj_on {A B} (f : A → B) (l : list A) x y :
  NoDup (f <$> l) → x ∈ l → y ∈ l → f x = f y → x = y.
Proof.
  induction l as [|a l IH]; intros Hnd Hx Hy Hf.
  - by apply elem_of_nil in Hx.
  - rewrite fmap_cons in Hnd. apply NoDup_cons in Hnd as [Hnot Hnd].
    apply elem_of_cons in Hx as [->|Hx]; apply elem_of_cons in Hy as [->|Hy].
    + reflexivity.
    + exfalso. apply Hnot. rewrite Hf. by apply list_elem_of_fmap_2.
    + exfalso. apply Hnot. rewrite <- Hf. by apply list_elem_of_fmap_2.
    + by apply IH.
Qed.

Lemma filter_fmap_stable {A} (P : A → Prop) `{∀ x, Decision (P x)}
  (g : A → A) (l : list A) :
  (∀ x, P (g x) ↔ P x) → filter P (g <$> l) = g <$> filter P l.
Proof.
  intros Hg. induction l as [|a l IH]; [reflexivity|].
  rewrite fmap_cons, !filter_cons.
  destruct (decide (P (g a))) as [Hga|Hga], (decide (P a)) as [Ha|Ha].
  - rewrite fmap_cons. by f_equal.
  - exfalso. apply Ha. by apply Hg.
  - exfalso. apply Hga. by apply Hg.
  - exact IH.
Qed.

Lemma fmap_replace_id {A} `{EqDecision A} (f : A → Z) (l : list A) x y :
  f y = f x → f <$> ((λ r, if decide (r = x) then y else r) <$> l) = f <$> l.
Proof.
  intros Hf. rewrite <- list_fmap_compose. apply list_fmap_ext.
  intros i r _. simpl. by destruct (decide (r = x)) as [->|].
Qed.

(** Saving a loaded row rewrites that row and no other. *)
Lemma save_cart_item_replace ci ci' rows :
  NoDup (item_id <$> rows) → ci ∈ rows → item_id ci' = item_id ci →
  save_cart_item ci' rows = (λ r, if decide (r = ci) then ci' else r) <$> rows.
Proof.
  intros Hnd Hin Hid. unfold save_cart_item.
  rewrite decide_True by (rewrite Hid; by apply list_elem_of_fmap_2).
  apply list_fmap_ext. intros i r Hr.
  apply list_elem_of_lookup_2 in Hr.
  destruct (decide (item_id r = item_id ci')) as [E|E],
           (decide (r = ci)) as [E'|E']; try reflexivity.
  - exfalso. apply E'. apply (NoDup_fmap_inj_on item_id rows); [done..|congruence].
  - exfalso. apply E. by rewrite E'.
Qed.

Lemma matching_elem_of cart book d ci :
  ci ∈ cart_items_matching cart book d ↔
  ci ∈ cart_items d ∧ item_cart ci = cart ∧ Some (item_book ci) = book.
Proof. unfold cart_items_matching. rewrite list_elem_of_filter. tauto. Qed.

Lemma CartItem_objects_get_one cart book ci w :
  cart_items_matching cart book (db w) = [ci] →
  CartItem_objects_get cart book w = Ok ci w.
Proof.
  intros H. unfold CartItem_objects_get. rewrite bind_unfold.
  unfold query. rewrite H. reflexivity.
Qed.

Lemma CartItem_objects_get_none cart book w :
  cart_items_matching cart book (db w) = [] →
  CartItem_objects_get cart book w = Raise (DoesNotExist "CartItem") w.
Proof.
  intros H. unfold CartItem_objects_get. rewrite bind_unfold.
  unfold query. rewrite H. reflexivity.
Qed.

Lemma CartItemSerializer_create_merge models u cart b q ci w :
  write_budget w = None →
  carts_of (user_id u) (db w) = [cart] →
  cart_items_matching (cart_id cart) (Some b) (db w) = [ci] →
  CartItemSerializer_create models u b (Some q) w =
  Ok (merged ci q)
     (mkWorld (with_cart_items (save_cart_item (merged ci q)) (db w)) None).
Proof.
  intros Hb Hcart Hm. unfold CartItemSerializer_create.
  rewrite (bind_Ok _ _ _ _ _ (Cart_objects_get_one _ _ _ Hcart)).
  unfold try_except_DoesNotExist.
  rewrite (bind_Ok _ _ _ _ _ (CartItem_objects_get_one _ _ _ _ Hm)).
  rewrite bind_unfold. unfold CartItem_save.
  rewrite (execute_no_fault _ _ Hb). reflexivity.
Qed.

Lemma CartItemSerializer_create_new models u cart b q w :
  write_budget w = None →
  carts_of (user_id u) (db w) = [cart] →
  cart_items_matching (cart_id cart) (Some b) (db w) = [] →
  CartItemSerializer_create models u b (Some q) w =
  Ok (mkCartItem (next_cart_item (db w)) (cart_id cart) b q)
     (mkWorld (insert_cart_item (cart_id cart) b q (db w)) None).
Proof.
  intros Hb Hcart Hm. unfold CartItemSerializer_create.
  rewrite (bind_Ok _ _ _ _ _ (Cart_objects_get_one _ _ _ Hcart)).
  unfold try_except_DoesNotExist.
  rewrite (bind_Raise _ _ _ _ _ (CartItem_objects_get_none _ _ _ Hm)).
  rewrite decide_True by reflexivity.
  unfold CartItem_objects_create. rewrite bind_unfold. unfold query.
  rewrite bind_unfold. rewrite (execute_no_fault _ _ Hb). reflexivity.
Qed.

Lemma add_item_eval models u cart b book q w ci' w' :
  books (db w) !! b = Some book →
  CartItem_quantity_valid models q = true →
  CartItemSerializer_create models u b (Some q) w = Ok ci' w' →
  carts_of (user_id u) (db w') = [cart] →
  CartViewSet_add_item models (Some u) (mkCartItemData (Some b) (Some q)) w =
  (mkResponse HTTP_200_OK (CartBody cart (cart_items_all (cart_id cart) (db w'))),
   w').
Proof.
  intros Hbook Hvalid Hcreate Hcart.
  unfold CartViewSet_add_item, dispatch.
  rewrite bind_unfold.
  cbn [check_permissions CartViewSet_permission_classes forallb
       has_permission andb mret M_ret].
  rewrite bind_unfold. cbn [request_user mret M_ret].
  rewrite bind_unfold. unfold CartItemSerializer_is_valid.
  cbn [data_book_id data_quantity].
  rewrite bind_unfold. unfold query. rewrite Hbook, Hvalid.
  cbn [mret M_ret fst snd].
  rewrite bind_unfold, Hcreate.
  rewrite (bind_Ok _ _ _ _ _ (get_cart_or_404_one _ _ _ Hcart)).
  reflexivity.
Qed.

Lemma keys_wf_rewrite_row d ci ci' :
  cart_item_keys_wf d → item_id ci' = item_id ci →
  cart_item_keys_wf (with_cart_items (rewrite_row ci ci') d).
Proof.
  intros [Hnd Hlt] Hid. split; cbn [cart_items with_cart_items next_cart_item].
  - unfold rewrite_row. by rewrite fmap_replace_id.
  - intros r Hr. unfold rewrite_row in Hr.
    apply list_elem_of_fmap in Hr as (r0 & -> & Hr0).
    destruct (decide (r0 = ci)) as [->|]; [rewrite Hid|]; by apply Hlt.
Qed.

Lemma keys_wf_insert d cart b q :
  cart_item_keys_wf d → cart_item_keys_wf (insert_cart_item cart b q d).
Proof.
  intros [Hnd Hlt]. split; cbn [cart_items insert_cart_item next_cart_item].
  - rewrite fmap_app. apply NoDup_app. split; [done|]. split.
    + intros x Hx Hx'. cbn in Hx'. apply list_elem_of_singleton in Hx'.
      apply list_elem_of_fmap in Hx as (r & -> & Hr).
      apply Hlt in Hr. lia.
    + cbn. apply NoDup_singleton.
  - intros r Hr. apply elem_of_app in Hr as [Hr|Hr].
    + apply Hlt in Hr. lia.
    + apply list_elem_of_singleton in Hr as ->. cbn. lia.
Qed.

Lemma matching_rewrite_row d ci ci' cart book :
  item_cart ci' = item_cart ci → item_book ci' = item_book ci →
  cart_items_matching cart book (with_cart_items (rewrite_row ci ci') d) =
  rewrite_row ci ci' (cart_items_matching cart book d).
Proof.
  intros Hc Hb. unfold cart_items_matching, rewrite_row.
  cbn [cart_items with_cart_items].
  apply filter_fmap_stable. intros r.
  destruct (decide (r = ci)) as [->|]; [rewrite Hc, Hb|]; tauto.
Qed.

Lemma one_item_per_pair_rewrite_row d ci ci' :
  one_item_per_pair d →
  item_cart ci' = item_cart ci → item_book ci' = item_book ci →
  one_item_per_pair (with_cart_items (rewrite_row ci ci') d).
Proof.
  intros H Hc Hb cart book.
  rewrite (matching_rewrite_row _ _ _ _ _ Hc Hb).
  unfold rewrite_row. rewrite length_fmap. apply H.
Qed.

Lemma matching_insert d cart b q cart' book' :
  cart_items_matching cart' (Some book') (insert_cart_item cart b q d) =
  cart_items_matching cart' (Some book') d ++
  (if decide (cart = cart' ∧ b = book')
   then [mkCartItem (next_cart_item d) cart b q] else []).
Proof.
  unfold cart_items_matching. cbn [cart_items insert_cart_item].
  rewrite filter_app. f_equal.
  rewrite filter_cons, filter_nil. cbn [item_cart item_book].
  destruct (decide (cart = cart' ∧ Some b = Some book')) as [[-> E]|E].
  - injection E as ->. by rewrite decide_True.
  - rewrite decide_False; [done|]. intros [-> ->]. by apply E.
Qed.

Lemma one_item_per_pair_insert d cart b q :
  one_item_per_pair d →
  cart_items_matching cart (Some b) d = [] →
  one_item_per_pair (insert_cart_item cart b q d).
Proof.
  intros H Hnone cart' book'. rewrite matching_insert.
  destruct (decide (cart = cart' ∧ b = book')) as [[<- <-]|_].
  - rewrite Hnone. cbn. lia.
  - rewrite app_nil_r. apply H.
Qed.

Lemma matching_one_elem cart book d ci :
  cart_items_matching cart book d = [ci] →
  ci ∈ cart_items d ∧ item_cart ci = cart ∧ Some (item_book ci) = book.
Proof.
  intros H. apply matching_elem_of. rewrite H. apply list_elem_of_singleton.
  reflexivity.
Qed.

Lemma add_item_existing models u cart b book q ci w :
  write_budget w = None →
  cart_item_keys_wf (db w) →
  carts_of (user_id u) (db w) = [cart] →
  books (db w) !! b = Some book →
  CartItem_quantity_valid models q = true →
  cart_items_matching (cart_id cart) (Some b) (db w) = [ci] →
  let d' := with_cart_items (rewrite_row ci (merged ci q)) (db w) in
  CartViewSet_add_item models (Some u) (mkCartItemData (Some b) (Some q)) w =
  (mkResponse HTTP_200_OK (CartBody cart (cart_items_all (cart_id cart) d')),
   mkWorld d' None).
Proof.
  intros Hb [Hnd _] Hcart Hbook Hvalid Hm d'.
  destruct (matching_one_elem _ _ _ _ Hm) as (Hin & _ & _).
  assert (Hd' : with_cart_items (save_cart_item (merged ci q)) (db w) = d').
  { unfold d', with_cart_items. f_equal.
    by apply save_cart_item_replace. }
  rewrite (add_item_eval models u cart b book q w (merged ci q) (mkWorld d' None));
    try done.
  rewrite <- Hd'. by apply CartItemSerializer_create_merge with cart.
Qed.

Lemma add_item_new models u cart b book q w :
  write_budget w = None →
  carts_of (user_id u) (db w) = [cart] →
  books (db w) !! b = Some book →
  CartItem_quantity_valid models q = true →
  cart_items_matching (cart_id cart) (Some b) (db w) = [] →
  let d' := insert_cart_item (cart_id cart) b q (db w) in
  CartViewSet_add_item models (Some u) (mkCartItemData (Some b) (Some q)) w =
  (mkResponse HTTP_200_OK (CartBody cart (cart_items_all (cart_id cart) d')),
   mkWorld d' None).
Proof.
  intros Hb Hcart Hbook Hvalid Hm d'.
  rewrite (add_item_eval models u cart b book q w
             (mkCartItem (next_cart_item (db w)) (cart_id cart) b q)
             (mkWorld d' None)); try done.
  by apply CartItemSerializer_create_new.
Qed.

(** C2. [add_item] with quantity [q1] answers 200; when the cart already
    holds an item for the book, that row's quantity grows by [q1] and no
    other row changes; when it holds none, exactly one row with quantity
    [q1] is appended.  Adding the book a second time with [q2] to a cart that
    did not hold it leaves a single row for the pair, with quantity
    [q1 + q2].  There is never more than one row per (cart, book) pair. *)
Theorem add_item_increments_or_creates models u cart b book q1 q2 w :
  write_budget w = None →
  cart_item_keys_wf (db w) →
  one_item_per_pair (db w) →
  carts_of (user_id u) (db w) = [cart] →
  books (db w) !! b = Some book →
  CartItem_quantity_valid models q1 = true →
  CartItem_quantity_valid models q2 = true →
  let add q := CartViewSet_add_item models (Some u)
                 (mkCartItemData (Some b) (Some q)) in
  let w1 := (add q1 w).2 in
  let w2 := (add q2 w1).2 in
  status_code (add q1 w).1 = HTTP_200_OK ∧
  (∀ ci, cart_items_matching (cart_id cart) (Some b) (db w) = [ci] →
     cart_items (db w1) = rewrite_row ci (merged ci q1) (cart_items (db w)) ∧
     cart_items_matching (cart_id cart) (Some b) (db w1) = [merged ci q1]) ∧
  (cart_items_matching (cart_id cart) (Some b) (db w) = [] →
     cart_items (db w1) =
       cart_items (db w) ++
       [mkCartItem (next_cart_item (db w)) (cart_id cart) b q1] ∧
     cart_items_matching (cart_id cart) (Some b) (db w2) =
       [mkCartItem (next_cart_item (db w)) (cart_id cart) b (q1 + q2)]) ∧
  one_item_per_pair (db w1) ∧
  one_item_per_pair (db w2).
Proof.
  intros Hb Hwf Hone Hcart Hbook Hv1 Hv2 add w1 w2.
  pose proof (Hone (cart_id cart) b) as Hlen.
  destruct (cart_items_matching (cart_id cart) (Some b) (db w))
    as [|ci [|ci2 rest]] eqn:Hm; [| |cbn in Hlen; lia].
  - (* no row yet *)
    pose proof (add_item_new models u cart b book q1 w Hb Hcart Hbook Hv1 Hm)
      as E1. cbn zeta in E1.
    set (new := mkCartItem (next_cart_item (db w)) (cart_id cart) b q1).
    set (d1 := insert_cart_item (cart_id cart) b q1 (db w)) in *.
    assert (Hw1 : w1 = mkWorld d1 None) by (unfold w1, add; by rewrite E1).
    assert (Hm1 : cart_items_matching (cart_id cart) (Some b) (db w1) = [new]).
    { rewrite Hw1. cbn [db]. unfold d1. rewrite matching_insert, Hm.
      by rewrite decide_True. }
    assert (Hwf1 : cart_item_keys_wf (db w1))
      by (rewrite Hw1; cbn [db]; unfold d1; by apply keys_wf_insert).
    assert (Hone1 : one_item_per_pair (db w1))
      by (rewrite Hw1; cbn [db]; unfold d1; by apply one_item_per_pair_insert).
    assert (Hb1 : write_budget w1 = None) by (by rewrite Hw1).
    assert (Hcart1 : carts_of (user_id u) (db w1) = [cart])
      by (by rewrite Hw1).
    assert (Hbook1 : books (db w1) !! b = Some book) by (by rewrite Hw1).
    pose proof (add_item_existing models u cart b book q2 new w1
                  Hb1 Hwf1 Hcart1 Hbook1 Hv2 Hm1) as E2. cbn zeta in E2.
    assert (Hw2 : w2 = mkWorld (with_cart_items
                     (rewrite_row new (merged new q2)) (db w1)) None)
      by (unfold w2, add; by rewrite E2).
    split; [|split; [|split; [|split]]].
    + unfold add. by rewrite E1.
    + intros ci H. discriminate H.
    + intros _. split; [by rewrite Hw1|].
      rewrite Hw2. cbn [db]. rewrite matching_rewrite_row by reflexivity.
      rewrite Hm1. unfold rewrite_row. cbn [fmap list_fmap].
      by rewrite decide_True.
    + exact Hone1.
    + rewrite Hw2. cbn [db]. by apply one_item_per_pair_rewrite_row.
  - (* one row *)
    pose proof (add_item_existing models u cart b book q1 ci w
                  Hb Hwf Hcart Hbook Hv1 Hm) as E1. cbn zeta in E1.
    set (d1 := with_cart_items (rewrite_row ci (merged ci q1)) (db w)) in *.
    assert (Hw1 : w1 = mkWorld d1 None) by (unfold w1, add; by rewrite E1).
    assert (Hm1 : cart_items_matching (cart_id cart) (Some b) (db w1)
                  = [merged ci q1]).
    { rewrite Hw1. cbn [db]. unfold d1.
      rewrite matching_rewrite_row by reflexivity.
      rewrite Hm. unfold rewrite_row. cbn [fmap list_fmap].
      by rewrite decide_True. }
    assert (Hwf1 : cart_item_keys_wf (db w1))
      by (rewrite Hw1; cbn [db]; unfold d1; by apply keys_wf_rewrite_row).
    assert (Hone1 : one_item_per_pair (db w1))
      by (rewrite Hw1; cbn [db]; unfold d1; by apply one_item_per_pair_rewrite_row).
    assert (Hb1 : write_budget w1 = None) by (by rewrite Hw1).
    assert (Hcart1 : carts_of (user_id u) (db w1) = [cart])
      by (by rewrite Hw1).
    assert (Hbook1 : books (db w1) !! b = Some book) by (by rewrite Hw1).
    pose proof (add_item_existing models u cart b book q2 (merged ci q1) w1
                  Hb1 Hwf1 Hcart1 Hbook1 Hv2 Hm1) as E2. cbn zeta in E2.
    assert (Hw2 : w2 = mkWorld (with_cart_items
                     (rewrite_row (merged ci q1) (merged (merged ci q1) q2))
                     (db w1)) None)
      by (unfold w2, add; by rewrite E2).
    split; [|split; [|split; [|split]]].
    + unfold add. by rewrite E1.
    + intros ci' H. injection H as <-. split; [by rewrite Hw1|exact Hm1].
    + discriminate.
    + exact Hone1.
    + rewrite Hw2. cbn [db]. by apply one_item_per_pair_rewrite_row.
Qed.

Lemma add_item_increments_or_creates_witness :
  let add q := CartViewSet_add_item Sample.models (Some Sample.alice)
                 (mkCartItemData (Some 1) (Some q)) in
  let w := mkWorld Sample.empty_db None in
  cart_items (db (add 2 w).2) = [mkCartItem 1 1 1 2] ∧
  cart_items_matching 1 (Some 1) (db (add 3 (add 2 w).2).2) =
    [mkCartItem 1 1 1 5].
Proof.
  intros add w.
  assert (Hwf : cart_item_keys_wf (db w)).
  { split; [apply NoDup_nil_2|]. intros ci H. by apply elem_of_nil in H. }
  assert (Hone : one_item_per_pair (db w)).
  { intros c b. vm_compute. lia. }
  destruct (add_item_increments_or_creates Sample.models Sample.alice
              (mkCart 1 1) 1 Sample.book_a 2 3 w
              eq_refl Hwf Hone eq_refl eq_refl eq_refl eq_refl)
    as (_ & _ & H & _).
  apply H. reflexivity.
Defined.

(** ** [update_item] *)

(** C10. When the cart holds an item for the book, [update_item] answers 200
    and rewrites that row with the quantity of the request, or with 1 when
    the request gives none; the row keeps its key, cart and book, every other
    row and every other table is as before. *)
Theorem update_item_replaces_quantity u cart b ci oq w :
  write_budget w = None →
  cart_item_keys_wf (db w) →
  carts_of (user_id u) (db w) = [cart] →
  cart_items_matching (cart_id cart) (Some b) (db w) = [ci] →
  let q := match oq with Some q => q | None => 1 end in
  let new := mkCartItem (item_id ci) (item_cart ci) (item_book ci) q in
  let d' := with_cart_items (rewrite_row ci new) (db w) in
  CartViewSet_update_item (Some u) (mkCartItemData (Some b) oq) w =
    (mkResponse HTTP_200_OK (CartBody cart (cart_items_all (cart_id cart) d')),
     mkWorld d' None) ∧
  cart_items_matching (cart_id cart) (Some b) d' = [new].
Proof.
  intros Hb [Hnd _] Hcart Hm q new d'.
  destruct (matching_one_elem _ _ _ _ Hm) as (Hin & _ & _).
  split.
  - unfold CartViewSet_update_item, dispatch.
    rewrite bind_unfold.
    cbn [check_permissions CartViewSet_permission_classes forallb
         has_permission andb mret M_ret].
    rewrite bind_unfold. cbn [request_user mret M_ret].
    rewrite (bind_Ok _ _ _ _ _ (get_cart_or_404_one _ _ _ Hcart)).
    cbn [data_book_id data_quantity]. unfold try_except_DoesNotExist.
    rewrite (bind_Ok _ _ _ _ _ (CartItem_objects_get_one _ _ _ _ Hm)).
    rewrite bind_unfold. unfold CartItem_save.
    rewrite (execute_no_fault _ _ Hb).
    assert (Hd' : with_cart_items
                    (save_cart_item
                       (mkCartItem (item_id ci) (item_cart ci) (item_book ci)
                                   (default 1 oq))) (db w) = d').
    { unfold d', with_cart_items. f_equal.
      apply save_cart_item_replace; [done..|]. reflexivity. }
    rewrite Hd'. reflexivity.
  - unfold d'. rewrite matching_rewrite_row by reflexivity.
    rewrite Hm. unfold rewrite_row. cbn [fmap list_fmap].
    by rewrite decide_True.
Qed.

Lemma update_item_replaces_quantity_witness :
  let w := mkWorld Sample.cart_db None in
  cart_items (db (CartViewSet_update_item (Some Sample.alice)
                    (mkCartItemData (Some 1) (Some 7)) w).2)
    = [mkCartItem 1 1 1 7] ∧
  cart_items (db (CartViewSet_update_item (Some Sample.alice)
                    (mkCartItemData (Some 1) None) w).2)
    = [mkCartItem 1 1 1 1].
Proof.
  intros w.
  assert (Hwf : cart_item_keys_wf (db w)).
  { split; [apply NoDup_singleton|]. intros ci H.
    apply list_elem_of_singleton in H as ->. reflexivity. }
  split.
  - destruct (update_item_replaces_quantity Sample.alice
                (mkCart 1 1) 1 (mkCartItem 1 1 1 2) (Some 7) w
                eq_refl Hwf eq_refl eq_refl) as [E _].
    rewrite E. reflexivity.
  - destruct (update_item_replaces_quantity Sample.alice
                (mkCart 1 1) 1 (mkCartItem 1 1 1 2) None w
                eq_refl Hwf eq_refl eq_refl) as [E _].
    rewrite E. reflexivity.
Defined.

(** C9. [update_item] stores the quantity of the request as it comes: from a
    cart whose one item has quantity 2, the request with quantity 0 is
    answered 200 and leaves a cart item of quantity 0, so the quantities are
    no longer all positive. *)
Theorem update_item_stores_zero_quantity :
  let w := mkWorld Sample.cart_db None in
  let r := CartViewSet_update_item (Some Sample.alice)
             (mkCartItemData (Some 1) (Some 0)) w in
  quantities_positive (db w) ∧
  status_code r.1 = HTTP_200_OK ∧
  cart_items (db r.2) = [mkCartItem 1 1 1 0] ∧
  ¬ quantities_positive (db r.2).
Proof.
  intros w r.
  assert (E : cart_items (db r.2) = [mkCartItem 1 1 1 0]) by reflexivity.
  split; [|split; [|split]].
  - intros ci H. apply list_elem_of_singleton in H as ->. reflexivity.
  - reflexivity.
  - exact E.
  - intros H. specialize (H (mkCartItem 1 1 1 0)).
    rewrite E in H. cbn in H.
    assert (0 < 0) by (apply H; apply list_elem_of_singleton; reflexivity).
    lia.
Qed.

(** ** Placing an order *)

Lemma sum_item_prices_ok items w :
  (∀ ci, ci ∈ items → is_Some (books (db w) !! item_book ci)) →
  sum_item_prices items w = Ok (cart_total (db w) items) w.
Proof.
  induction items as [|ci items IH]; intros Hbooks; [reflexivity|].
  cbn [sum_item_prices]. unfold Book_objects_get.
  rewrite !bind_unfold. unfold query.
  destruct (Hbooks ci) as [b Hb]; [apply list_elem_of_here|].
  rewrite Hb. cbn [mret M_ret].
  rewrite bind_unfold, IH.
  - cbn [cart_total foldr]. unfold item_subtotal at 1. by rewrite Hb.
  - intros ci' H. apply Hbooks. by apply list_elem_of_further.
Qed.

Lemma ordered_quantity_cons pk ci items :
  ordered_quantity pk (ci :: items) =
  (if decide (item_book ci = pk) then quantity ci else 0)
  + ordered_quantity pk items.
Proof. reflexivity. Qed.

Lemma sold_sold n m b : sold n (sold m b) = sold (m + n) b.
Proof. unfold sold. cbn. f_equal. lia. Qed.

Lemma sold_0 b : sold 0 b = b.
Proof. destruct b. unfold sold. cbn. f_equal. lia. Qed.

(** The loop of [OrderSerializer.create] when no statement fails. *)
Lemma create_order_items_ok order items w :
  write_budget w = None →
  (∀ ci, ci ∈ items → is_Some (books (db w) !! item_book ci)) →
  ∃ d' ois,
    create_order_items order items w = Ok () (mkWorld d' None) ∧
    order_items d' = order_items (db w) ++ ois ∧
    Forall2 (snapshot_of (db w) order) items ois ∧
    (∀ pk, books d' !! pk
           = sold (ordered_quantity pk items) <$> books (db w) !! pk) ∧
    carts d' = carts (db w) ∧
    cart_items d' = cart_items (db w) ∧
    next_cart_item d' = next_cart_item (db w) ∧
    orders d' = orders (db w) ∧
    next_order d' = next_order (db w) ∧
    reviews d' = reviews (db w) ∧
    next_review d' = next_review (db w).
Proof.
  revert w. induction items as [|ci items IH]; intros w Hb Hbooks.
  - exists (db w), []. destruct w as [d o]. cbn in Hb. subst o.
    split; [reflexivity|]. split; [by rewrite app_nil_r|].
    split; [constructor|]. split; [|done].
    intros pk. cbn. destruct (books d !! pk) as [b|]; [|done].
    cbn. by rewrite sold_0.
  - destruct (Hbooks ci) as [b Hbk]; [apply list_elem_of_here|].
    cbn [create_order_items]. unfold Book_objects_get.
    rewrite !bind_unfold. unfold query. rewrite Hbk. cbn [mret M_ret].
    rewrite bind_unfold. unfold OrderItem_objects_create.
    rewrite (execute_no_fault _ _ Hb).
    rewrite bind_unfold. unfold Book_save.
    rewrite execute_no_fault by reflexivity. cbn [db].
    set (d1 := with_books _ _).
    assert (Hbooks1 : ∀ pk, books d1 !! pk =
              if decide (item_book ci = pk) then Some (sold (quantity ci) b)
              else books (db w) !! pk).
    { intros pk. unfold d1. cbn [books with_books insert_order_item].
      rewrite lookup_insert. by destruct (decide (item_book ci = pk)). }
    destruct (IH (mkWorld d1 None)) as (d' & ois & E & Hois & Hsnap & Hbk' & Hrest);
      [reflexivity| |].
    { intros ci' Hin. cbn [db]. rewrite Hbooks1.
      destruct (decide (item_book ci = item_book ci')); [by eexists|].
      apply Hbooks. by apply list_elem_of_further. }
    cbn [db] in *.
    exists d', (mkOrderItem (next_order_item (db w)) (order_id order)
                            (item_book ci) (quantity ci) (price b) :: ois).
    split; [exact E|]. split.
    { rewrite Hois. unfold d1. cbn [order_items with_books insert_order_item].
      by rewrite <- app_assoc. }
    split.
    { constructor.
      - unfold snapshot_of. cbn. by rewrite Hbk.
      - eapply Forall2_impl; [exact Hsnap|].
        intros ci' oi (H1 & H2 & H3 & H4). repeat split; try done.
        rewrite <- H4. rewrite Hbooks1.
        destruct (decide (item_book ci = item_book ci')) as [e|]; [|done].
        rewrite <- e, Hbk. reflexivity. }
    split; [|exact Hrest].
    intros pk. rewrite Hbk', Hbooks1, ordered_quantity_cons.
    destruct (decide (item_book ci = pk)) as [<-|].
    + rewrite Hbk. cbn. by rewrite sold_sold.
    + rewrite Z.add_0_l. reflexivity.
Qed.

Lemma cart_items_all_deleted cart (rows : list CartItem) :
  filter (λ ci, item_cart ci = cart) (filter (λ r, item_cart r ≠ cart) rows)
  = [].
Proof.
  induction rows as [|r rows IH]; [reflexivity|].
  rewrite filter_cons. destruct (decide (item_cart r ≠ cart)) as [H|H].
  - rewrite filter_cons. by rewrite decide_False.
  - exact IH.
Qed.

Lemma match_nonempty {A X} (l : list A) (a b : X) :
  l ≠ [] → match l with [] => a | _ :: _ => b end = b.
Proof. by destruct l. Qed.

(** [OrderSerializer.create] on a cart with items when no statement fails. *)
Lemma OrderSerializer_create_ok models u cart data w :
  write_budget w = None →
  carts_of (user_id u) (db w) = [cart] →
  cart_items_all (cart_id cart) (db w) ≠ [] →
  (∀ ci, ci ∈ cart_items_all (cart_id cart) (db w) →
         is_Some (books (db w) !! item_book ci)) →
  let items := cart_items_all (cart_id cart) (db w) in
  ∃ order d' ois,
    OrderSerializer_create models u data w = Ok order (mkWorld d' None) ∧
    order_user order = user_id u ∧
    total_price order = cart_total (db w) items ∧
    orders d' = orders (db w) ++ [order] ∧
    order_items d' = order_items (db w) ++ ois ∧
    Forall2 (snapshot_of (db w) order) items ois ∧
    (∀ pk, books d' !! pk
           = sold (ordered_quantity pk items) <$> books (db w) !! pk) ∧
    cart_items d' = filter (λ r, item_cart r ≠ cart_id cart) (cart_items (db w)) ∧
    cart_items_all (cart_id cart) d' = [] ∧
    carts d' = carts (db w).
Proof.
  intros Hb Hcart Hne Hbooks items.
  set (order := mkOrder (next_order (db w)) (user_id u)
                  (default (Order_status_default models) (data_status data))
                  (default (Order_shipping_address_default models)
                           (data_shipping_address data))
                  (cart_total (db w) items)).
  set (w1 := mkWorld (insert_order order (db w)) None).
  destruct (create_order_items_ok order items w1)
    as (d2 & ois & Eloop & Hois & Hsnap & Hbk & Hcarts & Hci & Hnci & Hord & _);
    [reflexivity|exact Hbooks|].
  cbn [db w1] in Hois, Hsnap, Hbk, Hcarts, Hci, Hnci, Hord.
  set (d' := with_cart_items (filter (λ r, item_cart r ≠ cart_id cart)) d2).
  assert (E : OrderSerializer_create models u data w
              = Ok order (mkWorld d' None)).
  { unfold OrderSerializer_create.
    rewrite (bind_Ok _ _ _ _ _ (Cart_objects_get_one _ _ _ Hcart)).
    rewrite bind_unfold. unfold query at 1. fold items.
    rewrite (match_nonempty items) by exact Hne.
    unfold Cart_total_price. rewrite !bind_unfold. unfold query at 1.
    fold items. rewrite sum_item_prices_ok by (subst items; exact Hbooks).
    unfold Order_objects_create. rewrite !bind_unfold. unfold query at 1.
    rewrite bind_unfold, (execute_no_fault _ _ Hb). fold order. fold w1.
    cbn [mret M_ret]. rewrite bind_unfold. unfold query at 1.
    change (cart_items_all (cart_id cart) (db w1)) with items.
    rewrite bind_unfold, Eloop.
    rewrite bind_unfold. unfold cart_items_all_delete.
    rewrite execute_no_fault by reflexivity. reflexivity. }
  exists order, d', ois.
  split; [exact E|].
  split; [reflexivity|]. split; [reflexivity|].
  split; [unfold d'; cbn [orders with_cart_items]; by rewrite Hord|].
  split; [exact Hois|]. split; [exact Hsnap|]. split; [exact Hbk|].
  split; [unfold d'; cbn [cart_items with_cart_items]; by rewrite Hci|].
  split; [|unfold d'; cbn [carts with_cart_items]; exact Hcarts].
  unfold cart_items_all, d'. cbn [cart_items with_cart_items].
  apply cart_items_all_deleted.
Qed.

Lemma OrderViewSet_create_ok models u data w order w' :
  Order_fields_valid models data = true →
  OrderSerializer_create models u data w = Ok order w' →
  OrderViewSet_create models (Some u) data w =
  (mkResponse HTTP_201_CREATED (OrderBody order), w').
Proof.
  intros Hvalid E. unfold OrderViewSet_create, dispatch.
  rewrite bind_unfold.
  cbn [check_permissions forallb has_permission
       OrderViewSet_get_permissions_create andb mret M_ret].
  rewrite bind_unfold. cbn [request_user mret M_ret].
  rewrite bind_unfold. unfold OrderSerializer_is_valid. rewrite Hvalid.
  cbn [mret M_ret]. rewrite bind_unfold, E. reflexivity.
Qed.

(** C1. When the requester's cart holds items and no statement fails, placing
    an order returns an order owned by the requester whose total is the sum
    of price times quantity over the cart's items at the prices of that
    moment; the order is appended to the orders; one order item per cart item
    is appended, with the item's book and quantity and the book's price of
    that moment; each book's stock goes down by the quantity ordered of it;
    every item of the cart is deleted while the cart and the items of other
    carts stay; the view answers 201 with the order. *)
Theorem place_order_effects models u cart data w :
  write_budget w = None →
  carts_of (user_id u) (db w) = [cart] →
  cart_items_all (cart_id cart) (db w) ≠ [] →
  (∀ ci, ci ∈ cart_items_all (cart_id cart) (db w) →
         is_Some (books (db w) !! item_book ci)) →
  Order_fields_valid models data = true →
  let items := cart_items_all (cart_id cart) (db w) in
  ∃ order d' ois,
    OrderSerializer_create models u data w = Ok order (mkWorld d' None) ∧
    OrderViewSet_create models (Some u) data w =
      (mkResponse HTTP_201_CREATED (OrderBody order), mkWorld d' None) ∧
    order_user order = user_id u ∧
    total_price order = cart_total (db w) items ∧
    orders d' = orders (db w) ++ [order] ∧
    order_items d' = order_items (db w) ++ ois ∧
    Forall2 (snapshot_of (db w) order) items ois ∧
    (∀ pk, books d' !! pk
           = sold (ordered_quantity pk items) <$> books (db w) !! pk) ∧
    cart_items d' = filter (λ r, item_cart r ≠ cart_id cart) (cart_items (db w)) ∧
    cart_items_all (cart_id cart) d' = [] ∧
    carts d' = carts (db w).
Proof.
  intros Hb Hcart Hne Hbooks Hvalid items.
  destruct (OrderSerializer_create_ok models u cart data w Hb Hcart Hne Hbooks)
    as (order & d' & ois & E & H).
  exists order, d', ois.
  split; [exact E|]. split; [|exact H].
  by apply OrderViewSet_create_ok.
Qed.

Lemma place_order_effects_witness :
  ∃ order d',
    OrderSerializer_create Sample.models Sample.alice Sample.address
      (mkWorld Sample.cart_db None) = Ok order (mkWorld d' None) ∧
    total_price order = 3998 ∧
    order_items d' = [mkOrderItem 1 (order_id order) 1 2 1999] ∧
    stock_quantity <$> books d' !! 1 = Some 8 ∧
    cart_items d' = [] ∧
    carts d' = carts Sample.cart_db.
Proof.
  destruct (place_order_effects Sample.models Sample.alice (mkCart 1 1)
              Sample.address (mkWorld Sample.cart_db None))
    as (order & d' & ois & E & _); try reflexivity.
  - discriminate.
  - intros ci H. apply list_elem_of_singleton in H as ->. by eexists.
  - exists order, d'. split; [exact E|].
    vm_compute in E. injection E as <- <-. by vm_compute.
Defined.

(** ** Stock *)

(** C5, as stated, fails: the stock of book 2 is 5, the cart asks for 6, the
    order is placed and the stock becomes -1. *)
Lemma place_order_drives_stock_negative :
  stock_non_negative Sample.short_db ∧
  ∃ order d',
    OrderSerializer_create Sample.models Sample.alice Sample.address
      (mkWorld Sample.short_db None) = Ok order (mkWorld d' None) ∧
    stock_quantity <$> books d' !! 2 = Some (-1) ∧
    ¬ stock_non_negative d'.
Proof.
  split.
  - intros pk b. unfold Sample.short_db. cbn [books].
    rewrite lookup_insert. destruct (decide (1 = pk)).
    + intros [= <-]. by cbn.
    + rewrite lookup_insert. destruct (decide (2 = pk)).
      * intros [= <-]. by cbn.
      * by rewrite lookup_empty.
  - eexists _, _. split; [by vm_compute|].
    split; [by vm_compute|].
    intros H. specialize (H 2 (mkBook "Test Book 2" 2999 (-1) None)).
    cbn in H. assert (0 ≤ -1) by (apply H; by vm_compute). lia.
Qed.

(** C5, amended.  Placing an order takes the ordered quantity of every book
    from its stock without looking at what is available: the order is placed
    whatever the stocks are, the stock of every book afterwards is its stock
    before minus the quantity ordered of it (zero for a book that is not in
    the cart), and so the stocks afterwards are all non-negative exactly when
    the stock of every book was at least the quantity ordered of it. *)
Theorem place_order_stock models u cart data w :
  write_budget w = None →
  carts_of (user_id u) (db w) = [cart] →
  cart_items_all (cart_id cart) (db w) ≠ [] →
  (∀ ci, ci ∈ cart_items_all (cart_id cart) (db w) →
         is_Some (books (db w) !! item_book ci)) →
  let items := cart_items_all (cart_id cart) (db w) in
  ∃ order d',
    OrderSerializer_create models u data w = Ok order (mkWorld d' None) ∧
    (∀ pk, stock_quantity <$> books d' !! pk
           = (λ b, stock_quantity b - ordered_quantity pk items)
             <$> books (db w) !! pk) ∧
    (stock_non_negative d' ↔
     ∀ pk b, books (db w) !! pk = Some b →
             ordered_quantity pk items ≤ stock_quantity b).
Proof.
  intros Hb Hcart Hne Hbooks items.
  destruct (OrderSerializer_create_ok models u cart data w Hb Hcart Hne Hbooks)
    as (order & d' & ois & E & _ & _ & _ & _ & _ & Hbk & _).
  exists order, d'. split; [exact E|]. split; [|split].
  - intros pk. rewrite Hbk. by destruct (books (db w) !! pk).
  - intros Hnn pk b0 E0.
    specialize (Hnn pk (sold (ordered_quantity pk items) b0)).
    rewrite Hbk, E0 in Hnn. specialize (Hnn eq_refl). cbn in Hnn. lia.
  - intros Henough pk b Hpk. rewrite Hbk in Hpk.
    destruct (books (db w) !! pk) as [b0|] eqn:E0; [|done].
    injection Hpk as <-. cbn. specialize (Henough pk b0 E0).
    fold items. lia.
Qed.

Lemma place_order_stock_witness :
  ∃ order d',
    OrderSerializer_create Sample.models Sample.alice Sample.address
      (mkWorld Sample.short_db None) = Ok order (mkWorld d' None) ∧
    stock_quantity <$> books d' !! 2 = Some (-1) ∧
    ¬ stock_non_negative d'.
Proof.
  destruct (place_order_stock Sample.models Sample.alice (mkCart 1 1)
              Sample.address (mkWorld Sample.short_db None)
              eq_refl eq_refl)
    as (order & d' & E & Hstock & Hnn).
  - discriminate.
  - intros ci H. apply list_elem_of_singleton in H as ->. by eexists.
  - exists order, d'. split; [exact E|]. split.
    + rewrite Hstock. reflexivity.
    + intros H.
      pose proof (proj1 Hnn H 2 (mkBook "Test Book 2" 2999 5 None) eq_refl)
        as Hle.
      vm_compute in Hle. by apply Hle.
Defined.

(** ** Failure in the middle of a placement *)

(** What the storage layer makes of a list of statements: without a fault
    all of them are in the store; with a budget of [n] statements the first
    [n] are in the store and the exception leaves at the next one. *)
Lemma execute_statements_no_fault statements d :
  execute_statements statements (mkWorld d None)
  = Ok () (mkWorld (run_statements statements d) None).
Proof.
  revert d. induction statements as [|f rest IH]; intros d; [reflexivity|].
  cbn [execute_statements]. rewrite bind_unfold.
  cbn [execute write_budget db]. apply IH.
Qed.

Lemma execute_statements_budget statements d n :
  execute_statements statements (mkWorld d (Some n))
  = if decide (n < length statements)%nat
    then Raise DatabaseError
           (mkWorld (run_statements (take n statements) d) (Some O))
    else Ok () (mkWorld (run_statements statements d)
                        (Some (n - length statements)%nat)).
Proof.
  revert d n. induction statements as [|f rest IH]; intros d n.
  - cbn [execute_statements length]. rewrite decide_False by lia.
    by rewrite Nat.sub_0_r.
  - cbn [execute_statements]. rewrite bind_unfold.
    destruct n as [|n]; cbn [execute write_budget db].
    + rewrite decide_True by (cbn; lia). reflexivity.
    + rewrite IH. cbn [length take].
      destruct (decide (n < length rest)%nat).
      * rewrite decide_True by lia. reflexivity.
      * rewrite decide_False by lia. reflexivity.
Qed.

Lemma execute_bind_ext {A} (f g : DB → DB) (k k' : unit → M A) w :
  f (db w) = g (db w) →
  (∀ budget, k () (mkWorld (f (db w)) budget)
             = k' () (mkWorld (f (db w)) budget)) →
  (execute f ≫= k) w = (execute g ≫= k') w.
Proof.
  intros Hfg Hk. rewrite !bind_unfold. unfold execute. rewrite <- Hfg.
  destruct (write_budget w) as [[|n]|]; [reflexivity|apply Hk..].
Qed.

(** The loop of [OrderSerializer.create] hands the statements of the items
    to the storage layer, when the books of the items exist. *)
Lemma create_order_items_statements order items d budget :
  (∀ ci, ci ∈ items → is_Some (books d !! item_book ci)) →
  create_order_items order items (mkWorld d budget)
  = execute_statements (flat_map (item_statements order) items)
      (mkWorld d budget).
Proof.
  revert d budget. induction items as [|ci items IH]; intros d budget Hbooks;
    [reflexivity|].
  destruct (Hbooks ci) as [b Hb]; [apply list_elem_of_here|].
  cbn [create_order_items flat_map item_statements app execute_statements].
  unfold Book_objects_get.
  rewrite bind_unfold. unfold query at 1. rewrite bind_unfold.
  cbn [query db]. rewrite Hb.
  cbn [mret M_ret]. unfold OrderItem_objects_create, Book_save.
  apply execute_bind_ext; [cbn [db]; by rewrite Hb|]. intros budget1.
  apply execute_bind_ext;
    [cbn [db books insert_order_item]; by rewrite Hb|]. intros budget2.
  apply IH. intros ci' Hin. cbn [books with_books insert_order_item].
  rewrite lookup_insert.
  destruct (decide (item_book ci = item_book ci')); [by eexists|].
  apply Hbooks. by apply list_elem_of_further.
Qed.

Lemma item_statements_length order items :
  length (flat_map (item_statements order) items) = (2 * length items)%nat.
Proof. induction items as [|ci items IH]; cbn in *; lia. Qed.

(** The statements after the creation of the order leave the orders alone. *)
Lemma run_statements_orders statements d :
  Forall (λ f, ∀ x, orders (f x) = orders x) statements →
  orders (run_statements statements d) = orders d.
Proof.
  revert d. induction statements as [|f rest IH]; intros d H; [reflexivity|].
  apply Forall_cons in H as [Hf Hrest].
  unfold run_statements. cbn [foldl].
  etrans; [apply IH, Hrest|]. apply Hf.
Qed.

Lemma item_statements_orders order cart items :
  Forall (λ f, ∀ x, orders (f x) = orders x)
    (flat_map (item_statements order) items
     ++ [with_cart_items (filter (λ r, item_cart r ≠ cart))]).
Proof.
  apply Forall_app. split.
  - induction items as [|ci items IH]; [constructor|].
    cbn [flat_map item_statements app].
    constructor; [intros x; by destruct (books x !! item_book ci)|].
    constructor; [intros x; by destruct (books x !! item_book ci)|].
    exact IH.
  - by constructor.
Qed.

(** [OrderSerializer.create] on a cart with items, whatever the storage
    layer does: the order is computed from the store, and its statements are
    handed over one after the other. *)
Lemma OrderSerializer_create_statements models u cart data w :
  carts_of (user_id u) (db w) = [cart] →
  cart_items_all (cart_id cart) (db w) ≠ [] →
  (∀ ci, ci ∈ cart_items_all (cart_id cart) (db w) →
         is_Some (books (db w) !! item_book ci)) →
  let items := cart_items_all (cart_id cart) (db w) in
  let order := mkOrder (next_order (db w)) (user_id u)
                 (default (Order_status_default models) (data_status data))
                 (default (Order_shipping_address_default models)
                          (data_shipping_address data))
                 (cart_total (db w) items) in
  OrderSerializer_create models u data w
  = match execute_statements
            (placement_statements order (cart_id cart) items) w with
    | Ok _ w' => Ok order w'
    | Raise e w' => Raise e w'
    end.
Proof.
  intros Hcart Hne Hbooks items order.
  unfold OrderSerializer_create.
  rewrite (bind_Ok _ _ _ _ _ (Cart_objects_get_one _ _ _ Hcart)).
  rewrite bind_unfold. unfold query at 1. fold items.
  rewrite (match_nonempty items) by exact Hne.
  unfold Cart_total_price. rewrite !bind_unfold. unfold query at 1.
  fold items. rewrite sum_item_prices_ok by (subst items; exact Hbooks).
  unfold Order_objects_create, query. rewrite !bind_unfold. fold order.
  unfold placement_statements. cbn [execute_statements].
  rewrite bind_unfold.
  destruct (execute (insert_order order) w) as [[] w1|e w1] eqn:E1;
    [|reflexivity].
  assert (Hdb : db w1 = insert_order order (db w)).
  { unfold execute in E1. destruct (write_budget w) as [[|n]|];
      [discriminate|by injection E1 as <-..]. }
  cbn [mret M_ret]. rewrite bind_unfold. rewrite Hdb.
  change (cart_items_all (cart_id cart) (insert_order order (db w)))
    with items.
  destruct w1 as [d1 budget1]. cbn [db] in Hdb. subst d1.
  rewrite bind_unfold.
  rewrite create_order_items_statements by exact Hbooks.
  generalize (flat_map (item_statements order) items). intros statements.
  generalize (mkWorld (insert_order order (db w)) budget1). clear.
  induction statements as [|f rest IH]; intros w0.
  - cbn [execute_statements app mret M_ret]. rewrite !bind_unfold.
    unfold cart_items_all_delete.
    by destruct (execute _ w0) as [[] ?|? ?].
  - cbn [execute_statements app]. rewrite !bind_unfold.
    destruct (execute f w0) as [[] w1|e w1]; [apply IH|reflexivity].
Qed.

(** C3, as stated, fails: the storage layer executes two statements and
    raises on the third.  The placement ends with the exception, and the
    store holds the new order and its order item while the stock is not
    reduced and the cart still holds its item. *)
Lemma place_order_leaves_partial_order :
  ∃ w',
    OrderSerializer_create Sample.models Sample.alice Sample.address
      (mkWorld Sample.cart_db (Some 2%nat)) = Raise DatabaseError w' ∧
    orders (db w') =
      [mkOrder 1 1 "pending" "123 Test St, Test City, TS 12345" 3998] ∧
    order_items (db w') = [mkOrderItem 1 1 1 2 1999] ∧
    stock_quantity <$> books (db w') !! 1 = Some 10 ∧
    cart_items (db w') = [mkCartItem 1 1 1 2] ∧
    db w' ≠ Sample.cart_db.
Proof.
  eexists. split; [by vm_compute|].
  split; [by vm_compute|]. split; [by vm_compute|].
  split; [by vm_compute|]. split; [by vm_compute|].
  intros H. apply (f_equal orders) in H. vm_compute in H. discriminate H.
Qed.

(** C3, amended.  Placing an order hands its statements to the storage layer
    one after the other with no transaction around them: the creation of the
    order, for every cart item the creation of its order item and the
    saving of its book, and the deletion of the cart's items.  When no
    statement fails, all of them are in the store.  When the storage layer
    fails at a statement, the placement ends with that error and the store
    is exactly what the statements before it have made of it: untouched when
    the first statement failed, and otherwise with the new order among the
    orders and nothing rolled back. *)
Theorem place_order_keeps_prior_effects models u cart data w k :
  carts_of (user_id u) (db w) = [cart] →
  cart_items_all (cart_id cart) (db w) ≠ [] →
  (∀ ci, ci ∈ cart_items_all (cart_id cart) (db w) →
         is_Some (books (db w) !! item_book ci)) →
  let items := cart_items_all (cart_id cart) (db w) in
  let order := mkOrder (next_order (db w)) (user_id u)
                 (default (Order_status_default models) (data_status data))
                 (default (Order_shipping_address_default models)
                          (data_shipping_address data))
                 (cart_total (db w) items) in
  let statements := placement_statements order (cart_id cart) items in
  length statements = (2 * length items + 2)%nat ∧
  (write_budget w = None →
   OrderSerializer_create models u data w
   = Ok order (mkWorld (run_statements statements (db w)) None)) ∧
  (write_budget w = Some k → (k < 2 * length items + 2)%nat →
   let d' := run_statements (take k statements) (db w) in
   OrderSerializer_create models u data w
   = Raise DatabaseError (mkWorld d' (Some O)) ∧
   (k = O → d' = db w) ∧
   ((0 < k)%nat → orders d' = orders (db w) ++ [order] ∧ d' ≠ db w)).
Proof.
  intros Hcart Hne Hbooks items order statements.
  assert (Hlen : length statements = (2 * length items + 2)%nat).
  { unfold statements, placement_statements. cbn [length].
    rewrite length_app, item_statements_length. cbn. lia. }
  split; [exact Hlen|].
  rewrite (OrderSerializer_create_statements models u cart data w
             Hcart Hne Hbooks).
  fold items. fold order. fold statements.
  destruct w as [d budget]. cbn [db write_budget] in *.
  split.
  - intros ->. by rewrite execute_statements_no_fault.
  - intros -> Hk. set (d' := run_statements (take k statements) d).
    rewrite execute_statements_budget. fold d'.
    rewrite decide_True by lia. split; [reflexivity|].
    split; [by intros ->|].
    intros Hpos. destruct k as [|n]; [lia|].
    assert (Hord : orders d' = orders d ++ [order]).
    { unfold d', statements, placement_statements.
      cbn [take]. unfold run_statements. cbn [foldl].
      fold (run_statements
              (take n (flat_map (item_statements order) items
                       ++ [with_cart_items
                             (filter (λ r, item_cart r ≠ cart_id cart))]))
              (insert_order order d)).
      rewrite run_statements_orders; [reflexivity|].
      apply Forall_take, item_statements_orders. }
    split; [exact Hord|].
    intros Heq. rewrite Heq in Hord.
    apply (f_equal length) in Hord. rewrite length_app in Hord.
    cbn in Hord. lia.
Qed.

Lemma place_order_keeps_prior_effects_witness :
  OrderSerializer_create Sample.models Sample.alice Sample.address
    (mkWorld Sample.cart_db (Some 2%nat))
  = Raise DatabaseError
      (mkWorld
         (mkDB (<[1 := Sample.book_a]> (<[2 := Sample.book_b]> ∅))
               [mkCart 1 1; mkCart 2 2] [mkCartItem 1 1 1 2] 2
               [mkOrder 1 1 "pending" "123 Test St, Test City, TS 12345" 3998]
               2 [mkOrderItem 1 1 1 2 1999] 2 [] 1)
         (Some O)).
Proof.
  destruct (place_order_keeps_prior_effects Sample.models Sample.alice
              (mkCart 1 1) Sample.address
              (mkWorld Sample.cart_db (Some 2%nat)) 2) as (_ & _ & H).
  - reflexivity.
  - discriminate.
  - intros ci Hin. apply list_elem_of_singleton in Hin as ->. by eexists.
  - destruct H as (E & _); [reflexivity|vm_compute; lia|].
    rewrite E. reflexivity.
Defined.

(** ** Reviews *)

Lemma ReviewSerializer_validate_taken u b w :
  reviews_of b (user_id u) (db w) ≠ [] →
  ReviewSerializer_validate u b w =
  Raise (ValidationError "non_field_errors"
                         "You have already reviewed this book.") w.
Proof.
  intros H. unfold ReviewSerializer_validate. rewrite bind_unfold.
  unfold query. fold (reviews_of b (user_id u) (db w)).
  by destruct (reviews_of b (user_id u) (db w)).
Qed.

Lemma ReviewSerializer_validate_free u b w :
  reviews_of b (user_id u) (db w) = [] →
  ReviewSerializer_validate u b w = Ok () w.
Proof.
  intros H. unfold ReviewSerializer_validate. rewrite bind_unfold.
  unfold query. fold (reviews_of b (user_id u) (db w)). by rewrite H.
Qed.

(** What validation can answer: an error with the store untouched, or the
    cleaned fields when the requester has no review of the book yet. *)
Lemma ReviewSerializer_is_valid_cases models u data w :
  (∃ f m, ReviewSerializer_is_valid models u data w
          = Raise (ValidationError f m) w) ∨
  (∃ b rt, ReviewSerializer_is_valid models u data w = Ok (b, rt) w ∧
           data_book data = Some b ∧
           reviews_of b (user_id u) (db w) = []).
Proof.
  unfold ReviewSerializer_is_valid.
  destruct (data_book data) as [b|]; [|left; by eexists _, _].
  rewrite bind_unfold. unfold query.
  destruct (books (db w) !! b); [|left; by eexists _, _].
  destruct (Review_fields models _ _) as [rt|]; [|left; by eexists _, _].
  rewrite bind_unfold.
  destruct (decide (reviews_of b (user_id u) (db w) = [])) as [E|E].
  - right. exists b, rt. by rewrite (ReviewSerializer_validate_free _ _ _ E).
  - left. eexists _, _. by rewrite (ReviewSerializer_validate_taken _ _ _ E).
Qed.

(** A creation request leaves the store as it was or appends one review for
    a pair that had none. *)
Lemma ReviewViewSet_create_db models user data w :
  db (ReviewViewSet_create models user data w).2 = db w ∨
  ∃ u b rt tx, reviews_of b u (db w) = [] ∧
    db (ReviewViewSet_create models user data w).2
    = insert_review b u rt tx (db w).
Proof.
  unfold ReviewViewSet_create, dispatch.
  destruct user as [u|]; [|by left].
  rewrite bind_unfold.
  cbn [check_permissions ReviewViewSet_get_permissions
       ReviewViewSet_permission_classes forallb has_permission andb
       mret M_ret].
  rewrite bind_unfold. cbn [request_user mret M_ret].
  rewrite bind_unfold.
  destruct (ReviewSerializer_is_valid_cases models u data w)
    as [(f & m & ->)|(b & rt & -> & _ & Hfree)]; [by left|].
  rewrite bind_unfold. unfold ReviewSerializer_create, Review_objects_create.
  rewrite !bind_unfold. unfold query. rewrite bind_unfold.
  destruct w as [d [[|n]|]]; cbn [execute write_budget db fst snd];
    [by left|right..]; by exists (user_id u), b, rt.1, rt.2.
Qed.

Lemma length_filter_filter {A} (P Q : A → Prop) `{∀ x, Decision (P x)}
  `{∀ x, Decision (Q x)} (l : list A) :
  (length (filter P (filter Q l)) ≤ length (filter P l))%nat.
Proof.
  induction l as [|a l IH]; [reflexivity|].
  rewrite (filter_cons Q). destruct (decide (Q a)).
  - rewrite !filter_cons. destruct (decide (P a)); cbn; lia.
  - rewrite filter_cons. destruct (decide (P a)); cbn; lia.
Qed.

(** A deletion request leaves the store as it was or removes reviews. *)
Lemma ReviewViewSet_destroy_db user book_pk pk w :
  db (ReviewViewSet_destroy user book_pk pk w).2 = db w ∨
  ∃ P (HP : ∀ r, Decision (P r)),
    db (ReviewViewSet_destroy user book_pk pk w).2
    = with_reviews (filter P) (db w).
Proof.
  unfold ReviewViewSet_destroy, dispatch.
  destruct user as [u|]; [|by left].
  rewrite bind_unfold.
  cbn [check_permissions ReviewViewSet_get_permissions forallb
       has_permission andb mret M_ret].
  rewrite bind_unfold. unfold ReviewViewSet_get_object.
  rewrite !bind_unfold. unfold query.
  destruct (filter _ (ReviewViewSet_get_queryset book_pk (db w)))
    as [|r [|r' l]]; cbn [get_object_or_404 raise mret M_ret]; [by left| |by left].
  rewrite bind_unfold.
  cbn [check_object_permissions ReviewViewSet_get_permissions forallb
       has_object_permission andb mret M_ret].
  rewrite bind_unfold.
  destruct w as [d [[|n]|]]; cbn [execute write_budget db fst snd];
    [by left|right..]; by eexists _, _.
Qed.

Lemma one_review_per_pair_serve models rq w :
  one_review_per_pair (db w) →
  one_review_per_pair (db (serve_review models rq w).2).
Proof.
  intros Hone. destruct rq as [user data|user book_pk pk]; cbn [serve_review].
  - destruct (ReviewViewSet_create_db models user data w)
      as [->|(u & b & rt & tx & Hfree & ->)]; [exact Hone|].
    intros b' u'. unfold reviews_of. cbn [reviews insert_review].
    rewrite filter_app, length_app, filter_cons, filter_nil.
    cbn [review_book review_user].
    fold (reviews_of b' u' (db w)).
    destruct (decide (b = b' ∧ u = u')) as [[<- <-]|_].
    + rewrite Hfree. cbn. lia.
    + pose proof (Hone b' u'). cbn. lia.
  - destruct (ReviewViewSet_destroy_db user book_pk pk w)
      as [->|(P & HP & ->)]; [exact Hone|].
    intros b' u'. unfold reviews_of. cbn [reviews with_reviews].
    etrans; [apply length_filter_filter|]. apply Hone.
Qed.

(** X23.  When the requester has already reviewed the book, a further
    creation request for that book is answered 400 and the store is left as
    it was, so no review is added; with fields that pass their own
    validation the error is "You have already reviewed this book.".  Over
    every sequence of creation and deletion requests, a store with at most
    one review per (book, user) pair stays so; update requests are not
    among them. *)
Theorem second_review_rejected models u b data w :
  data_book data = Some b →
  reviews_of b (user_id u) (db w) ≠ [] →
  let r := ReviewViewSet_create models (Some u) data w in
  status_code r.1 = HTTP_400_BAD_REQUEST ∧
  r.2 = w ∧
  reviews_of b (user_id u) (db r.2) = reviews_of b (user_id u) (db w) ∧
  (is_Some (books (db w) !! b) →
   is_Some (Review_fields models (data_rating data) (data_text data)) →
   r.1 = mkResponse HTTP_400_BAD_REQUEST
           (ErrorBody "non_field_errors"
                      "You have already reviewed this book.")) ∧
  (∀ rqs w0, one_review_per_pair (db w0) →
             one_review_per_pair (db (serve_reviews models rqs w0))).
Proof.
  intros Hbook Htaken r.
  assert (E : ∃ f m, ReviewSerializer_is_valid models u data w
                     = Raise (ValidationError f m) w ∧
              (is_Some (books (db w) !! b) →
               is_Some (Review_fields models (data_rating data)
                                      (data_text data)) →
               f = "non_field_errors" ∧
               m = "You have already reviewed this book.")).
  { unfold ReviewSerializer_is_valid. rewrite Hbook, bind_unfold.
    unfold query.
    destruct (books (db w) !! b) as [bk|].
    - destruct (Review_fields models _ _) as [rt|].
      + rewrite bind_unfold, (ReviewSerializer_validate_taken _ _ _ Htaken).
        by eexists _, _.
      + eexists _, _. split; [reflexivity|]. intros _ [x Hx]. discriminate Hx.
    - eexists _, _. split; [reflexivity|]. intros [x Hx]. discriminate Hx. }
  destruct E as (f & m & E & Hmsg).
  assert (Er : r = (mkResponse HTTP_400_BAD_REQUEST (ErrorBody f m), w)).
  { unfold r, ReviewViewSet_create, dispatch.
    rewrite bind_unfold.
    cbn [check_permissions ReviewViewSet_get_permissions
         ReviewViewSet_permission_classes forallb has_permission andb
         mret M_ret].
    rewrite bind_unfold. cbn [request_user mret M_ret].
    rewrite bind_unfold, E. reflexivity. }
  rewrite Er. cbn [fst snd status_code].
  split; [reflexivity|]. split; [reflexivity|]. split; [reflexivity|].
  split.
  - intros H1 H2. destruct (Hmsg H1 H2) as [-> ->]. reflexivity.
  - intros rqs. induction rqs as [|rq rqs IH]; intros w0 H0; [exact H0|].
    cbn [serve_reviews]. apply IH. by apply one_review_per_pair_serve.
Qed.

Lemma second_review_rejected_witness :
  let w := mkWorld Sample.reviewed_db None in
  ReviewViewSet_create Sample.models (Some Sample.alice)
    (mkReviewData (Some 1) (Some 4) (Some "again")) w =
  (mkResponse HTTP_400_BAD_REQUEST
     (ErrorBody "non_field_errors" "You have already reviewed this book."),
   w) ∧
  length (reviews_of 1 1 (db w)) = 1%nat.
Proof.
  intros w.
  destruct (second_review_rejected Sample.models Sample.alice 1
              (mkReviewData (Some 1) (Some 4) (Some "again")) w)
    as (_ & H2 & _ & H4 & _).
  - reflexivity.
  - discriminate.
  - split; [|reflexivity].
    apply injective_projections; [|exact H2].
    apply H4; by eexists.
Defined.

(** ** Who may change a review *)

(** C6.  Bob is neither the author of review 1, which Alice wrote, nor a
    member of staff.  His deletion request is answered 204 and the review
    is gone; his update request is answered 200 and the review has his
    values. *)
Theorem review_changed_by_other_user :
  let w := mkWorld Sample.reviewed_db None in
  let del := ReviewViewSet_destroy (Some Sample.bob) None 1 w in
  let upd := ReviewViewSet_update Sample.models (Some Sample.bob) None 1
               (mkReviewData (Some 2) (Some 1) (Some "bad")) w in
  reviews (db w) = [mkReview 1 1 1 5 "great"; mkReview 2 1 2 3 "fine"] ∧
  user_id Sample.bob ≠ 1 ∧ is_staff Sample.bob = false ∧
  del.1 = mkResponse HTTP_204_NO_CONTENT NoContent ∧
  reviews (db del.2) = [mkReview 2 1 2 3 "fine"] ∧
  status_code upd.1 = HTTP_200_OK ∧
  reviews (db upd.2) = [mkReview 1 2 1 1 "bad"; mkReview 2 1 2 3 "fine"].
Proof.
  intros w del upd.
  split; [reflexivity|]. split; [discriminate|]. split; [reflexivity|].
  split; [by vm_compute|]. split; [by vm_compute|].
  split; by vm_compute.
Qed.

(** Reviews with pairwise different (book, user) keys are one per pair. *)
Lemma one_review_per_pair_keys d :
  NoDup ((λ r, (review_book r, review_user r)) <$> reviews d) →
  one_review_per_pair d.
Proof.
  intros Hnd b u. unfold reviews_of.
  induction (reviews d) as [|r l IH]; [cbn; lia|].
  rewrite fmap_cons in Hnd. apply NoDup_cons in Hnd as [Hr Hnd].
  rewrite filter_cons. destruct (decide _) as [[Hb Hu]|_]; [|by apply IH].
  destruct (filter _ l) as [|x t] eqn:E; [cbn; lia|].
  exfalso. apply Hr.
  assert (Hx : x ∈ filter (λ r0, review_book r0 = b ∧ review_user r0 = u) l)
    by (rewrite E; left).
  apply list_elem_of_filter in Hx as [[Hxb Hxu] Hin].
  apply list_elem_of_fmap. exists x. split; [|exact Hin].
  by rewrite Hb, Hu, Hxb, Hxu.
Qed.

(** C7.  A second creation attempt is refused, but "at most one Review per
    (book, user) pair ever exists" fails on the update path.  Alice has reviewed book 1 (review 1); she reviews book 2
    as well, which is accepted (review 3).  Every pair has one review at
    most.  Bob, who is not the author of review 1, sends an update of
    review 1 that names book 2: [validate] looks for a review of book 2 by
    the requester, Bob, finds none, and the update is answered 200.  Review 1
    is still Alice's and is now on book 2: the pair (book 2, Alice) has two
    reviews. *)
Theorem review_update_duplicates_pair :
  let w := mkWorld Sample.reviewed_db None in
  let post := ReviewViewSet_create Sample.models (Some Sample.alice)
                (mkReviewData (Some 2) (Some 4) (Some "good")) w in
  let upd := ReviewViewSet_update Sample.models (Some Sample.bob) None 1
               (mkReviewData (Some 2) (Some 1) (Some "bad")) post.2 in
  one_review_per_pair (db w) ∧
  status_code post.1 = HTTP_201_CREATED ∧
  reviews (db post.2)
  = [mkReview 1 1 1 5 "great"; mkReview 2 1 2 3 "fine";
     mkReview 3 2 1 4 "good"] ∧
  one_review_per_pair (db post.2) ∧
  user_id Sample.bob ≠ 1 ∧ is_staff Sample.bob = false ∧
  status_code upd.1 = HTTP_200_OK ∧
  reviews_of 2 1 (db upd.2)
  = [mkReview 1 2 1 1 "bad"; mkReview 3 2 1 4 "good"] ∧
  ¬ one_review_per_pair (db upd.2).
Proof.
  intros w post upd.
  split; [apply one_review_per_pair_keys, (bool_decide_unpack _); by vm_compute|].
  split; [by vm_compute|]. split; [by vm_compute|].
  split; [apply one_review_per_pair_keys, (bool_decide_unpack _); by vm_compute|].
  split; [discriminate|]. split; [reflexivity|].
  split; [by vm_compute|].
  assert (E : reviews_of 2 1 (db upd.2)
              = [mkReview 1 2 1 1 "bad"; mkReview 3 2 1 4 "good"])
    by (by vm_compute).
  split; [exact E|].
  intros H. specialize (H 2 1). rewrite E in H. cbn in H. lia.
Qed.

(** ** Quantities under the other cart operations

    [add_item] passes the quantity through the serializer; when the declared
    validators admit positive quantities only, it keeps the quantities
    positive.  [remove_item] and [clear] only delete rows. *)

Lemma add_item_keeps_quantities_positive models u cart b book q w :
  (∀ x, CartItem_quantity_valid models x = true → 0 < x) →
  write_budget w = None →
  cart_item_keys_wf (db w) →
  one_item_per_pair (db w) →
  carts_of (user_id u) (db w) = [cart] →
  books (db w) !! b = Some book →
  CartItem_quantity_valid models q = true →
  quantities_positive (db w) →
  quantities_positive
    (db (CartViewSet_add_item models (Some u)
           (mkCartItemData (Some b) (Some q)) w).2).
Proof.
  intros Hpos Hb Hwf Hone Hcart Hbook Hv Hq.
  pose proof (Hone (cart_id cart) b) as Hlen.
  destruct (cart_items_matching (cart_id cart) (Some b) (db w))
    as [|ci [|ci2 rest]] eqn:Hm; [| |cbn in Hlen; lia].
  - rewrite (add_item_new models u cart b book q w Hb Hcart Hbook Hv Hm).
    cbn [snd db]. intros r Hr. cbn [cart_items insert_cart_item] in Hr.
    apply elem_of_app in Hr as [Hr|Hr]; [by apply Hq|].
    apply list_elem_of_singleton in Hr as ->. cbn. by apply Hpos.
  - rewrite (add_item_existing models u cart b book q ci w
               Hb Hwf Hcart Hbook Hv Hm).
    cbn [snd db]. intros r Hr. cbn [cart_items with_cart_items] in Hr.
    unfold rewrite_row in Hr.
    apply list_elem_of_fmap in Hr as (r0 & -> & Hr0).
    destruct (decide (r0 = ci)) as [->|]; [|by apply Hq].
    cbn. apply Hq in Hr0. apply Hpos in Hv. lia.
Qed.

Lemma remove_item_only_deletes user data w ci :
  ci ∈ cart_items (db (CartViewSet_remove_item user data w).2) →
  ci ∈ cart_items (db w).
Proof.
  unfold CartViewSet_remove_item, dispatch.
  destruct user as [u|]; [|done].
  rewrite bind_unfold.
  cbn [check_permissions CartViewSet_permission_classes forallb
       has_permission andb mret M_ret].
  rewrite bind_unfold. cbn [request_user mret M_ret].
  rewrite bind_unfold. unfold get_cart_or_404.
  rewrite bind_unfold. unfold query.
  destruct (carts_of (user_id u) (db w)) as [|cart [|c l]];
    cbn [get_object_or_404 raise mret M_ret]; [done| |done].
  unfold try_except_DoesNotExist, CartItem_objects_get.
  rewrite !bind_unfold. unfold query.
  destruct (cart_items_matching (cart_id cart) (data_book_id data) (db w))
    as [|r [|r' l]]; cbn [objects_get raise mret M_ret]; [done| |done].
  rewrite bind_unfold. unfold CartItem_delete.
  destruct w as [d [[|n]|]]; cbn [execute write_budget db fst snd];
    [done|..]; cbn [cart_items with_cart_items];
    intros H; by apply list_elem_of_filter in H as [_ H].
Qed.

Lemma clear_only_deletes user w ci :
  ci ∈ cart_items (db (CartViewSet_clear user w).2) →
  ci ∈ cart_items (db w).
Proof.
  unfold CartViewSet_clear, dispatch.
  destruct user as [u|]; [|done].
  rewrite bind_unfold.
  cbn [check_permissions CartViewSet_permission_classes forallb
       has_permission andb mret M_ret].
  rewrite bind_unfold. cbn [request_user mret M_ret].
  rewrite bind_unfold. unfold get_cart_or_404.
  rewrite bind_unfold. unfold query.
  destruct (carts_of (user_id u) (db w)) as [|cart [|c l]];
    cbn [get_object_or_404 raise mret M_ret]; [done| |done].
  rewrite bind_unfold. unfold cart_items_all_delete.
  destruct w as [d [[|n]|]]; cbn [execute write_budget db fst snd];
    [done|..]; cbn [cart_items with_cart_items];
    intros H; by apply list_elem_of_filter in H as [_ H].
Qed.

(** ** Reading and writing computations *)

Lemma dispatch_world (h : M Response) w : (dispatch h w).2 = world_of (h w).
Proof. unfold dispatch. by destruct (h w). Qed.

Lemma world_of_bind {A B} (m : M A) (k : A → M B) w :
  world_of ((m ≫= k) w) =
  match m w with
  | Ok a w' => world_of (k a w')
  | Raise _ w' => w'
  end.
Proof. rewrite bind_unfold. by destruct (m w). Qed.

Lemma read_only_ret {A} (a : A) : read_only (mret a : M A).
Proof. by intros w. Qed.

Lemma read_only_raise {A} e : read_only (raise e : M A).
Proof. by intros w. Qed.

Lemma read_only_query {A} (f : DB → A) : read_only (query f).
Proof. by intros w. Qed.

Lemma read_only_bind {A B} (m : M A) (k : A → M B) :
  read_only m → (∀ a, read_only (k a)) → read_only (m ≫= k).
Proof.
  intros Hm Hk w. rewrite world_of_bind. specialize (Hm w).
  destruct (m w) as [a w'|e w']; cbn in Hm; subst w'; [apply Hk|done].
Qed.

Lemma read_only_objects_get {A} model (l : list A) :
  read_only (objects_get model l).
Proof. intros w. by destruct l as [|x [|y l]]. Qed.

Lemma read_only_get_object_or_404 {A} (l : list A) :
  read_only (get_object_or_404 l).
Proof. intros w. by destruct l as [|x [|y l]]. Qed.

Lemma read_only_check_permissions perms user :
  read_only (check_permissions perms user).
Proof.
  intros w. unfold check_permissions, permission_denied.
  by destruct (forallb _ perms), user.
Qed.

Lemma read_only_request_user user : read_only (request_user user).
Proof. intros w. by destruct user. Qed.

Lemma read_only_get_cart_or_404 u : read_only (get_cart_or_404 u).
Proof.
  apply read_only_bind; [apply read_only_query|].
  intros l. apply read_only_get_object_or_404.
Qed.

Lemma read_only_cart_response cart : read_only (cart_response cart).
Proof.
  apply read_only_bind; [apply read_only_query|].
  intros l. apply read_only_ret.
Qed.

Lemma read_only_Cart_objects_get user : read_only (Cart_objects_get user).
Proof.
  apply read_only_bind; [apply read_only_query|].
  intros l. apply read_only_objects_get.
Qed.

Lemma read_only_CartItem_objects_get cart book :
  read_only (CartItem_objects_get cart book).
Proof.
  apply read_only_bind; [apply read_only_query|].
  intros l. apply read_only_objects_get.
Qed.

Lemma read_only_CartItemSerializer_is_valid models data :
  read_only (CartItemSerializer_is_valid models data).
Proof.
  unfold CartItemSerializer_is_valid.
  destruct (data_book_id data) as [b|]; [|apply read_only_raise].
  apply read_only_bind; [apply read_only_query|].
  intros [bk|]; [|apply read_only_raise].
  destruct (data_quantity data) as [q|].
  - destruct (CartItem_quantity_valid models q);
      [apply read_only_ret|apply read_only_raise].
  - destruct (CartItem_quantity_default models);
      [apply read_only_ret|apply read_only_raise].
Qed.

(** A read-only computation returns in the store in which it started. *)
Lemma read_only_Ok {A} (m : M A) w a w' : read_only m → m w = Ok a w' → w' = w.
Proof. intros H E. specialize (H w). by rewrite E in H. Qed.

Lemma read_only_Raise {A} (m : M A) w e w' :
  read_only m → m w = Raise e w' → w' = w.
Proof. intros H E. specialize (H w). by rewrite E in H. Qed.

Lemma world_of_bind_read {A B} (m : M A) (k : A → M B) w :
  read_only m →
  world_of ((m ≫= k) w) = w ∨
  ∃ a, m w = Ok a w ∧ world_of ((m ≫= k) w) = world_of (k a w).
Proof.
  intros Hm. rewrite world_of_bind. destruct (m w) as [a w'|e w'] eqn:E.
  - apply (read_only_Ok _ _ _ _ Hm) in E as E'. subst w'. right. by exists a.
  - left. by apply (read_only_Raise _ _ _ _ Hm) in E.
Qed.

Lemma world_of_bind_then_read {A B} (m : M A) (k : A → M B) w :
  (∀ a, read_only (k a)) → world_of ((m ≫= k) w) = world_of (m w).
Proof.
  intros Hk. rewrite world_of_bind. destruct (m w) as [a w'|e w']; [|done].
  apply Hk.
Qed.

Lemma execute_world f w :
  world_of (execute f w) = w ∨ db (world_of (execute f w)) = f (db w).
Proof. destruct w as [d [[|n]|]]; cbn; auto. Qed.

(** ** Every outcome of the cart views *)

Lemma CartItemSerializer_create_world models u b qty w :
  let w' := world_of (CartItemSerializer_create models u b qty w) in
  w' = w ∨
  (∃ cart ci,
     carts_of (user_id u) (db w) = [cart] ∧
     cart_items_matching (cart_id cart) (Some b) (db w) = [ci] ∧
     db w' = with_cart_items (save_cart_item (merged ci (default 1 qty))) (db w)) ∨
  (∃ cart q,
     carts_of (user_id u) (db w) = [cart] ∧
     cart_items_matching (cart_id cart) (Some b) (db w) = [] ∧
     (qty = Some q ∨ qty = None ∧ CartItem_quantity_default models = Some q) ∧
     db w' = insert_cart_item (cart_id cart) b q (db w)).
Proof.
  intros w'. subst w'.
  set (o := CartItemSerializer_create models u b qty w).
  destruct (carts_of (user_id u) (db w)) as [|cart [|c l]] eqn:Hcart.
  1,3: left; unfold o, CartItemSerializer_create, Cart_objects_get;
       rewrite !bind_unfold; unfold query; by rewrite Hcart.
  assert (Ho : o = try_except_DoesNotExist "CartItem"
             (cart_item ← CartItem_objects_get (cart_id cart) (Some b);
              CartItem_save (merged cart_item (default 1 qty));;
              mret (merged cart_item (default 1 qty)))
             (CartItem_objects_create models (cart_id cart) b qty) w).
  { unfold o, CartItemSerializer_create.
    by rewrite (bind_Ok _ _ _ _ _ (Cart_objects_get_one _ _ _ Hcart)). }
  clearbody o. subst o. unfold try_except_DoesNotExist.
  destruct (cart_items_matching (cart_id cart) (Some b) (db w))
    as [|ci [|ci' l]] eqn:Hm.
  - rewrite (bind_Raise _ _ _ _ _ (CartItem_objects_get_none _ _ _ Hm)).
    rewrite decide_True by reflexivity.
    unfold CartItem_objects_create.
    destruct qty as [q|];
      [|destruct (CartItem_quantity_default models) as [q|] eqn:Hd;
        [|by left]];
      rewrite !bind_unfold; unfold query; rewrite bind_unfold;
      (destruct w as [d [[|n]|]]; cbn [execute write_budget db world_of];
       [by left|right; right..]; exists cart, q; repeat split; auto).
  - rewrite (bind_Ok _ _ _ _ _ (CartItem_objects_get_one _ _ _ _ Hm)).
    rewrite bind_unfold. unfold CartItem_save.
    destruct w as [d [[|n]|]]; cbn [execute write_budget db world_of];
      [by left|right; left..]; by exists cart, ci.
  - left. unfold CartItem_objects_get. rewrite !bind_unfold. unfold query.
    by rewrite Hm.
Qed.

(** [add_item] leaves the store as it was, rewrites the one row of the
    requester's cart for the book with a larger quantity, or appends a row
    to the requester's cart. *)
Lemma add_item_world models user data w :
  let w' := (CartViewSet_add_item models user data w).2 in
  w' = w ∨
  (∃ u cart b ci,
     user = Some u ∧ data_book_id data = Some b ∧
     carts_of (user_id u) (db w) = [cart] ∧
     cart_items_matching (cart_id cart) (Some b) (db w) = [ci] ∧
     db w' = with_cart_items
               (save_cart_item (merged ci (default 1 (data_quantity data))))
               (db w)) ∨
  (∃ u cart b q,
     user = Some u ∧ data_book_id data = Some b ∧
     carts_of (user_id u) (db w) = [cart] ∧
     cart_items_matching (cart_id cart) (Some b) (db w) = [] ∧
     (data_quantity data = Some q ∨
      data_quantity data = None ∧ CartItem_quantity_default models = Some q) ∧
     db w' = insert_cart_item (cart_id cart) b q (db w)).
Proof.
  cbn zeta. unfold CartViewSet_add_item. rewrite dispatch_world.
  destruct (world_of_bind_read
              (check_permissions CartViewSet_permission_classes user)
              (λ _, u ← request_user user;
                    vd ← CartItemSerializer_is_valid models data;
                    CartItemSerializer_create models u vd.1 vd.2;;
                    cart ← get_cart_or_404 u; cart_response cart) w
              (read_only_check_permissions _ _)) as [->|(_ & _ & ->)];
    [by left|].
  destruct user as [u|]; [|by left].
  rewrite world_of_bind. cbn [request_user mret M_ret].
  rewrite world_of_bind.
  destruct (CartItemSerializer_is_valid models data w) as [[b q] w1|e w1] eqn:Ev.
  2:{ left. by apply (read_only_Raise _ _ _ _
                        (read_only_CartItemSerializer_is_valid _ _)) in Ev. }
  apply (read_only_Ok _ _ _ _ (read_only_CartItemSerializer_is_valid _ _))
    in Ev as Hw1. subst w1.
  assert (Hdata : data_book_id data = Some b ∧ q = data_quantity data).
  { unfold CartItemSerializer_is_valid in Ev.
    destruct (data_book_id data) as [b'|]; [|discriminate].
    rewrite bind_unfold in Ev. unfold query in Ev.
    destruct (books (db w) !! b'); [|discriminate].
    destruct (data_quantity data) as [q'|].
    - destruct (CartItem_quantity_valid models q'); [|discriminate].
      by injection Ev as -> ->.
    - destruct (CartItem_quantity_default models); [|discriminate].
      by injection Ev as -> ->. }
  destruct Hdata as [Hb ->]. cbn [fst snd].
  rewrite world_of_bind_then_read.
  2:{ intros _. apply read_only_bind; [apply read_only_get_cart_or_404|].
      intros c. apply read_only_cart_response. }
  destruct (CartItemSerializer_create_world models u b (data_quantity data) w)
    as [->|[(cart & ci & H1 & H2 & H3)|(cart & q & H1 & H2 & H3 & H4)]].
  - by left.
  - right; left. by exists u, cart, b, ci.
  - right; right. by exists u, cart, b, q.
Qed.

(** [update_item] leaves the store as it was or rewrites the one row of the
    requester's cart for the book with the quantity of the request. *)
Lemma update_item_world user data w :
  let w' := (CartViewSet_update_item user data w).2 in
  w' = w ∨
  ∃ u cart ci,
    user = Some u ∧
    carts_of (user_id u) (db w) = [cart] ∧
    cart_items_matching (cart_id cart) (data_book_id data) (db w) = [ci] ∧
    db w' = with_cart_items
              (save_cart_item
                 (mkCartItem (item_id ci) (item_cart ci) (item_book ci)
                             (default 1 (data_quantity data))))
              (db w).
Proof.
  cbn zeta. unfold CartViewSet_update_item. rewrite dispatch_world.
  destruct user as [u|]; [|by left].
  rewrite world_of_bind.
  cbn [check_permissions CartViewSet_permission_classes forallb
       has_permission andb mret M_ret].
  rewrite world_of_bind. cbn [request_user mret M_ret].
  rewrite world_of_bind. unfold get_cart_or_404.
  rewrite bind_unfold. unfold query.
  destruct (carts_of (user_id u) (db w)) as [|cart [|c l]] eqn:Hcart;
    cbn [get_object_or_404 raise mret M_ret]; [by left| |by left].
  unfold try_except_DoesNotExist, CartItem_objects_get.
  rewrite !bind_unfold. unfold query.
  destruct (cart_items_matching (cart_id cart) (data_book_id data) (db w))
    as [|ci [|ci' l]] eqn:Hm; cbn [objects_get raise mret M_ret];
    [rewrite decide_True by reflexivity; by left| |by left].
  rewrite bind_unfold. unfold CartItem_save.
  destruct w as [d [[|n]|]]; cbn [execute write_budget db world_of];
    [by left|right..]; by exists u, cart, ci.
Qed.

(** [remove_item] leaves the store as it was or deletes the one row of the
    requester's cart for the book. *)
Lemma remove_item_world user data w :
  let w' := (CartViewSet_remove_item user data w).2 in
  w' = w ∨
  ∃ u cart ci,
    user = Some u ∧
    carts_of (user_id u) (db w) = [cart] ∧
    cart_items_matching (cart_id cart) (data_book_id data) (db w) = [ci] ∧
    db w' = with_cart_items (filter (λ r, item_id r ≠ item_id ci)) (db w).
Proof.
  cbn zeta. unfold CartViewSet_remove_item. rewrite dispatch_world.
  destruct user as [u|]; [|by left].
  rewrite world_of_bind.
  cbn [check_permissions CartViewSet_permission_classes forallb
       has_permission andb mret M_ret].
  rewrite world_of_bind. cbn [request_user mret M_ret].
  rewrite world_of_bind. unfold get_cart_or_404.
  rewrite bind_unfold. unfold query.
  destruct (carts_of (user_id u) (db w)) as [|cart [|c l]] eqn:Hcart;
    cbn [get_object_or_404 raise mret M_ret]; [by left| |by left].
  unfold try_except_DoesNotExist, CartItem_objects_get.
  rewrite !bind_unfold. unfold query.
  destruct (cart_items_matching (cart_id cart) (data_book_id data) (db w))
    as [|ci [|ci' l]] eqn:Hm; cbn [objects_get raise mret M_ret];
    [rewrite decide_True by reflexivity; by left| |by left].
  rewrite bind_unfold. unfold CartItem_delete.
  destruct w as [d [[|n]|]]; cbn [execute write_budget db world_of];
    [by left|right..]; by exists u, cart, ci.
Qed.

(** [clear] leaves the store as it was or deletes the rows of the
    requester's cart. *)
Lemma clear_world user w :
  let w' := (CartViewSet_clear user w).2 in
  w' = w ∨
  ∃ u cart,
    user = Some u ∧
    carts_of (user_id u) (db w) = [cart] ∧
    db w' = with_cart_items (filter (λ r, item_cart r ≠ cart_id cart)) (db w).
Proof.
  cbn zeta. unfold CartViewSet_clear. rewrite dispatch_world.
  destruct user as [u|]; [|by left].
  rewrite world_of_bind.
  cbn [check_permissions CartViewSet_permission_classes forallb
       has_permission andb mret M_ret].
  rewrite world_of_bind. cbn [request_user mret M_ret].
  rewrite world_of_bind. unfold get_cart_or_404.
  rewrite bind_unfold. unfold query.
  destruct (carts_of (user_id u) (db w)) as [|cart [|c l]] eqn:Hcart;
    cbn [get_object_or_404 raise mret M_ret]; [by left| |by left].
  rewrite world_of_bind_then_read by (intros _; apply read_only_cart_response).
  unfold cart_items_all_delete.
  destruct w as [d [[|n]|]]; cbn [execute write_budget db world_of];
    [by left|right..]; by exists u, cart.
Qed.

(** ** Invariants under every cart request *)

Lemma filter_ext_in {A} (P Q : A → Prop) `{∀ x, Decision (P x)}
  `{∀ x, Decision (Q x)} (l : list A) :
  (∀ x, x ∈ l → P x ↔ Q x) → filter P l = filter Q l.
Proof.
  induction l as [|a l IH]; intros Hext; [reflexivity|].
  rewrite !filter_cons.
  assert (Ha : P a ↔ Q a) by (apply Hext, list_elem_of_here).
  rewrite IH by (intros x Hx; by apply Hext, list_elem_of_further).
  destruct (decide (P a)) as [p|p], (decide (Q a)) as [q|q]; tauto.
Qed.

Lemma with_save_rewrite d ci ci' :
  NoDup (item_id <$> cart_items d) → ci ∈ cart_items d →
  item_id ci' = item_id ci →
  with_cart_items (save_cart_item ci') d = with_cart_items (rewrite_row ci ci') d.
Proof.
  intros Hnd Hin Hid. unfold with_cart_items. f_equal.
  by apply save_cart_item_replace.
Qed.

Lemma keys_wf_filter (P : CartItem → Prop) `{∀ x, Decision (P x)} d :
  cart_item_keys_wf d → cart_item_keys_wf (with_cart_items (filter P) d).
Proof.
  intros [Hnd Hlt]. split; cbn [cart_items with_cart_items next_cart_item].
  - eapply sublist_NoDup; [exact Hnd|]. apply fmap_sublist, sublist_filter.
  - intros ci Hci. apply list_elem_of_filter in Hci as [_ Hci]. by apply Hlt.
Qed.

Lemma one_item_per_pair_filter (P : CartItem → Prop) `{∀ x, Decision (P x)} d :
  one_item_per_pair d → one_item_per_pair (with_cart_items (filter P) d).
Proof.
  intros Hone cart book. unfold cart_items_matching.
  cbn [cart_items with_cart_items].
  etrans; [apply length_filter_filter|]. apply Hone.
Qed.

Lemma serve_cart_keeps_invariants models user rq w :
  cart_item_keys_wf (db w) ∧ one_item_per_pair (db w) →
  cart_item_keys_wf (db (serve_cart models user rq w).2) ∧
  one_item_per_pair (db (serve_cart models user rq w).2).
Proof.
  intros [Hwf Hone]. destruct rq as [data|data|data|]; cbn [serve_cart].
  - destruct (add_item_world models user data w)
      as [->|[(u & cart & b & ci & _ & _ & _ & Hm & ->)
             |(u & cart & b & q & _ & _ & _ & Hm & _ & ->)]]; [done| |].
    + destruct (matching_one_elem _ _ _ _ Hm) as (Hin & _ & _).
      rewrite (with_save_rewrite _ ci) by (done || apply Hwf).
      split; [by apply keys_wf_rewrite_row
             |by apply one_item_per_pair_rewrite_row].
    + split; [by apply keys_wf_insert|by apply one_item_per_pair_insert].
  - destruct (remove_item_world user data w)
      as [->|(u & cart & ci & _ & _ & _ & ->)]; [done|].
    split; [by apply keys_wf_filter|by apply one_item_per_pair_filter].
  - destruct (update_item_world user data w)
      as [->|(u & cart & ci & _ & _ & Hm & ->)]; [done|].
    destruct (matching_one_elem _ _ _ _ Hm) as (Hin & _ & _).
    rewrite (with_save_rewrite _ ci) by (done || apply Hwf).
    split; [by apply keys_wf_rewrite_row
           |by apply one_item_per_pair_rewrite_row].
  - destruct (clear_world user w) as [->|(u & cart & _ & _ & ->)]; [done|].
    split; [by apply keys_wf_filter|by apply one_item_per_pair_filter].
Qed.

(** X1.  Whatever cart requests are served, by whichever requesters, with
    whatever bodies and whether or not statements fail, the primary keys of
    the cart items stay pairwise distinct and below the counter, and there
    is never more than one cart item per (cart, book) pair. *)
Theorem cart_requests_keep_invariants models rqs w :
  cart_item_keys_wf (db w) → one_item_per_pair (db w) →
  cart_item_keys_wf (db (serve_carts models rqs w)) ∧
  one_item_per_pair (db (serve_carts models rqs w)).
Proof.
  intros Hwf Hone. assert (H : cart_item_keys_wf (db w) ∧ one_item_per_pair (db w))
    by done. clear Hwf Hone.
  revert w H. induction rqs as [|[user rq] rqs IH]; intros w H; [exact H|].
  cbn [serve_carts]. apply IH. by apply serve_cart_keeps_invariants.
Qed.

Lemma cart_requests_keep_invariants_witness :
  let w := serve_carts Sample.models
             [(Some Sample.alice, AddItem (mkCartItemData (Some 1) (Some 2)));
              (Some Sample.alice, AddItem (mkCartItemData (Some 1) None));
              (Some Sample.bob, AddItem (mkCartItemData (Some 1) (Some 4)));
              (Some Sample.alice, UpdateItem (mkCartItemData (Some 1) (Some 9)));
              (Some Sample.bob, Clear)]
             (mkWorld Sample.empty_db None) in
  cart_items (db w) = [mkCartItem 1 1 1 9] ∧
  cart_item_keys_wf (db w) ∧ one_item_per_pair (db w).
Proof.
  intros w. split; [reflexivity|].
  apply (cart_requests_keep_invariants Sample.models).
  - split; [apply NoDup_nil_2|]. intros ci H. by apply elem_of_nil in H.
  - intros c b. vm_compute. lia.
Defined.

(** ** One requester's cart requests and the other carts *)

Lemma filter_rewrite_row_other (P : CartItem → Prop) `{∀ x, Decision (P x)}
  ci ci' rows :
  ¬ P ci → ¬ P ci' → filter P (rewrite_row ci ci' rows) = filter P rows.
Proof.
  intros Hci Hci'. unfold rewrite_row.
  induction rows as [|r rows IH]; [reflexivity|].
  rewrite fmap_cons, !filter_cons, IH.
  destruct (decide (r = ci)) as [->|_]; [|done].
  by rewrite !decide_False.
Qed.

(** X2.  A cart request of a requester who has a cart leaves the items of every
    other cart as they were. *)
Theorem cart_request_leaves_other_carts models u cart rq w other :
  NoDup (item_id <$> cart_items (db w)) →
  carts_of (user_id u) (db w) = [cart] →
  other ≠ cart_id cart →
  cart_items_all other (db (serve_cart models (Some u) rq w).2)
  = cart_items_all other (db w).
Proof.
  intros Hnd Hcart Hother. unfold cart_items_all.
  destruct rq as [data|data|data|]; cbn [serve_cart].
  - destruct (add_item_world models (Some u) data w)
      as [->|[(u' & cart' & b & ci & [= <-] & _ & Hc & Hm & ->)
             |(u' & cart' & b & q & [= <-] & _ & Hc & Hm & _ & ->)]]; [done| |].
    + rewrite Hcart in Hc. injection Hc as <-.
      destruct (matching_one_elem _ _ _ _ Hm) as (Hin & Hic & _).
      rewrite (with_save_rewrite _ ci) by done.
      cbn [cart_items with_cart_items].
      apply filter_rewrite_row_other; cbn; congruence.
    + rewrite Hcart in Hc. injection Hc as <-.
      cbn [cart_items insert_cart_item].
      rewrite filter_app, filter_cons, filter_nil. cbn [item_cart].
      rewrite decide_False by congruence. by rewrite app_nil_r.
  - destruct (remove_item_world (Some u) data w)
      as [->|(u' & cart' & ci & [= <-] & Hc & Hm & ->)]; [done|].
    rewrite Hcart in Hc. injection Hc as <-.
    destruct (matching_one_elem _ _ _ _ Hm) as (Hin & Hic & _).
    cbn [cart_items with_cart_items]. rewrite list_filter_filter.
    apply filter_ext_in. intros r Hr. split; [tauto|].
    intros Hr'. split; [done|]. intros Hid.
    assert (r = ci) as -> by (by apply (NoDup_fmap_inj_on item_id (cart_items (db w)))).
    congruence.
  - destruct (update_item_world (Some u) data w)
      as [->|(u' & cart' & ci & [= <-] & Hc & Hm & ->)]; [done|].
    rewrite Hcart in Hc. injection Hc as <-.
    destruct (matching_one_elem _ _ _ _ Hm) as (Hin & Hic & _).
    rewrite (with_save_rewrite _ ci) by done.
    cbn [cart_items with_cart_items].
    apply filter_rewrite_row_other; cbn; congruence.
  - destruct (clear_world (Some u) w)
      as [->|(u' & cart' & [= <-] & Hc & ->)]; [done|].
    rewrite Hcart in Hc. injection Hc as <-.
    cbn [cart_items with_cart_items].
    apply list_filter_filter_l. intros r Hr. congruence.
Qed.

Lemma shared_db_keys : NoDup (item_id <$> cart_items Sample.shared_db).
Proof.
  apply (bool_decide_unpack _). by vm_compute.
Qed.

Lemma cart_request_leaves_other_carts_witness :
  cart_items_all 2
    (db (serve_cart Sample.models (Some Sample.alice) Clear
           (mkWorld Sample.shared_db None)).2)
  = [mkCartItem 2 2 1 4].
Proof.
  rewrite (cart_request_leaves_other_carts Sample.models Sample.alice
             (mkCart 1 1) Clear (mkWorld Sample.shared_db None) 2).
  - reflexivity.
  - exact shared_db_keys.
  - reflexivity.
  - discriminate.
Defined.

(** ** [remove_item], [clear] and items that are not in the cart *)

Lemma filter_comm {A} (P Q : A → Prop) `{∀ x, Decision (P x)}
  `{∀ x, Decision (Q x)} (l : list A) :
  filter P (filter Q l) = filter Q (filter P l).
Proof.
  rewrite !list_filter_filter. apply list_filter_iff. tauto.
Qed.

Lemma matching_None cart d : cart_items_matching cart None d = [].
Proof.
  unfold cart_items_matching. induction (cart_items d) as [|r l IH]; [done|].
  rewrite filter_cons, IH. rewrite decide_False; [done|]. by intros [_ ?].
Qed.

Lemma view_head (user : User) (k : User → M Response) w :
  dispatch (check_permissions CartViewSet_permission_classes (Some user);;
            u ← request_user (Some user); k u) w
  = dispatch (k user) w.
Proof. reflexivity. Qed.

(** X3.  When the cart holds an item for the book and no statement fails,
    [remove_item] answers 200 and deletes that row, whatever its quantity;
    every other row stays and the cart no longer holds the book. *)
Theorem remove_item_deletes_row u cart ci data w :
  write_budget w = None →
  NoDup (item_id <$> cart_items (db w)) →
  carts_of (user_id u) (db w) = [cart] →
  cart_items_matching (cart_id cart) (data_book_id data) (db w) = [ci] →
  let d' := with_cart_items (filter (λ r, r ≠ ci)) (db w) in
  CartViewSet_remove_item (Some u) data w =
    (mkResponse HTTP_200_OK (CartBody cart (cart_items_all (cart_id cart) d')),
     mkWorld d' None) ∧
  cart_items_matching (cart_id cart) (data_book_id data) d' = [].
Proof.
  intros Hb Hnd Hcart Hm d'.
  destruct (matching_one_elem _ _ _ _ Hm) as (Hin & _ & _).
  assert (Hd' : with_cart_items (filter (λ r, item_id r ≠ item_id ci)) (db w)
                = d').
  { unfold d', with_cart_items. f_equal. apply filter_ext_in.
    intros r Hr. split; [congruence|]. intros Hne Hid. apply Hne.
    by apply (NoDup_fmap_inj_on item_id (cart_items (db w))). }
  split.
  - unfold CartViewSet_remove_item. rewrite view_head. unfold dispatch.
    rewrite (bind_Ok _ _ _ _ _ (get_cart_or_404_one _ _ _ Hcart)).
    unfold try_except_DoesNotExist.
    rewrite (bind_Ok _ _ _ _ _ (CartItem_objects_get_one _ _ _ _ Hm)).
    rewrite bind_unfold. unfold CartItem_delete.
    rewrite (execute_no_fault _ _ Hb), Hd'. reflexivity.
  - unfold d', cart_items_matching. cbn [cart_items with_cart_items].
    rewrite filter_comm.
    change (filter (λ r, r ≠ ci)
              (cart_items_matching (cart_id cart) (data_book_id data) (db w)) = []).
    rewrite Hm, filter_cons, filter_nil. by rewrite decide_False by tauto.
Qed.

Lemma remove_item_deletes_row_witness :
  CartViewSet_remove_item (Some Sample.alice) (mkCartItemData (Some 1) None)
    (mkWorld Sample.shared_db None) =
  (mkResponse HTTP_200_OK (CartBody (mkCart 1 1) [mkCartItem 3 1 2 1]),
   mkWorld (with_cart_items (λ _, [mkCartItem 2 2 1 4; mkCartItem 3 1 2 1])
              Sample.shared_db) None).
Proof.
  destruct (remove_item_deletes_row Sample.alice (mkCart 1 1)
              (mkCartItem 1 1 1 2) (mkCartItemData (Some 1) None)
              (mkWorld Sample.shared_db None)
              eq_refl shared_db_keys eq_refl eq_refl) as [E _].
  rewrite E. reflexivity.
Defined.

(** X4.  When the requester's cart holds no item for the book of the request, or
    the request names no book, [remove_item] and [update_item] answer 404
    with "Book not found in cart" and leave the store as it was. *)
Theorem item_not_in_cart_is_404 u cart data w :
  carts_of (user_id u) (db w) = [cart] →
  data_book_id data = None ∨
  cart_items_matching (cart_id cart) (data_book_id data) (db w) = [] →
  CartViewSet_remove_item (Some u) data w =
    (mkResponse HTTP_404_NOT_FOUND (ErrorBody "error" "Book not found in cart"),
     w) ∧
  CartViewSet_update_item (Some u) data w =
    (mkResponse HTTP_404_NOT_FOUND (ErrorBody "error" "Book not found in cart"),
     w).
Proof.
  intros Hcart Hnone.
  assert (Hm : cart_items_matching (cart_id cart) (data_book_id data) (db w) = []).
  { destruct Hnone as [->|H]; [apply matching_None|exact H]. }
  split.
  - unfold CartViewSet_remove_item. rewrite view_head. unfold dispatch.
    rewrite (bind_Ok _ _ _ _ _ (get_cart_or_404_one _ _ _ Hcart)).
    unfold try_except_DoesNotExist.
    rewrite (bind_Raise _ _ _ _ _ (CartItem_objects_get_none _ _ _ Hm)).
    reflexivity.
  - unfold CartViewSet_update_item. rewrite view_head. unfold dispatch.
    rewrite (bind_Ok _ _ _ _ _ (get_cart_or_404_one _ _ _ Hcart)).
    unfold try_except_DoesNotExist.
    rewrite (bind_Raise _ _ _ _ _ (CartItem_objects_get_none _ _ _ Hm)).
    reflexivity.
Qed.

Lemma item_not_in_cart_is_404_witness :
  CartViewSet_remove_item (Some Sample.bob) (mkCartItemData (Some 2) None)
    (mkWorld Sample.shared_db None) =
    (mkResponse HTTP_404_NOT_FOUND (ErrorBody "error" "Book not found in cart"),
     mkWorld Sample.shared_db None) ∧
  CartViewSet_update_item (Some Sample.bob) (mkCartItemData None (Some 3))
    (mkWorld Sample.shared_db None) =
    (mkResponse HTTP_404_NOT_FOUND (ErrorBody "error" "Book not found in cart"),
     mkWorld Sample.shared_db None).
Proof.
  split.
  - apply (item_not_in_cart_is_404 Sample.bob (mkCart 2 2)
             (mkCartItemData (Some 2) None) (mkWorld Sample.shared_db None));
      [reflexivity|right; reflexivity].
  - apply (item_not_in_cart_is_404 Sample.bob (mkCart 2 2)
             (mkCartItemData None (Some 3)) (mkWorld Sample.shared_db None));
      [reflexivity|left; reflexivity].
Defined.

(** X5.  When no statement fails, [clear] answers 200 with an empty cart and
    deletes every item of the requester's cart and nothing else; the cart
    itself stays, and an order placed right after it is refused with the
    empty-cart error. *)
Theorem clear_empties_cart models u cart data w :
  write_budget w = None →
  carts_of (user_id u) (db w) = [cart] →
  Order_fields_valid models data = true →
  let d' := with_cart_items (filter (λ r, item_cart r ≠ cart_id cart)) (db w) in
  CartViewSet_clear (Some u) w =
    (mkResponse HTTP_200_OK (CartBody cart []), mkWorld d' None) ∧
  CartViewSet_list (Some u) (mkWorld d' None) =
    (mkResponse HTTP_200_OK (CartBody cart []), mkWorld d' None) ∧
  OrderViewSet_create models (Some u) data (mkWorld d' None) =
    (mkResponse HTTP_400_BAD_REQUEST
       (ErrorBody "error" "Cannot place order with empty cart"),
     mkWorld d' None).
Proof.
  intros Hb Hcart Hvalid d'.
  assert (Hempty : cart_items_all (cart_id cart) d' = [])
    by apply cart_items_all_deleted.
  assert (Hcart' : carts_of (user_id u) (db (mkWorld d' None)) = [cart])
    by exact Hcart.
  split; [|split].
  - unfold CartViewSet_clear. rewrite view_head. unfold dispatch.
    rewrite (bind_Ok _ _ _ _ _ (get_cart_or_404_one _ _ _ Hcart)).
    rewrite bind_unfold. unfold cart_items_all_delete.
    rewrite (execute_no_fault _ _ Hb). fold d'.
    unfold cart_response. rewrite bind_unfold. unfold query. cbn [db].
    rewrite Hempty. reflexivity.
  - unfold CartViewSet_list. rewrite view_head. unfold dispatch.
    rewrite (bind_Ok _ _ _ _ _ (get_cart_or_404_one _ _ _ Hcart')).
    unfold cart_response. rewrite bind_unfold. unfold query. cbn [db].
    rewrite Hempty. reflexivity.
  - unfold OrderViewSet_create, dispatch.
    rewrite bind_unfold.
    cbn [check_permissions forallb has_permission
         OrderViewSet_get_permissions_create andb mret M_ret].
    rewrite bind_unfold. cbn [request_user mret M_ret].
    rewrite bind_unfold. unfold OrderSerializer_is_valid. rewrite Hvalid.
    cbn [mret M_ret]. rewrite bind_unfold.
    rewrite (OrderSerializer_create_empty _ _ _ _ _ Hcart' Hempty).
    reflexivity.
Qed.

Lemma clear_empties_cart_witness :
  CartViewSet_clear (Some Sample.alice) (mkWorld Sample.shared_db None) =
  (mkResponse HTTP_200_OK (CartBody (mkCart 1 1) []),
   mkWorld (with_cart_items (λ _, [mkCartItem 2 2 1 4]) Sample.shared_db) None).
Proof.
  destruct (clear_empties_cart Sample.models Sample.alice (mkCart 1 1)
              Sample.address (mkWorld Sample.shared_db None)
              eq_refl eq_refl eq_refl) as [E _].
  rewrite E. reflexivity.
Defined.

(** ** Requests without a session or without a cart *)

(** X6.  A request that carries no authenticated user is answered 401 by every
    cart, order and review view, and the store is left as it was. *)
Theorem anonymous_requests_are_rejected models cdata odata rdata book_pk pk w :
  let denied :=
    (mkResponse HTTP_401_UNAUTHORIZED
       (ErrorBody "detail" "Authentication credentials were not provided."),
     w) in
  CartViewSet_list None w = denied ∧
  CartViewSet_add_item models None cdata w = denied ∧
  CartViewSet_remove_item None cdata w = denied ∧
  CartViewSet_update_item None cdata w = denied ∧
  CartViewSet_clear None w = denied ∧
  OrderViewSet_create models None odata w = denied ∧
  ReviewViewSet_create models None rdata w = denied ∧
  ReviewViewSet_update models None book_pk pk rdata w = denied ∧
  ReviewViewSet_destroy None book_pk pk w = denied.
Proof. repeat split. Qed.

(** X7.  A requester who has no cart gets 404 from [list], [remove_item],
    [update_item] and [clear], which look the cart up with
    [get_object_or_404], but 500 from [add_item] with a valid body and from
    placing an order, which look it up with [Cart.objects.get]; the store is
    left as it was in every case. *)
Theorem requester_without_cart models u b book q cdata odata w :
  carts_of (user_id u) (db w) = [] →
  books (db w) !! b = Some book →
  CartItem_quantity_valid models q = true →
  Order_fields_valid models odata = true →
  let not_found :=
    (mkResponse HTTP_404_NOT_FOUND (ErrorBody "detail" "Not found."), w) in
  let server_error :=
    (mkResponse HTTP_500_INTERNAL_SERVER_ERROR NoContent, w) in
  CartViewSet_list (Some u) w = not_found ∧
  CartViewSet_remove_item (Some u) cdata w = not_found ∧
  CartViewSet_update_item (Some u) cdata w = not_found ∧
  CartViewSet_clear (Some u) w = not_found ∧
  CartViewSet_add_item models (Some u) (mkCartItemData (Some b) (Some q)) w
    = server_error ∧
  OrderViewSet_create models (Some u) odata w = server_error.
Proof.
  intros Hcart Hbook Hq Hvalid not_found server_error.
  assert (H404 : get_cart_or_404 u w = Raise Http404 w).
  { unfold get_cart_or_404. rewrite bind_unfold. unfold query.
    by rewrite Hcart. }
  assert (Hget : Cart_objects_get (user_id u) w = Raise (DoesNotExist "Cart") w).
  { unfold Cart_objects_get. rewrite bind_unfold. unfold query.
    by rewrite Hcart. }
  split; [|split; [|split; [|split; [|split]]]].
  - unfold CartViewSet_list. rewrite view_head. unfold dispatch.
    by rewrite (bind_Raise _ _ _ _ _ H404).
  - unfold CartViewSet_remove_item. rewrite view_head. unfold dispatch.
    by rewrite (bind_Raise _ _ _ _ _ H404).
  - unfold CartViewSet_update_item. rewrite view_head. unfold dispatch.
    by rewrite (bind_Raise _ _ _ _ _ H404).
  - unfold CartViewSet_clear. rewrite view_head. unfold dispatch.
    by rewrite (bind_Raise _ _ _ _ _ H404).
  - unfold CartViewSet_add_item. rewrite view_head. unfold dispatch.
    rewrite bind_unfold. unfold CartItemSerializer_is_valid.
    cbn [data_book_id data_quantity]. rewrite bind_unfold. unfold query.
    rewrite Hbook, Hq. cbn [mret M_ret fst snd].
    rewrite bind_unfold. unfold CartItemSerializer_create.
    by rewrite (bind_Raise _ _ _ _ _ Hget).
  - unfold OrderViewSet_create, dispatch.
    rewrite bind_unfold.
    cbn [check_permissions forallb has_permission
         OrderViewSet_get_permissions_create andb mret M_ret].
    rewrite bind_unfold. cbn [request_user mret M_ret].
    rewrite bind_unfold. unfold OrderSerializer_is_valid. rewrite Hvalid.
    cbn [mret M_ret]. rewrite bind_unfold. unfold OrderSerializer_create.
    by rewrite (bind_Raise _ _ _ _ _ Hget).
Qed.

Lemma requester_without_cart_witness :
  let w := mkWorld Sample.shared_db None in
  CartViewSet_clear (Some Sample.carol) w =
    (mkResponse HTTP_404_NOT_FOUND (ErrorBody "detail" "Not found."), w) ∧
  CartViewSet_add_item Sample.models (Some Sample.carol)
    (mkCartItemData (Some 1) (Some 2)) w =
    (mkResponse HTTP_500_INTERNAL_SERVER_ERROR NoContent, w).
Proof.
  intros w.
  destruct (requester_without_cart Sample.models Sample.carol 1 Sample.book_a 2
              (mkCartItemData None None) Sample.address w
              eq_refl eq_refl eq_refl eq_refl)
    as (_ & _ & _ & H4 & H5 & _).
  split; [exact H4|exact H5].
Defined.

(** ** Bodies that [add_item] refuses, and omitted quantities *)

(** X8.  [add_item] with a body that names no book, names a book that is not in
    the catalogue, or carries a quantity that the declared validators refuse
    is answered 400, and the store is left as it was. *)
Theorem add_item_refuses_invalid_body models u data w :
  data_book_id data = None ∨
  (∃ b, data_book_id data = Some b ∧ books (db w) !! b = None) ∨
  (∃ q, data_quantity data = Some q ∧ CartItem_quantity_valid models q = false) →
  status_code (CartViewSet_add_item models (Some u) data w).1
    = HTTP_400_BAD_REQUEST ∧
  (CartViewSet_add_item models (Some u) data w).2 = w.
Proof.
  intros Hbad.
  assert (E : ∃ f m, CartItemSerializer_is_valid models data w
                     = Raise (ValidationError f m) w).
  { unfold CartItemSerializer_is_valid.
    destruct (data_book_id data) as [b|] eqn:Hb; [|by eexists _, _].
    rewrite bind_unfold. unfold query.
    destruct (books (db w) !! b) as [bk|] eqn:Hbk; [|by eexists _, _].
    destruct Hbad as [?|[(b' & [= <-] & Hn)|(q & -> & Hq)]];
      [done|congruence|].
    rewrite Hq. by eexists _, _. }
  destruct E as (f & m & E).
  unfold CartViewSet_add_item. rewrite view_head. unfold dispatch.
  rewrite (bind_Raise _ _ _ _ _ E). by split.
Qed.

Lemma add_item_refuses_invalid_body_witness :
  let w := mkWorld Sample.shared_db None in
  status_code (CartViewSet_add_item Sample.models (Some Sample.alice)
                 (mkCartItemData (Some 7) (Some 1)) w).1
    = HTTP_400_BAD_REQUEST ∧
  (CartViewSet_add_item Sample.models (Some Sample.alice)
     (mkCartItemData (Some 1) (Some (-1))) w).2 = w.
Proof.
  intros w. split.
  - apply (add_item_refuses_invalid_body Sample.models Sample.alice
             (mkCartItemData (Some 7) (Some 1)) w).
    right; left. by exists 7.
  - apply (add_item_refuses_invalid_body Sample.models Sample.alice
             (mkCartItemData (Some 1) (Some (-1))) w).
    right; right. by exists (-1).
Defined.

Lemma add_item_eval_default models u cart b book dq w ci' w' :
  books (db w) !! b = Some book →
  CartItem_quantity_default models = Some dq →
  CartItemSerializer_create models u b None w = Ok ci' w' →
  carts_of (user_id u) (db w') = [cart] →
  CartViewSet_add_item models (Some u) (mkCartItemData (Some b) None) w =
  (mkResponse HTTP_200_OK (CartBody cart (cart_items_all (cart_id cart) (db w'))),
   w').
Proof.
  intros Hbook Hdq Hcreate Hcart.
  unfold CartViewSet_add_item. rewrite view_head. unfold dispatch.
  rewrite bind_unfold. unfold CartItemSerializer_is_valid.
  cbn [data_book_id data_quantity].
  rewrite bind_unfold. unfold query. rewrite Hbook, Hdq.
  cbn [mret M_ret fst snd].
  rewrite bind_unfold, Hcreate.
  rewrite (bind_Ok _ _ _ _ _ (get_cart_or_404_one _ _ _ Hcart)).
  reflexivity.
Qed.

(** X9.  [add_item] without a quantity, when the model declares a default [dq]:
    an item that is already in the cart grows by 1, whatever [dq] is, while
    a new item starts with quantity [dq]. *)
Theorem add_item_without_quantity models u cart b book dq w :
  write_budget w = None →
  cart_item_keys_wf (db w) →
  carts_of (user_id u) (db w) = [cart] →
  books (db w) !! b = Some book →
  CartItem_quantity_default models = Some dq →
  let w' := (CartViewSet_add_item models (Some u)
               (mkCartItemData (Some b) None) w).2 in
  (∀ ci, cart_items_matching (cart_id cart) (Some b) (db w) = [ci] →
     cart_items (db w') = rewrite_row ci (merged ci 1) (cart_items (db w))) ∧
  (cart_items_matching (cart_id cart) (Some b) (db w) = [] →
     cart_items (db w') =
       cart_items (db w) ++
       [mkCartItem (next_cart_item (db w)) (cart_id cart) b dq]).
Proof.
  intros Hb [Hnd _] Hcart Hbook Hdq w'. split.
  - intros ci Hm. destruct (matching_one_elem _ _ _ _ Hm) as (Hin & _ & _).
    unfold w'.
    rewrite (add_item_eval_default models u cart b book dq w (merged ci 1)
               (mkWorld (with_cart_items (save_cart_item (merged ci 1)) (db w))
                        None)); try done.
    + cbn [snd db cart_items with_cart_items].
      by apply save_cart_item_replace.
    + unfold CartItemSerializer_create.
      rewrite (bind_Ok _ _ _ _ _ (Cart_objects_get_one _ _ _ Hcart)).
      unfold try_except_DoesNotExist.
      rewrite (bind_Ok _ _ _ _ _ (CartItem_objects_get_one _ _ _ _ Hm)).
      rewrite bind_unfold. unfold CartItem_save.
      rewrite (execute_no_fault _ _ Hb). reflexivity.
  - intros Hm. unfold w'.
    rewrite (add_item_eval_default models u cart b book dq w
               (mkCartItem (next_cart_item (db w)) (cart_id cart) b dq)
               (mkWorld (insert_cart_item (cart_id cart) b dq (db w)) None));
      try done.
    unfold CartItemSerializer_create.
    rewrite (bind_Ok _ _ _ _ _ (Cart_objects_get_one _ _ _ Hcart)).
    unfold try_except_DoesNotExist.
    rewrite (bind_Raise _ _ _ _ _ (CartItem_objects_get_none _ _ _ Hm)).
    rewrite decide_True by reflexivity.
    unfold CartItem_objects_create. rewrite Hdq.
    rewrite bind_unfold. unfold query.
    rewrite bind_unfold. rewrite (execute_no_fault _ _ Hb). reflexivity.
Qed.

Lemma add_item_without_quantity_witness :
  cart_items (db (CartViewSet_add_item Sample.models (Some Sample.bob)
                    (mkCartItemData (Some 1) None)
                    (mkWorld Sample.shared_db None)).2)
  = [mkCartItem 1 1 1 2; mkCartItem 2 2 1 5; mkCartItem 3 1 2 1].
Proof.
  assert (Hwf : cart_item_keys_wf (db (mkWorld Sample.shared_db None))).
  { split; [exact shared_db_keys|]. apply Forall_forall.
    repeat constructor. }
  destruct (add_item_without_quantity Sample.models Sample.bob (mkCart 2 2) 1
              Sample.book_a 1 (mkWorld Sample.shared_db None)
              eq_refl Hwf eq_refl eq_refl eq_refl) as [H _].
  rewrite (H (mkCartItem 2 2 1 4) eq_refl). reflexivity.
Defined.

(** ** How the cart requests compose *)

Lemma filter_all {A} (P : A → Prop) `{∀ x, Decision (P x)} (l : list A) :
  (∀ x, x ∈ l → P x) → filter P l = l.
Proof.
  induction l as [|a l IH]; intros HP; [reflexivity|].
  rewrite filter_cons, decide_True by apply HP, list_elem_of_here.
  f_equal. apply IH. intros x Hx. by apply HP, list_elem_of_further.
Qed.

Lemma remove_item_existing u cart ci data w :
  write_budget w = None →
  carts_of (user_id u) (db w) = [cart] →
  cart_items_matching (cart_id cart) (data_book_id data) (db w) = [ci] →
  let d' := with_cart_items (filter (λ r, item_id r ≠ item_id ci)) (db w) in
  CartViewSet_remove_item (Some u) data w =
  (mkResponse HTTP_200_OK (CartBody cart (cart_items_all (cart_id cart) d')),
   mkWorld d' None).
Proof.
  intros Hb Hcart Hm d'.
  unfold CartViewSet_remove_item. rewrite view_head. unfold dispatch.
  rewrite (bind_Ok _ _ _ _ _ (get_cart_or_404_one _ _ _ Hcart)).
  unfold try_except_DoesNotExist.
  rewrite (bind_Ok _ _ _ _ _ (CartItem_objects_get_one _ _ _ _ Hm)).
  rewrite bind_unfold. unfold CartItem_delete.
  rewrite (execute_no_fault _ _ Hb). reflexivity.
Qed.

Lemma update_item_existing u cart b ci oq w :
  write_budget w = None →
  NoDup (item_id <$> cart_items (db w)) →
  carts_of (user_id u) (db w) = [cart] →
  cart_items_matching (cart_id cart) (Some b) (db w) = [ci] →
  let new := mkCartItem (item_id ci) (item_cart ci) (item_book ci)
                        (default 1 oq) in
  let d' := with_cart_items (rewrite_row ci new) (db w) in
  CartViewSet_update_item (Some u) (mkCartItemData (Some b) oq) w =
  (mkResponse HTTP_200_OK (CartBody cart (cart_items_all (cart_id cart) d')),
   mkWorld d' None).
Proof.
  intros Hb Hnd Hcart Hm new d'.
  destruct (matching_one_elem _ _ _ _ Hm) as (Hin & _ & _).
  unfold CartViewSet_update_item. rewrite view_head. unfold dispatch.
  rewrite (bind_Ok _ _ _ _ _ (get_cart_or_404_one _ _ _ Hcart)).
  cbn [data_book_id data_quantity]. unfold try_except_DoesNotExist.
  rewrite (bind_Ok _ _ _ _ _ (CartItem_objects_get_one _ _ _ _ Hm)).
  rewrite bind_unfold. unfold CartItem_save.
  rewrite (execute_no_fault _ _ Hb).
  rewrite (with_save_rewrite _ ci) by done. reflexivity.
Qed.

Lemma rewrite_row_twice ci c1 c2 rows :
  NoDup (item_id <$> rows) → ci ∈ rows → item_id c1 = item_id ci →
  rewrite_row c1 c2 (rewrite_row ci c1 rows) = rewrite_row ci c2 rows.
Proof.
  intros Hnd Hin Hid. unfold rewrite_row. rewrite <- list_fmap_compose.
  apply list_fmap_ext. intros i r Hr. apply list_elem_of_lookup_2 in Hr.
  cbn. destruct (decide (r = ci)) as [->|Hne].
  - by rewrite decide_True.
  - rewrite decide_False; [done|]. intros ->. apply Hne.
    by apply (NoDup_fmap_inj_on item_id rows).
Qed.

(** X10.  Two [update_item] requests for the same book of the cart are both
    carried out and the last quantity wins: the second is answered 200 with
    the cart, the one row of the book holds the second quantity (1 when the
    body leaves it out), every other row is as before the two requests, and
    response and store are those of the second request alone, so nothing of
    the first remains. *)
Theorem update_item_last_wins u cart b ci oq1 oq2 w :
  write_budget w = None →
  cart_item_keys_wf (db w) →
  carts_of (user_id u) (db w) = [cart] →
  cart_items_matching (cart_id cart) (Some b) (db w) = [ci] →
  let upd oq := CartViewSet_update_item (Some u) (mkCartItemData (Some b) oq) in
  let last := mkCartItem (item_id ci) (item_cart ci) (item_book ci)
                         (default 1 oq2) in
  let d' := with_cart_items (rewrite_row ci last) (db w) in
  upd oq2 (upd oq1 w).2
  = (mkResponse HTTP_200_OK (CartBody cart (cart_items_all (cart_id cart) d')),
     mkWorld d' None) ∧
  cart_items_matching (cart_id cart) (Some b) d' = [last] ∧
  upd oq2 (upd oq1 w).2 = upd oq2 w.
Proof.
  intros Hb Hwf Hcart Hm upd last d'. destruct Hwf as [Hnd Hlt].
  destruct (matching_one_elem _ _ _ _ Hm) as (Hin & _ & _).
  unfold upd.
  rewrite (update_item_existing u cart b ci oq1 w Hb Hnd Hcart Hm).
  rewrite (update_item_existing u cart b ci oq2 w Hb Hnd Hcart Hm).
  cbn [snd].
  set (c1 := mkCartItem (item_id ci) (item_cart ci) (item_book ci) (default 1 oq1)).
  set (d1 := with_cart_items (rewrite_row ci c1) (db w)).
  assert (Hm1 : cart_items_matching (cart_id cart) (Some b) d1 = [c1]).
  { unfold d1. rewrite matching_rewrite_row by reflexivity.
    rewrite Hm. unfold rewrite_row. cbn [fmap list_fmap].
    by rewrite decide_True. }
  assert (Hnd1 : NoDup (item_id <$> cart_items d1)).
  { unfold d1. cbn [cart_items with_cart_items]. unfold rewrite_row.
    by rewrite fmap_replace_id. }
  rewrite (update_item_existing u cart b c1 oq2 (mkWorld d1 None)
             eq_refl Hnd1 Hcart Hm1).
  cbn [db].
  assert (Hd : with_cart_items (rewrite_row c1 last) d1 = d').
  { unfold d', d1, with_cart_items. cbn. f_equal. by apply rewrite_row_twice. }
  change (mkCartItem (item_id c1) (item_cart c1) (item_book c1) (default 1 oq2))
    with last.
  rewrite Hd. fold d'. split; [reflexivity|]. split; [|reflexivity].
  unfold d'. rewrite matching_rewrite_row by reflexivity.
  rewrite Hm. unfold rewrite_row. cbn [fmap list_fmap].
  by rewrite decide_True.
Qed.

Lemma update_item_last_wins_witness :
  let upd q := CartViewSet_update_item (Some Sample.alice)
                 (mkCartItemData (Some 1) (Some q)) in
  cart_items_matching 1 (Some 1)
    (db (upd 3 (upd 8 (mkWorld Sample.shared_db None)).2).2)
  = [mkCartItem 1 1 1 3] ∧
  upd 3 (upd 8 (mkWorld Sample.shared_db None)).2
  = upd 3 (mkWorld Sample.shared_db None).
Proof.
  intros upd.
  assert (Hwf : cart_item_keys_wf (db (mkWorld Sample.shared_db None))).
  { split; [exact shared_db_keys|]. apply Forall_forall.
    repeat constructor. }
  destruct (update_item_last_wins Sample.alice (mkCart 1 1) 1
              (mkCartItem 1 1 1 2) (Some 8) (Some 3)
              (mkWorld Sample.shared_db None) eq_refl Hwf eq_refl eq_refl)
    as (E & Hrow & Hsame).
  split; [|exact Hsame].
  unfold upd. rewrite E. exact Hrow.
Defined.

(** X11.  Adding a book that the cart does not hold and removing it again gives
    back the cart items as they were, row for row; only the key counter has
    moved on, so the key is not used again. *)
Theorem add_then_remove_restores_cart models u cart b book q w :
  write_budget w = None →
  cart_item_keys_wf (db w) →
  carts_of (user_id u) (db w) = [cart] →
  books (db w) !! b = Some book →
  CartItem_quantity_valid models q = true →
  cart_items_matching (cart_id cart) (Some b) (db w) = [] →
  let w1 := (CartViewSet_add_item models (Some u)
               (mkCartItemData (Some b) (Some q)) w).2 in
  let r2 := CartViewSet_remove_item (Some u) (mkCartItemData (Some b) None) w1 in
  status_code r2.1 = HTTP_200_OK ∧
  cart_items (db r2.2) = cart_items (db w) ∧
  next_cart_item (db r2.2) = next_cart_item (db w) + 1.
Proof.
  intros Hb Hwf Hcart Hbook Hq Hm w1 r2.
  set (new := mkCartItem (next_cart_item (db w)) (cart_id cart) b q).
  set (d1 := insert_cart_item (cart_id cart) b q (db w)).
  assert (Hw1 : w1 = mkWorld d1 None).
  { unfold w1. by rewrite (add_item_new models u cart b book q w
                             Hb Hcart Hbook Hq Hm). }
  assert (Hwf1 : cart_item_keys_wf d1) by (by apply keys_wf_insert).
  assert (Hm1 : cart_items_matching (cart_id cart) (Some b) d1 = [new]).
  { unfold d1. rewrite matching_insert, Hm. by rewrite decide_True. }
  pose proof (remove_item_existing u cart new (mkCartItemData (Some b) None)
                (mkWorld d1 None) eq_refl Hcart Hm1) as E. cbn zeta in E.
  unfold r2. rewrite Hw1, E. cbn [fst snd status_code db].
  split; [reflexivity|]. split; [|reflexivity].
  cbn [cart_items with_cart_items d1 insert_cart_item]. fold new.
  rewrite filter_app, filter_cons, filter_nil.
  rewrite decide_False by tauto. rewrite app_nil_r.
  apply filter_all. intros r Hr Hid.
  destruct Hwf as [_ Hlt]. apply Hlt in Hr. cbn in Hid. lia.
Qed.

Lemma add_then_remove_restores_cart_witness :
  let w := mkWorld Sample.shared_db None in
  let w1 := (CartViewSet_add_item Sample.models (Some Sample.bob)
               (mkCartItemData (Some 2) (Some 3)) w).2 in
  cart_items
    (db (CartViewSet_remove_item (Some Sample.bob)
           (mkCartItemData (Some 2) None) w1).2)
  = cart_items Sample.shared_db.
Proof.
  intros w w1.
  assert (Hwf : cart_item_keys_wf (db w)).
  { split; [exact shared_db_keys|]. apply Forall_forall.
    repeat constructor. }
  exact (proj1 (proj2 (add_then_remove_restores_cart Sample.models Sample.bob
           (mkCart 2 2) 2 Sample.book_b 3 w
           eq_refl Hwf eq_refl eq_refl eq_refl eq_refl))).
Defined.

(** ** Orders after the placement *)

(** X12.  After an order has been placed, the same request sent again is refused
    with the empty-cart error and changes nothing: no second order is made
    from the same cart. *)
Theorem second_order_is_refused models u cart data w :
  write_budget w = None →
  carts_of (user_id u) (db w) = [cart] →
  cart_items_all (cart_id cart) (db w) ≠ [] →
  (∀ ci, ci ∈ cart_items_all (cart_id cart) (db w) →
         is_Some (books (db w) !! item_book ci)) →
  Order_fields_valid models data = true →
  let r1 := OrderViewSet_create models (Some u) data w in
  let r2 := OrderViewSet_create models (Some u) data r1.2 in
  status_code r1.1 = HTTP_201_CREATED ∧
  r2 = (mkResponse HTTP_400_BAD_REQUEST
          (ErrorBody "error" "Cannot place order with empty cart"), r1.2) ∧
  length (orders (db r2.2)) = S (length (orders (db w))).
Proof.
  intros Hb Hcart Hne Hbooks Hvalid r1 r2.
  destruct (OrderSerializer_create_ok models u cart data w Hb Hcart Hne Hbooks)
    as (order & d' & ois & E & _ & _ & Hord & _ & _ & _ & _ & Hempty & Hcarts).
  assert (E1 : r1 = (mkResponse HTTP_201_CREATED (OrderBody order),
                     mkWorld d' None))
    by (by apply OrderViewSet_create_ok).
  assert (Hcart' : carts_of (user_id u) (db (mkWorld d' None)) = [cart]).
  { unfold carts_of. cbn [db]. by rewrite Hcarts. }
  assert (E2 : r2 = (mkResponse HTTP_400_BAD_REQUEST
                       (ErrorBody "error" "Cannot place order with empty cart"),
                     mkWorld d' None)).
  { unfold r2. rewrite E1. cbn [snd].
    unfold OrderViewSet_create, dispatch.
    rewrite bind_unfold.
    cbn [check_permissions forallb has_permission
         OrderViewSet_get_permissions_create andb mret M_ret].
    rewrite bind_unfold. cbn [request_user mret M_ret].
    rewrite bind_unfold. unfold OrderSerializer_is_valid. rewrite Hvalid.
    cbn [mret M_ret]. rewrite bind_unfold.
    by rewrite (OrderSerializer_create_empty _ _ _ _ _ Hcart' Hempty). }
  rewrite E2, E1. cbn [fst snd status_code db].
  split; [reflexivity|]. split; [reflexivity|].
  rewrite Hord, length_app. cbn. lia.
Qed.

Lemma second_order_is_refused_witness :
  let w := mkWorld Sample.cart_db None in
  let r1 := OrderViewSet_create Sample.models (Some Sample.alice)
              Sample.address w in
  OrderViewSet_create Sample.models (Some Sample.alice) Sample.address r1.2
  = (mkResponse HTTP_400_BAD_REQUEST
       (ErrorBody "error" "Cannot place order with empty cart"), r1.2).
Proof.
  intros w r1.
  assert (Hbooks : ∀ ci, ci ∈ cart_items_all 1 (db w) →
                         is_Some (books (db w) !! item_book ci)).
  { intros ci H. apply list_elem_of_singleton in H as ->. by eexists. }
  assert (Hne : cart_items_all 1 (db w) ≠ []) by discriminate.
  exact (proj1 (proj2 (second_order_is_refused Sample.models Sample.alice
           (mkCart 1 1) Sample.address w eq_refl eq_refl Hne Hbooks eq_refl))).
Defined.

(** X13.  A placed order is listed for the user who placed it and for nobody
    else: what [OrderViewSet.get_queryset] gives the requester afterwards is
    what it gave before together with the new order (as collections of rows:
    the queryset has no order), and what it gives any other user holds the
    same orders as before and not the new one. *)
Theorem placed_order_is_listed_for_requester models u cart data w other :
  write_budget w = None →
  carts_of (user_id u) (db w) = [cart] →
  cart_items_all (cart_id cart) (db w) ≠ [] →
  (∀ ci, ci ∈ cart_items_all (cart_id cart) (db w) →
         is_Some (books (db w) !! item_book ci)) →
  user_id other ≠ user_id u →
  ∃ order w',
    OrderSerializer_create models u data w = Ok order w' ∧
    OrderViewSet_get_queryset u (db w')
      ≡ₚ order :: OrderViewSet_get_queryset u (db w) ∧
    OrderViewSet_get_queryset other (db w')
      ≡ₚ OrderViewSet_get_queryset other (db w) ∧
    order ∉ OrderViewSet_get_queryset other (db w').
Proof.
  intros Hb Hcart Hne Hbooks Hother.
  destruct (OrderSerializer_create_ok models u cart data w Hb Hcart Hne Hbooks)
    as (order & d' & ois & E & Huser & _ & Hord & _).
  exists order, (mkWorld d' None). split; [exact E|].
  unfold OrderViewSet_get_queryset. cbn [db]. rewrite Hord, !filter_app.
  rewrite !filter_cons, !filter_nil, Huser.
  rewrite decide_True by reflexivity.
  rewrite decide_False by congruence.
  rewrite app_nil_r. split; [|split].
  - symmetry. apply Permutation_cons_append.
  - reflexivity.
  - intros Hin. apply list_elem_of_filter in Hin as [Hu _]. congruence.
Qed.

Lemma placed_order_is_listed_for_requester_witness :
  ∃ order w',
    OrderSerializer_create Sample.models Sample.alice Sample.address
      (mkWorld Sample.cart_db None) = Ok order w' ∧
    OrderViewSet_get_queryset Sample.alice (db w') ≡ₚ [order] ∧
    OrderViewSet_get_queryset Sample.bob (db w') ≡ₚ [].
Proof.
  assert (Hbooks : ∀ ci, ci ∈ cart_items_all 1 Sample.cart_db →
                         is_Some (books Sample.cart_db !! item_book ci)).
  { intros ci H. apply list_elem_of_singleton in H as ->. by eexists. }
  assert (Hne : cart_items_all 1 Sample.cart_db ≠ []) by discriminate.
  assert (Hother : user_id Sample.bob ≠ user_id Sample.alice) by discriminate.
  destruct (placed_order_is_listed_for_requester Sample.models Sample.alice
              (mkCart 1 1) Sample.address (mkWorld Sample.cart_db None)
              Sample.bob eq_refl eq_refl Hne Hbooks Hother)
    as (order & w' & E & H1 & H2 & _).
  exists order, w'. split; [exact E|]. split; [exact H1|exact H2].
Defined.

(** ** Creating, changing and deleting reviews *)

Lemma review_view_head (perms : list permission) (user : User)
  (k : M Response) w :
  perms = [IsAuthenticated] →
  dispatch (check_permissions perms (Some user);; k) w = dispatch k w.
Proof. by intros ->. Qed.

(** X14.  When the requester has not reviewed the book yet, the body passes the
    field validation and no statement fails, the creation request is
    answered 201 and appends one review whose author is the requester and
    whose book, rating and text are those of the body; it is then the
    requester's only review of the book. *)
Theorem review_is_created_for_requester models u b data rt w :
  write_budget w = None →
  data_book data = Some b →
  is_Some (books (db w) !! b) →
  Review_fields models (data_rating data) (data_text data) = Some rt →
  reviews_of b (user_id u) (db w) = [] →
  let r := mkReview (next_review (db w)) b (user_id u) rt.1 rt.2 in
  let d' := insert_review b (user_id u) rt.1 rt.2 (db w) in
  ReviewViewSet_create models (Some u) data w =
    (mkResponse HTTP_201_CREATED (ReviewBody r), mkWorld d' None) ∧
  reviews d' = reviews (db w) ++ [r] ∧
  reviews_of b (user_id u) d' = [r].
Proof.
  intros Hb Hbook [bk Hbk] Hrt Hfree r d'.
  split; [|split].
  - unfold ReviewViewSet_create.
    rewrite review_view_head by reflexivity. unfold dispatch.
    rewrite bind_unfold. cbn [request_user mret M_ret].
    rewrite bind_unfold. unfold ReviewSerializer_is_valid.
    rewrite Hbook, bind_unfold. unfold query at 1. rewrite Hbk, Hrt.
    rewrite bind_unfold, (ReviewSerializer_validate_free _ _ _ Hfree).
    cbn [mret M_ret]. rewrite bind_unfold.
    unfold ReviewSerializer_create, Review_objects_create. cbn [fst snd].
    rewrite !bind_unfold. unfold query. rewrite bind_unfold.
    rewrite (execute_no_fault _ _ Hb). reflexivity.
  - reflexivity.
  - unfold reviews_of, d'. cbn [reviews insert_review].
    rewrite filter_app. fold (reviews_of b (user_id u) (db w)). rewrite Hfree.
    rewrite filter_cons, filter_nil. cbn [review_book review_user].
    by rewrite decide_True.
Qed.

Lemma review_is_created_for_requester_witness :
  ReviewViewSet_create Sample.models (Some Sample.alice)
    (mkReviewData (Some 2) (Some 4) None) (mkWorld Sample.reviewed_db None) =
  (mkResponse HTTP_201_CREATED (ReviewBody (mkReview 3 2 1 4 "")),
   mkWorld (insert_review 2 1 4 "" Sample.reviewed_db) None).
Proof.
  assert (Hbook : is_Some (books Sample.reviewed_db !! 2)) by (by eexists).
  exact (proj1 (review_is_created_for_requester Sample.models Sample.alice 2
           (mkReviewData (Some 2) (Some 4) None) (4, "")
           (mkWorld Sample.reviewed_db None)
           eq_refl eq_refl Hbook eq_refl eq_refl)).
Defined.

Lemma sum_ratings_app l1 l2 :
  sum_ratings (l1 ++ l2) = sum_ratings l1 + sum_ratings l2.
Proof.
  unfold sum_ratings. induction l1 as [|r l1 IH]; cbn; [reflexivity|].
  rewrite IH. lia.
Qed.


(** X15.  A created review enters the average of its book: with [n] earlier
    reviews of the book whose ratings sum to [s], the average returned after
    the creation is what the floating-point division gives for [s + rating]
    and [n + 1]; the average returned for every other book is as it was. *)
Theorem new_review_enters_average models u b data rt w other :
  write_budget w = None →
  data_book data = Some b →
  is_Some (books (db w) !! b) →
  Review_fields models (data_rating data) (data_text data) = Some rt →
  reviews_of b (user_id u) (db w) = [] →
  other ≠ b →
  let d' := db (ReviewViewSet_create models (Some u) data w).2 in
  BookSerializer_get_average_rating_float b d' =
    Some (int_truediv (sum_ratings (book_reviews b (db w)) + rt.1)
                      (Z.of_nat (S (length (book_reviews b (db w)))))) ∧
  BookSerializer_get_average_rating_float other d' =
    BookSerializer_get_average_rating_float other (db w).
Proof.
  intros Hb Hbook [bk Hbk] Hrt Hfree Hother d'.
  assert (Hd' : d' = insert_review b (user_id u) rt.1 rt.2 (db w)).
  { unfold d', ReviewViewSet_create.
    rewrite review_view_head by reflexivity. unfold dispatch.
    rewrite bind_unfold. cbn [request_user mret M_ret].
    rewrite bind_unfold. unfold ReviewSerializer_is_valid.
    rewrite Hbook, bind_unfold. unfold query at 1. rewrite Hbk, Hrt.
    rewrite bind_unfold, (ReviewSerializer_validate_free _ _ _ Hfree).
    cbn [mret M_ret]. rewrite bind_unfold.
    unfold ReviewSerializer_create, Review_objects_create. cbn [fst snd].
    rewrite !bind_unfold. unfold query. rewrite bind_unfold.
    rewrite (execute_no_fault _ _ Hb). reflexivity. }
  set (r := mkReview (next_review (db w)) b (user_id u) rt.1 rt.2).
  assert (Hbr : book_reviews b d' = book_reviews b (db w) ++ [r]).
  { rewrite Hd'. unfold book_reviews. cbn [reviews insert_review].
    rewrite filter_app, filter_cons, filter_nil. cbn [review_book].
    by rewrite decide_True. }
  assert (Hbo : book_reviews other d' = book_reviews other (db w)).
  { rewrite Hd'. unfold book_reviews. cbn [reviews insert_review].
    rewrite filter_app, filter_cons, filter_nil. cbn [review_book].
    rewrite decide_False by congruence. by rewrite app_nil_r. }
  split.
  - unfold BookSerializer_get_average_rating_float.
    rewrite (match_nonempty (book_reviews b d'))
      by (rewrite Hbr; by destruct (book_reviews b (db w))).
    rewrite Hbr, sum_ratings_app, length_app.
    cbn [sum_ratings foldr rating length r].
    by rewrite Z.add_0_r, Nat.add_1_r.
  - unfold BookSerializer_get_average_rating_float. by rewrite Hbo.
Qed.

Lemma new_review_enters_average_witness :
  let d' := db (ReviewViewSet_create Sample.models (Some Sample.carol)
                  (mkReviewData (Some 1) (Some 1) None)
                  (mkWorld Sample.reviewed_db None)).2 in
  BookSerializer_get_average_rating_float 1 d' = Some (int_truediv 9 3) ∧
  int_truediv 9 3 = Float (S754_finite false 6755399441055744 (-51)).
Proof.
  intros d'.
  assert (Hbook : is_Some (books Sample.reviewed_db !! 1)) by (by eexists).
  assert (Hother : 2 ≠ 1) by discriminate.
  split; [|by vm_compute].
  exact (proj1 (new_review_enters_average Sample.models Sample.carol 1
           (mkReviewData (Some 1) (Some 1) None) (1, "")
           (mkWorld Sample.reviewed_db None) 2
           eq_refl eq_refl Hbook eq_refl eq_refl Hother)).
Defined.

(** ** Bounds of the average rating *)

Lemma sum_ratings_bounds lo hi (rs : list Review) :
  (∀ r, r ∈ rs → lo ≤ rating r ≤ hi) →
  lo * Z.of_nat (length rs) ≤ sum_ratings rs ≤ hi * Z.of_nat (length rs).
Proof.
  unfold sum_ratings. induction rs as [|r rs IH]; intros H; [cbn; lia|].
  cbn [foldr length].
  assert (lo ≤ rating r ≤ hi) by apply H, list_elem_of_here.
  assert (IH' := IH (λ x Hx, H x (list_elem_of_further _ _ _ Hx))).
  lia.
Qed.



(** ** The average rating as a double

    What the division of [SpecFloat] does with two positive integers whose
    quotient lies between 1 and [2^50]: the digits of the operands fix the
    exponent, the integer quotient has 53 or 54 bits and is rounded to 53,
    ties to even. *)

Lemma digits2_pos_bounds p :
  2 ^ (Zpos (digits2_pos p) - 1) ≤ Zpos p < 2 ^ Zpos (digits2_pos p).
Proof.
  induction p as [p IH|p IH|]; cbn [digits2_pos].
  - rewrite Pos2Z.inj_succ. replace (Z.succ (Zpos (digits2_pos p)) - 1)
      with (Z.succ (Zpos (digits2_pos p) - 1)) by lia.
    rewrite !Z.pow_succ_r by lia. lia.
  - rewrite Pos2Z.inj_succ. replace (Z.succ (Zpos (digits2_pos p)) - 1)
      with (Z.succ (Zpos (digits2_pos p) - 1)) by lia.
    rewrite !Z.pow_succ_r by lia. lia.
  - cbn. lia.
Qed.

Lemma Zdigits2_unique z k :
  2 ^ (k - 1) ≤ z < 2 ^ k → 0 < k → Zdigits2 z = k.
Proof.
  intros [Hlo Hhi] Hk.
  assert (0 < z) by (pose proof (Z.pow_pos_nonneg 2 (k - 1)); lia).
  destruct z as [|p|p]; [lia| |lia]. cbn [Zdigits2].
  pose proof (digits2_pos_bounds p) as [Hlo' Hhi'].
  set (d := Zpos (digits2_pos p)) in *.
  destruct (Z.lt_trichotomy d k) as [Hlt|[Heq|Hgt]]; [|exact Heq|].
  - assert (2 ^ d ≤ 2 ^ (k - 1)) by (apply Z.pow_le_mono_r; lia). lia.
  - assert (2 ^ k ≤ 2 ^ (d - 1)) by (apply Z.pow_le_mono_r; lia). lia.
Qed.

Lemma new_location_spec b r :
  0 ≤ r < b →
  match new_location b r with
  | loc_Exact => r = 0
  | loc_Inexact Lt => 0 < r ∧ 2 * r < b
  | loc_Inexact Eq => 2 * r = b
  | loc_Inexact Gt => b < 2 * r
  end.
Proof.
  intros Hr. unfold new_location, new_location_even, new_location_odd.
  destruct (Z.even b) eqn:Eb.
  - destruct (Z.eqb_spec r 0) as [->|Hne]; [reflexivity|].
    destruct (Z.compare_spec (2 * r) b); lia.
  - destruct (Z.eqb_spec r 0) as [->|Hne]; [reflexivity|].
    assert (Hodd : Z.odd b = true) by (by rewrite <- Z.negb_even, Eb).
    apply Z.odd_spec in Hodd as [c Hc].
    destruct (Z.compare_spec (2 * r + 1) b); lia.
Qed.

Lemma loc_of_shr_record_of_loc m l :
  loc_of_shr_record (shr_record_of_loc m l) = l
  ∧ shr_m (shr_record_of_loc m l) = m.
Proof. by destruct l as [|[]]. Qed.

(** Rounding a quotient [q + r/b] to the nearest integer, ties to even. *)
Lemma round_nearest_even_0 q b r :
  0 ≤ r < b →
  let m' := round_nearest_even q (new_location b r) in
  q ≤ m' ≤ q + 1 ∧ - b ≤ 2 * (m' * b - (q * b + r)) ≤ b ∧
  (r = 0 → m' = q).
Proof.
  intros Hr m'. pose proof (new_location_spec b r Hr) as Hl.
  unfold m', round_nearest_even. clear m'.
  destruct (new_location b r) as [|[]]; cbn beta iota in Hl.
  - subst r. split; [lia|]. split; [nia|done].
  - destruct (Z.even q); (split; [lia|]; split; [nia|lia]).
  - split; [lia|]. split; [nia|lia].
  - split; [lia|]. split; [nia|lia].
Qed.

Lemma shr_1_spec q l :
  0 < q →
  let mrs := shr_1 (shr_record_of_loc q l) in
  q = 2 * shr_m mrs + (if shr_r mrs then 1 else 0) ∧
  shr_s mrs = match l with loc_Exact => false | _ => true end.
Proof.
  intros Hq. destruct q as [|p|p]; [lia| |lia].
  destruct l as [|[]], p; cbn; split; (reflexivity || lia).
Qed.

(** The same after one shift: [(q + r/b) / 2] to the nearest integer. *)
Lemma round_nearest_even_1 q b r :
  0 < q → 0 ≤ r < b →
  let mrs := shr_1 (shr_record_of_loc q (new_location b r)) in
  let m' := round_nearest_even (shr_m mrs) (loc_of_shr_record mrs) in
  q - 1 ≤ 2 * m' ≤ q + 2 ∧ - b ≤ 2 * m' * b - (q * b + r) ≤ b ∧
  (∀ c, r = 0 → q = 2 * c → m' = c).
Proof.
  intros Hq Hr mrs m'. pose proof (new_location_spec b r Hr) as Hl.
  destruct (shr_1_spec q (new_location b r) Hq) as [Hm Hs].
  fold mrs in Hm, Hs. unfold m', round_nearest_even. clear m'.
  destruct mrs as [m1 rb st]. cbn [shr_m shr_r shr_s loc_of_shr_record] in *.
  destruct (new_location b r) as [|[]]; cbn beta iota in Hl; subst st;
    destruct rb; cbn [loc_of_shr_record]; cbn beta iota;
    try destruct (Z.even m1);
    (split; [lia|]; split; [nia|]; intros c Hr0 Hc; lia).
Qed.

(** The last step of the rounding: a mantissa of 53 bits stays, [2^53]
    becomes [2^52] with the exponent one higher. *)
Lemma binary_round_tail m e :
  2 ^ 52 ≤ m ≤ 2 ^ 53 → -1074 ≤ e ≤ 960 →
  ∃ mf ef,
    (let '(mrs, e'') := shr_fexp 53 1024 m e loc_Exact in
     match shr_m mrs with
     | Z0 => S754_zero false
     | Zpos m0 => if Z.leb e'' (1024 - 53) then S754_finite false m0 e''
                  else S754_infinity false
     | Zneg _ => S754_nan
     end) = S754_finite false mf ef ∧
    e ≤ ef ≤ e + 1 ∧ Zpos mf * 2 ^ (ef - e) = m ∧ 2 ^ 52 ≤ Zpos mf < 2 ^ 53.
Proof.
  intros Hm He. unfold shr_fexp.
  destruct (decide (m = 2 ^ 53)) as [->|Hne].
  - change (Zdigits2 (2 ^ 53)) with 54.
    replace (fexp 53 1024 (54 + e) - e) with 1 by (unfold fexp, emin; lia).
    cbn [shr shr_record_of_loc SpecFloat.iter_pos].
    change (shr_1 {| shr_m := 2 ^ 53; shr_r := false; shr_s := false |})
      with {| shr_m := 2 ^ 52; shr_r := false; shr_s := false |}.
    cbn [shr_m]. change (2 ^ 52) with (Zpos (2 ^ 52)).
    cbn beta iota.
    replace (e + 1 <=? 1024 - 53) with true by (symmetry; apply Z.leb_le; lia).
    eexists _, _. split; [reflexivity|]. split; [lia|].
    replace (e + 1 - e) with 1 by lia. split; [reflexivity|]. lia.
  - rewrite (Zdigits2_unique m 53) by lia.
    replace (fexp 53 1024 (53 + e) - e) with 0 by (unfold fexp, emin; lia).
    cbn [shr shr_record_of_loc shr_m].
    destruct m as [|p|p]; [lia| |lia].
    replace (e <=? 1024 - 53) with true by (symmetry; apply Z.leb_le; lia).
    eexists _, _. split; [reflexivity|]. split; [lia|].
    rewrite Z.sub_diag. lia.
Qed.

(** The quotient that the division computes before it rounds. *)
Lemma SFdiv_core_binary_int a b :
  0 < b ≤ a → a ≤ 2 ^ 50 * b →
  ∃ q r s,
    SFdiv_core_binary 53 1024 a 0 b 0 = (q, - s, new_location b r) ∧
    3 ≤ s ≤ 53 ∧ a * 2 ^ s = q * b + r ∧ 0 ≤ r < b ∧ 2 ^ 52 ≤ q < 2 ^ 54.
Proof.
  intros [Hb Hab] Ha.
  destruct a as [|pa|pa]; [lia| |lia]. destruct b as [|pb|pb]; [lia| |lia].
  unfold SFdiv_core_binary. cbn [Zdigits2].
  pose proof (digits2_pos_bounds pa) as [Ha1 Ha2].
  pose proof (digits2_pos_bounds pb) as [Hb1 Hb2].
  set (d1 := Zpos (digits2_pos pa)) in *.
  set (d2 := Zpos (digits2_pos pb)) in *.
  assert (Hd1 : 0 < d1) by (unfold d1; lia).
  assert (Hd2 : 0 < d2) by (unfold d2; lia).
  assert (Hd21 : d2 ≤ d1).
  { destruct (Z_lt_le_dec d1 d2) as [Hlt|]; [|done].
    assert (2 ^ d1 ≤ 2 ^ (d2 - 1)) by (apply Z.pow_le_mono_r; lia). lia. }
  assert (Hd12 : d1 ≤ d2 + 50).
  { destruct (Z_lt_le_dec (d2 + 50) d1) as [Hlt|]; [|lia].
    assert (2 ^ (d2 + 50) ≤ 2 ^ (d1 - 1)) by (apply Z.pow_le_mono_r; lia).
    rewrite Z.pow_add_r in H by lia. lia. }
  set (s := d2 + 53 - d1).
  replace (Z.min (fexp 53 1024 (d1 + 0 - (d2 + 0))) (0 - 0)) with (- s)
    by (unfold fexp, emin, s; lia).
  replace (0 - 0 - - s) with s by lia.
  assert (Hs : 3 ≤ s ≤ 53) by (unfold s; lia).
  destruct s as [|ps|ps] eqn:Es; [lia| |lia]. rewrite <- Es in *.
  rewrite Z.shiftl_mul_pow2 by lia.
  pose proof (Z_div_mod (Zpos pa * 2 ^ s) (Zpos pb) eq_refl) as Hdiv.
  destruct (Z.div_eucl (Zpos pa * 2 ^ s) (Zpos pb)) as [q r].
  destruct Hdiv as [Hqr Hr].
  exists q, r, s. split; [reflexivity|]. split; [exact Hs|].
  split; [lia|]. split; [exact Hr|].
  assert (Hp1 : 2 ^ (d1 - 1) * 2 ^ s = 2 ^ 52 * 2 ^ d2).
  { rewrite <- !Z.pow_add_r by lia. f_equal. unfold s. lia. }
  assert (Hp2 : 2 ^ d1 * 2 ^ s = 2 ^ 54 * 2 ^ (d2 - 1)).
  { rewrite <- !Z.pow_add_r by lia. f_equal. unfold s. lia. }
  assert (0 < 2 ^ s) by (apply Z.pow_pos_nonneg; lia).
  assert (2 ^ 52 * 2 ^ d2 ≤ Zpos pa * 2 ^ s) by (rewrite <- Hp1; nia).
  assert (Zpos pa * 2 ^ s < 2 ^ 54 * 2 ^ (d2 - 1)) by (rewrite <- Hp2; nia).
  split; nia.
Qed.

(** Python's [a / b] for integers with [1 ≤ a / b ≤ 2^50]: a positive double
    [m * 2^(-k)] with a mantissa of 53 bits, away from the quotient by at
    most [2^(-53)] of the quotient, and on the same side of every integer
    as the quotient. *)
Lemma int_truediv_error a b :
  0 < b ≤ a → a ≤ 2 ^ 50 * b →
  ∃ m k,
    int_truediv a b = Float (S754_finite false m (- k)) ∧
    0 ≤ k ∧ 2 ^ 52 ≤ Zpos m < 2 ^ 53 ∧
    2 ^ 53 * Z.abs (Zpos m * b - a * 2 ^ k) ≤ a * 2 ^ k ∧
    (∀ c, c * b ≤ a → c * 2 ^ k ≤ Zpos m) ∧
    (∀ c, a ≤ c * b → Zpos m ≤ c * 2 ^ k).
Proof.
  intros Hab Ha.
  destruct (SFdiv_core_binary_int a b Hab Ha)
    as (q & r & s & Ecore & Hs & Hqr & Hr & Hq).
  assert (Hlow : ∀ c, c * b ≤ a → c * 2 ^ s ≤ q).
  { intros c Hc. assert (0 < 2 ^ s) by (apply Z.pow_pos_nonneg; lia).
    assert (c * 2 ^ s * b < (q + 1) * b) by nia. nia. }
  assert (Hup : ∀ c, a ≤ c * b → q ≤ c * 2 ^ s ∧ (q = c * 2 ^ s → r = 0)).
  { intros c Hc. assert (0 < 2 ^ s) by (apply Z.pow_pos_nonneg; lia).
    assert (q * b ≤ c * 2 ^ s * b) by nia. split; [nia|]. intros ->. nia. }
  unfold int_truediv. rewrite decide_False by lia.
  destruct a as [|pa|pa]; [lia| |lia]. destruct b as [|pb|pb]; [lia| |lia].
  cbn [int_operand SFdiv xorb]. rewrite Ecore.
  unfold binary_round_aux.
  destruct (Z_lt_le_dec q (2 ^ 53)) as [Hq53|Hq53].
  - unfold shr_fexp at 1. rewrite (Zdigits2_unique q 53) by lia.
    replace (fexp 53 1024 (53 + - s) - - s) with 0 by (unfold fexp, emin; lia).
    cbn [shr].
    destruct (loc_of_shr_record_of_loc q (new_location (Zpos pb) r))
      as [-> ->].
    destruct (round_nearest_even_0 q (Zpos pb) r Hr) as (Hm' & Herr & Hex).
    set (m' := round_nearest_even q (new_location (Zpos pb) r)) in *.
    destruct (binary_round_tail m' (- s))
      as (mf & ef & -> & Hef & Hmf & Hmf53); [lia|lia|].
    exists mf, (- ef). rewrite Z.opp_involutive.
    split; [reflexivity|]. split; [lia|]. split; [exact Hmf53|].
    assert (Ht : ef - - s = 0 ∨ ef - - s = 1) by lia.
    destruct Ht as [Ht|Ht]; rewrite Ht in Hmf.
    + replace (- ef) with s by lia. split; [|split].
      * apply Z.abs_case; [intros ? ? ->; done|nia|nia].
      * intros c Hc. specialize (Hlow c Hc). lia.
      * intros c Hc. destruct (Hup c Hc) as [Hle Heq].
        destruct (decide (q = c * 2 ^ s)) as [E|E]; [|lia].
        specialize (Hex (Heq E)). lia.
    + assert (Es : 2 ^ s = 2 * 2 ^ (- ef)).
      { replace s with (Z.succ (- ef)) by lia. apply Z.pow_succ_r. lia. }
      split; [|split].
      * apply Z.abs_case; [intros ? ? ->; done|nia|nia].
      * intros c Hc. specialize (Hlow c Hc). lia.
      * intros c Hc. destruct (Hup c Hc) as [Hle Heq].
        destruct (decide (q = c * 2 ^ s)) as [E|E]; [|lia].
        specialize (Hex (Heq E)). lia.
  - unfold shr_fexp at 1. rewrite (Zdigits2_unique q 54) by lia.
    replace (fexp 53 1024 (54 + - s) - - s) with 1 by (unfold fexp, emin; lia).
    cbn [shr SpecFloat.iter_pos].
    destruct (round_nearest_even_1 q (Zpos pb) r) as (Hm' & Herr & Hex);
      [lia|exact Hr|].
    set (mrs := shr_1 (shr_record_of_loc q (new_location (Zpos pb) r))) in *.
    set (m' := round_nearest_even (shr_m mrs) (loc_of_shr_record mrs)) in *.
    destruct (binary_round_tail m' (- s + 1))
      as (mf & ef & -> & Hef & Hmf & Hmf53); [lia|lia|].
    exists mf, (- ef). rewrite Z.opp_involutive.
    split; [reflexivity|]. split; [lia|]. split; [exact Hmf53|].
    assert (Ht : ef - (- s + 1) = 0 ∨ ef - (- s + 1) = 1) by lia.
    destruct Ht as [Ht|Ht]; rewrite Ht in Hmf.
    + assert (Es : 2 ^ s = 2 * 2 ^ (- ef)).
      { replace s with (Z.succ (- ef)) by lia. apply Z.pow_succ_r. lia. }
      split; [|split].
      * apply Z.abs_case; [intros ? ? ->; done|nia|nia].
      * intros c Hc. specialize (Hlow c Hc). lia.
      * intros c Hc. destruct (Hup c Hc) as [Hle Heq].
        destruct (decide (q = c * 2 ^ s)) as [E|E]; [|lia].
        specialize (Hex (c * 2 ^ (- ef)) (Heq E)). lia.
    + assert (Es : 2 ^ s = 4 * 2 ^ (- ef)).
      { replace s with (Z.succ (Z.succ (- ef))) by lia.
        rewrite !Z.pow_succ_r by lia. lia. }
      split; [|split].
      * apply Z.abs_case; [intros ? ? ->; done|nia|nia].
      * intros c Hc. specialize (Hlow c Hc). lia.
      * intros c Hc. destruct (Hup c Hc) as [Hle Heq].
        destruct (decide (q = c * 2 ^ s)) as [E|E]; [|lia].
        specialize (Hex (2 * (c * 2 ^ (- ef))) (Heq E)). lia.
Qed.

Lemma float_value_finite m k :
  0 ≤ k →
  (float_value (S754_finite false m (- k))
   == inject_Z (Zpos m) / inject_Z (2 ^ k))%Q.
Proof.
  intros Hk. cbn [float_value]. unfold Qdiv.
  rewrite Qpower_opp, Zpower_Qpower by exact Hk. reflexivity.
Qed.

Lemma Qdiv_rel_error (M P A B : Z) :
  0 < P → 0 < B →
  2 ^ 53 * Z.abs (M * B - A * P) ≤ A * P →
  (Qabs (inject_Z M / inject_Z P - inject_Z A / inject_Z B)
   <= (inject_Z A / inject_Z B) / inject_Z (2 ^ 53))%Q.
Proof.
  intros HP HB H.
  destruct P as [|p|p]; [lia| |lia]. destruct B as [|b|b]; [lia| |lia].
  apply Qabs_Qle_condition.
  set (D := M * Z.pos b - A * Z.pos p) in *.
  assert (HD : - (A * Z.pos p) ≤ 2 ^ 53 * D ≤ A * Z.pos p) by lia.
  unfold D in HD. clear H D.
  change (2 ^ 53) with 9007199254740992 in *.
  unfold Qle, Qdiv, Qminus, Qplus, Qopp, Qmult, Qinv, inject_Z.
  cbn [Qnum Qden].
  rewrite ?Pos.mul_1_l, ?Pos2Z.inj_mul, ?Z.mul_1_r.
  split; nia.
Qed.

Lemma Qdiv_exact (M P c : Z) :
  0 < P → M = c * P → (inject_Z M / inject_Z P == inject_Z c)%Q.
Proof.
  intros HP ->. destruct P as [|p|p]; [lia| |lia].
  unfold Qeq, Qdiv, Qmult, Qinv, inject_Z. cbn [Qnum Qden].
  rewrite ?Pos.mul_1_l, ?Z.mul_1_r. lia.
Qed.

Lemma Qdiv_lower (M P c : Z) :
  0 < P → c * P ≤ M → (inject_Z c <= inject_Z M / inject_Z P)%Q.
Proof.
  intros HP H. destruct P as [|p|p]; [lia| |lia].
  unfold Qle, Qdiv, Qmult, Qinv, inject_Z. cbn [Qnum Qden].
  rewrite ?Pos.mul_1_l, ?Z.mul_1_r. lia.
Qed.

Lemma Qdiv_upper (M P c : Z) :
  0 < P → M ≤ c * P → (inject_Z M / inject_Z P <= inject_Z c)%Q.
Proof.
  intros HP H. destruct P as [|p|p]; [lia| |lia].
  unfold Qle, Qdiv, Qmult, Qinv, inject_Z. cbn [Qnum Qden].
  rewrite ?Pos.mul_1_l, ?Z.mul_1_r. lia.
Qed.

(** C8, as stated, fails: the value returned is a double, and the mean need
    not be one.  For the ratings 5, 5 and 4 the mean is 14/3; the value
    returned is the double 5254199565265579 / 2^50 (printed
    4.666666666666667), and three times it is not 14. *)
Lemma average_rating_is_not_exact :
  rating <$> book_reviews 1 Sample.rated_thrice_db = [5; 5; 4] ∧
  ∃ x, BookSerializer_get_average_rating_float 1 Sample.rated_thrice_db
       = Some (Float x) ∧
       x = S754_finite false 5254199565265579 (-50) ∧
       (float_value x == 5254199565265579 # (2 ^ 50))%Q ∧
       ¬ (float_value x * 3 == 14)%Q.
Proof.
  split; [reflexivity|]. eexists. split; [by vm_compute|].
  split; [reflexivity|]. split; [by vm_compute|].
  intros H. vm_compute in H. discriminate H.
Qed.

(** C8, amended.  The average rating of a book is absent when the book has
    no review.  Otherwise it is what the floating-point division of the sum
    of the ratings by their number gives, and never an error of a division
    by zero; it is 0.0, and not absent, when the ratings sum to zero.  When
    the ratings lie between 1 and [2^50], it is a double that is away from
    the arithmetic mean by at most [2^(-53)] of the mean, and it is the mean
    itself when the mean is a whole number; for the ratings 5 and 3 it is
    the double 4.0. *)
Theorem average_rating_is_rounded_mean (obj : Z) (d : DB) :
  let reviews := book_reviews obj d in
  let total := foldr Z.add 0 (rating <$> reviews) in
  let count := Z.of_nat (length reviews) in
  (reviews = [] → BookSerializer_get_average_rating_float obj d = None) ∧
  (reviews ≠ [] →
   BookSerializer_get_average_rating_float obj d
   = Some (int_truediv total count) ∧
   BookSerializer_get_average_rating_float obj d ≠ Some ZeroDivisionError ∧
   (total = 0 →
    BookSerializer_get_average_rating_float obj d
    = Some (Float (S754_zero false)))) ∧
  (reviews ≠ [] → (∀ r, r ∈ reviews → 1 ≤ rating r ≤ 2 ^ 50) →
   ∃ x, BookSerializer_get_average_rating_float obj d = Some (Float x) ∧
        let mean := (inject_Z total / inject_Z count)%Q in
        (Qabs (float_value x - mean) <= mean / inject_Z (2 ^ 53))%Q ∧
        (∀ c, total = c * count → (float_value x == inject_Z c)%Q)) ∧
  (rating <$> reviews = [5; 3] →
   ∃ x, BookSerializer_get_average_rating_float obj d = Some (Float x) ∧
        x = S754_finite false (2 ^ 52) (-50) ∧
        (float_value x == 4)%Q).
Proof.
  intros reviews total count.
  assert (Hsome : reviews ≠ [] →
            BookSerializer_get_average_rating_float obj d
            = Some (int_truediv total count) ∧ 0 < count).
  { intros Hne. unfold BookSerializer_get_average_rating_float.
    fold reviews. unfold total, count. rewrite <- sum_ratings_fmap.
    destruct reviews as [|r rs]; [done|]. split; [reflexivity|].
    cbn [length]. lia. }
  split; [|split; [|split]].
  - intros E. unfold BookSerializer_get_average_rating_float.
    fold reviews. by rewrite E.
  - intros Hne. destruct (Hsome Hne) as [-> Hcount].
    split; [reflexivity|].
    unfold int_truediv. rewrite decide_False by lia.
    split.
    + by destruct (SFdiv 53 1024 _ _).
    + intros ->. destruct count as [|q|q]; [lia| |lia]. reflexivity.
  - intros Hne Hr. destruct (Hsome Hne) as [-> Hcount].
    pose proof (sum_ratings_bounds 1 (2 ^ 50) reviews Hr) as Hsum.
    rewrite sum_ratings_fmap in Hsum. fold total count in Hsum.
    destruct (int_truediv_error total count)
      as (m & k & -> & Hk & _ & Herr & Hlow & Hup); [lia|lia|].
    eexists. split; [reflexivity|]. cbn zeta.
    assert (Hpow : 0 < 2 ^ k) by (apply Z.pow_pos_nonneg; lia).
    split.
    + rewrite float_value_finite by exact Hk.
      by apply Qdiv_rel_error.
    + intros c Hc. rewrite float_value_finite by exact Hk.
      apply Qdiv_exact; [exact Hpow|].
      specialize (Hlow c). specialize (Hup c). lia.
  - intros H. unfold BookSerializer_get_average_rating_float. fold reviews.
    destruct reviews as [|r1 [|r2 [|r3 rs]]]; simpl in H; try discriminate.
    injection H as H1 H2. eexists.
    unfold sum_ratings. cbn [foldr length]. rewrite H1, H2.
    split; [by vm_compute|]. split; [reflexivity|]. by vm_compute.
Qed.

Lemma average_rating_is_rounded_mean_witness :
  BookSerializer_get_average_rating_float 2 Sample.reviewed_db = None ∧
  (∃ x, BookSerializer_get_average_rating_float 1 Sample.reviewed_db
        = Some (Float x) ∧ (float_value x == 4)%Q) ∧
  (∃ x, BookSerializer_get_average_rating_float 1 Sample.rated_thrice_db
        = Some (Float x) ∧
        (Qabs (float_value x - (14 # 3)) <= (14 # 3) / inject_Z (2 ^ 53))%Q).
Proof.
  split; [|split].
  - apply (average_rating_is_rounded_mean 2 Sample.reviewed_db). reflexivity.
  - destruct (proj2 (proj2 (proj2 (average_rating_is_rounded_mean
                                     1 Sample.reviewed_db))) eq_refl)
      as (x & E & _ & Hv).
    exists x. split; [exact E|exact Hv].
  - destruct (proj1 (proj2 (proj2 (average_rating_is_rounded_mean
                                     1 Sample.rated_thrice_db))))
      as (x & E & Hv & _).
    + discriminate.
    + intros r Hin. vm_compute in Hin.
      repeat (apply elem_of_cons in Hin as [->|Hin]; [by vm_compute|]).
      by apply elem_of_nil in Hin.
    + exists x. split; [exact E|]. exact Hv.
Defined.

(** X24.  When every rating of a book's reviews lies between [lo] and [hi],
    with [1 ≤ lo] and [hi ≤ 2^50], the double returned as the average rating
    of the book lies between [lo] and [hi] as well: the rounding of the
    division does not carry the average past a whole number. *)
Theorem returned_average_within_bounds (obj : Z) (d : DB) (lo hi : Z) :
  book_reviews obj d ≠ [] →
  1 ≤ lo → hi ≤ 2 ^ 50 →
  (∀ r, r ∈ book_reviews obj d → lo ≤ rating r ≤ hi) →
  ∃ x, BookSerializer_get_average_rating_float obj d = Some (Float x) ∧
       (inject_Z lo <= float_value x <= inject_Z hi)%Q.
Proof.
  intros Hne Hlo Hhi Hr.
  pose proof (sum_ratings_bounds lo hi _ Hr) as [Hsl Hsh].
  unfold BookSerializer_get_average_rating_float.
  rewrite (match_nonempty (book_reviews obj d)) by exact Hne.
  set (total := sum_ratings (book_reviews obj d)) in *.
  set (count := Z.of_nat (length (book_reviews obj d))) in *.
  assert (Hcount : 0 < count)
    by (unfold count; destruct (book_reviews obj d); [done|cbn [length]; lia]).
  destruct (int_truediv_error total count)
    as (m & k & -> & Hk & _ & _ & Hlow & Hup); [nia|nia|].
  eexists. split; [reflexivity|].
  assert (Hpow : 0 < 2 ^ k) by (apply Z.pow_pos_nonneg; lia).
  rewrite float_value_finite by exact Hk. split.
  - apply Qdiv_lower; [exact Hpow|]. by apply Hlow.
  - apply Qdiv_upper; [exact Hpow|]. by apply Hup.
Qed.

Lemma returned_average_within_bounds_witness :
  ∃ x, BookSerializer_get_average_rating_float 1 Sample.rated_thrice_db
       = Some (Float x) ∧
       (inject_Z 4 <= float_value x <= inject_Z 5)%Q.
Proof.
  apply (returned_average_within_bounds 1 Sample.rated_thrice_db 4 5).
  - discriminate.
  - lia.
  - by vm_compute.
  - intros r Hin. vm_compute in Hin.
    repeat (apply elem_of_cons in Hin as [->|Hin]; [by vm_compute|]).
    by apply elem_of_nil in Hin.
Defined.

(** ** Reviews that cannot be changed or found *)

Lemma ReviewSerializer_is_valid_taken models u b data w :
  data_book data = Some b →
  reviews_of b (user_id u) (db w) ≠ [] →
  ∃ f m, ReviewSerializer_is_valid models u data w
         = Raise (ValidationError f m) w.
Proof.
  intros Hbook Htaken. unfold ReviewSerializer_is_valid.
  rewrite Hbook, bind_unfold. unfold query.
  destruct (books (db w) !! b) as [bk|]; [|by eexists _, _].
  destruct (Review_fields models _ _) as [rt|]; [|by eexists _, _].
  rewrite bind_unfold, (ReviewSerializer_validate_taken _ _ _ Htaken).
  by eexists _, _.
Qed.

Lemma get_queryset_subset book_pk d r :
  r ∈ ReviewViewSet_get_queryset book_pk d → r ∈ reviews d.
Proof.
  destruct book_pk as [b|]; cbn; [|done].
  intros H. by apply list_elem_of_filter in H as [_ H].
Qed.

Lemma ReviewViewSet_get_object_one a u book_pk pk instance w :
  filter (λ r, review_id r = pk) (ReviewViewSet_get_queryset book_pk (db w))
    = [instance] →
  ReviewViewSet_get_object a (Some u) book_pk pk w = Ok instance w.
Proof.
  intros H. unfold ReviewViewSet_get_object.
  rewrite bind_unfold. unfold query. rewrite H.
  cbn [get_object_or_404 mret M_ret]. rewrite bind_unfold.
  by destruct a.
Qed.

Lemma ReviewViewSet_get_object_none a u book_pk pk w :
  filter (λ r, review_id r = pk) (ReviewViewSet_get_queryset book_pk (db w))
    = [] →
  ReviewViewSet_get_object a (Some u) book_pk pk w = Raise Http404 w.
Proof.
  intros H. unfold ReviewViewSet_get_object.
  rewrite bind_unfold. unfold query. by rewrite H.
Qed.

(** X17.  The author of a review cannot change its rating or text with an update
    request that keeps the book: the request is answered 400 and the review
    stays as it was, because the check for an earlier review of the book
    finds the very review that is being updated. *)
Theorem author_cannot_update_own_review models u book_pk pk instance data w :
  filter (λ r, review_id r = pk) (ReviewViewSet_get_queryset book_pk (db w))
    = [instance] →
  review_user instance = user_id u →
  data_book data = Some (review_book instance) →
  status_code (ReviewViewSet_update models (Some u) book_pk pk data w).1
    = HTTP_400_BAD_REQUEST ∧
  (ReviewViewSet_update models (Some u) book_pk pk data w).2 = w.
Proof.
  intros Hobj Hauthor Hbook.
  assert (Hin : instance ∈ reviews (db w)).
  { apply (get_queryset_subset book_pk).
    assert (H : instance ∈ [instance]) by apply list_elem_of_here.
    rewrite <- Hobj in H. by apply list_elem_of_filter in H as [_ H]. }
  assert (Htaken : reviews_of (review_book instance) (user_id u) (db w) ≠ []).
  { intros E. assert (H : instance ∈ reviews_of (review_book instance)
                                          (user_id u) (db w)).
    { unfold reviews_of. apply list_elem_of_filter. by rewrite Hauthor. }
    rewrite E in H. by apply elem_of_nil in H. }
  destruct (ReviewSerializer_is_valid_taken models u _ data w Hbook Htaken)
    as (f & m & E).
  unfold ReviewViewSet_update.
  rewrite review_view_head by reflexivity. unfold dispatch.
  rewrite bind_unfold. cbn [request_user mret M_ret].
  rewrite (bind_Ok _ _ _ _ _ (ReviewViewSet_get_object_one _ _ _ _ _ _ Hobj)).
  rewrite (bind_Raise _ _ _ _ _ E). by split.
Qed.

Lemma author_cannot_update_own_review_witness :
  let r := ReviewViewSet_update Sample.models (Some Sample.alice) None 1
             (mkReviewData (Some 1) (Some 2) (Some "on second thought"))
             (mkWorld Sample.reviewed_db None) in
  status_code r.1 = HTTP_400_BAD_REQUEST ∧
  r.2 = mkWorld Sample.reviewed_db None.
Proof.
  exact (author_cannot_update_own_review Sample.models Sample.alice None 1
           (mkReview 1 1 1 5 "great")
           (mkReviewData (Some 1) (Some 2) (Some "on second thought"))
           (mkWorld Sample.reviewed_db None) eq_refl eq_refl eq_refl).
Defined.

(** X18.  An update or deletion request for a key that the queryset does not hold
    is answered 404 and leaves the store as it was. *)
Theorem review_not_found_is_404 models u book_pk pk data w :
  filter (λ r, review_id r = pk) (ReviewViewSet_get_queryset book_pk (db w))
    = [] →
  let not_found :=
    (mkResponse HTTP_404_NOT_FOUND (ErrorBody "detail" "Not found."), w) in
  ReviewViewSet_update models (Some u) book_pk pk data w = not_found ∧
  ReviewViewSet_destroy (Some u) book_pk pk w = not_found.
Proof.
  intros Hobj not_found. split.
  - unfold ReviewViewSet_update.
    rewrite review_view_head by reflexivity. unfold dispatch.
    rewrite bind_unfold. cbn [request_user mret M_ret].
    by rewrite (bind_Raise _ _ _ _ _
                  (ReviewViewSet_get_object_none _ _ _ _ _ Hobj)).
  - unfold ReviewViewSet_destroy.
    rewrite review_view_head by reflexivity. unfold dispatch.
    by rewrite (bind_Raise _ _ _ _ _
                  (ReviewViewSet_get_object_none _ _ _ _ _ Hobj)).
Qed.

Lemma review_not_found_is_404_witness :
  ReviewViewSet_destroy (Some Sample.alice) None 9
    (mkWorld Sample.reviewed_db None)
  = (mkResponse HTTP_404_NOT_FOUND (ErrorBody "detail" "Not found."),
     mkWorld Sample.reviewed_db None).
Proof.
  exact (proj2 (review_not_found_is_404 Sample.models Sample.alice None 9
                  (mkReviewData None None None)
                  (mkWorld Sample.reviewed_db None) eq_refl)).
Defined.

(** ** Registration *)

Lemma filter_none {A} (P : A → Prop) `{∀ x, Decision (P x)} (l : list A) :
  (∀ x, x ∈ l → ¬ P x) → filter P l = [].
Proof.
  induction l as [|a l IH]; intros HP; [reflexivity|].
  rewrite filter_cons, decide_False by apply HP, list_elem_of_here.
  apply IH. intros x Hx. by apply HP, list_elem_of_further.
Qed.

Lemma site_execute_no_fault f s :
  write_budget (world (f s)) = None → write_budget (world s) = None →
  site_execute f s = Some (f s).
Proof. intros _ H. unfold site_execute. by rewrite H. Qed.

Lemma save_new_account a a' rows :
  (∀ x, x ∈ rows → account_id x < account_id a) →
  account_id a' = account_id a →
  (if decide (account_id a' ∈ account_id <$> (rows ++ [a]))
   then (λ x, if decide (account_id x = account_id a') then a' else x)
        <$> (rows ++ [a])
   else (rows ++ [a]) ++ [a']) = rows ++ [a'].
Proof.
  intros Hlt Hid. rewrite decide_True.
  - rewrite fmap_app. cbn [fmap list_fmap]. rewrite decide_True by done.
    f_equal. rewrite <- (list_fmap_id rows) at 2.
    apply list_fmap_ext. intros i x Hx. apply list_elem_of_lookup_2 in Hx.
    rewrite decide_False; [done|]. apply Hlt in Hx. lia.
  - rewrite Hid, fmap_app. apply elem_of_app. right.
    apply list_elem_of_singleton. reflexivity.
Qed.

Lemma RegisterSerializer_is_valid_attrs fw data s attrs :
  RegisterSerializer_is_valid fw data s = inl attrs →
  reg_username data = Some (attrs_username attrs) ∧
  reg_password data = Some (attrs_password attrs) ∧
  reg_password2 data = Some (attrs_password2 attrs) ∧
  attrs_password attrs = attrs_password2 attrs ∧
  attrs_email attrs = reg_email data ∧
  attrs_first_name attrs = reg_first_name data ∧
  attrs_last_name attrs = reg_last_name data ∧
  (attrs_username attrs ∉ username <$> accounts s) ∧
  validate_password fw (attrs_password attrs) = true.
Proof.
  unfold RegisterSerializer_is_valid, RegisterSerializer_validate.
  destruct (reg_username data) as [name|]; [|done].
  destruct (reg_password data) as [pw|]; [|done].
  destruct (reg_password2 data) as [pw2|]; [|done].
  destruct (username_valid fw name); cbn [negb]; [|done].
  destruct (decide (name ∈ username <$> accounts s)) as [|Hfree]; [done|].
  destruct (validate_password fw pw) eqn:Hpw; cbn [negb]; [|done].
  destruct (email_required fw && _); [done|].
  destruct (optional_valid (email_valid fw) (reg_email data)); cbn [negb];
    [|done].
  destruct (optional_valid (name_valid fw) (reg_first_name data) && _);
    cbn [negb]; [|done].
  cbn [attrs_password attrs_password2].
  destruct (decide (pw ≠ pw2)) as [|Heq]; [done|].
  intros [= <-]. cbn. repeat split; try done.
  f_equal. by destruct (decide (pw = pw2)).
Qed.



(** X20.  A registration whose body passes the validation and carries an email,
    when no statement fails: the answer is 201 with the user's public
    fields; one account is appended, with the hashed password; one cart is
    appended for it, which is the account's only cart; and the cart view of
    the new user answers 200 with that cart and no items. *)
Theorem registration_creates_account_and_cart fw data attrs mail s :
  write_budget (world s) = None →
  RegisterSerializer_is_valid fw data s = inl attrs →
  attrs_email attrs = Some mail →
  (∀ a, a ∈ accounts s → account_id a < next_account s) →
  (∀ c, c ∈ carts (db (world s)) → cart_user c < next_account s) →
  (∀ ci, ci ∈ cart_items (db (world s)) → item_cart ci < next_cart s) →
  let user := mkAccount (next_account s)
                (normalize_username fw (attrs_username attrs))
                (normalize_email fw mail)
                (default "" (attrs_first_name attrs))
                (default "" (attrs_last_name attrs))
                (make_password fw (attrs_password attrs)) in
  let cart := mkCart (next_cart s) (next_account s) in
  let r := RegisterView_post fw data s in
  r.1 = mkRegisterResponse HTTP_201_CREATED
          (UserData (username user) (email user) (first_name user)
                    (last_name user)) ∧
  accounts r.2 = accounts s ++ [user] ∧
  carts (db (world r.2)) = carts (db (world s)) ++ [cart] ∧
  carts_of (account_id user) (db (world r.2)) = [cart] ∧
  CartViewSet_list (Some (session_user user)) (world r.2)
    = (mkResponse HTTP_200_OK (CartBody cart []), world r.2).
Proof.
  intros Hb Hvalid Hmail Hacc Hcarts Hitems user cart r.
  set (user0 := mkAccount (next_account s)
                  (normalize_username fw (attrs_username attrs))
                  (normalize_email fw mail)
                  (default "" (attrs_first_name attrs))
                  (default "" (attrs_last_name attrs))
                  (unusable_password fw)).
  set (s3 := insert_cart (account_id user)
               (save_account user (insert_account user0 s))).
  assert (Er : r = (mkRegisterResponse HTTP_201_CREATED
                      (UserData (username user) (email user)
                                (first_name user) (last_name user)), s3)).
  { unfold r, RegisterView_post. rewrite Hvalid.
    unfold RegisterSerializer_create. rewrite Hmail. fold user0.
    rewrite (site_execute_no_fault (insert_account user0) s) by exact Hb.
    cbn [account_id username email first_name last_name user0]. fold user.
    rewrite (site_execute_no_fault (save_account user)) by exact Hb.
    rewrite (site_execute_no_fault (insert_cart (account_id user)))
      by exact Hb.
    reflexivity. }
  assert (Hacc3 : accounts s3 = accounts s ++ [user]).
  { unfold s3. cbn [accounts insert_cart save_account insert_account].
    by apply (save_new_account user0 user). }
  assert (Hc3 : carts (db (world s3)) = carts (db (world s)) ++ [cart])
    by reflexivity.
  assert (Hof : carts_of (account_id user) (db (world s3)) = [cart]).
  { unfold carts_of. rewrite Hc3, filter_app, filter_cons, filter_nil.
    cbn [cart_user cart account_id user]. rewrite decide_True by reflexivity.
    rewrite filter_none; [reflexivity|].
    intros c Hc Hcu. apply Hcarts in Hc. lia. }
  rewrite Er. cbn [fst snd].
  split; [reflexivity|]. split; [exact Hacc3|]. split; [exact Hc3|].
  split; [exact Hof|].
  unfold CartViewSet_list. rewrite view_head. unfold dispatch.
  rewrite (bind_Ok _ _ _ _ _ (get_cart_or_404_one (session_user user) cart _ Hof)).
  unfold cart_response. rewrite bind_unfold. unfold query.
  replace (cart_items_all (cart_id cart) (db (world s3))) with (@nil CartItem);
    [reflexivity|].
  symmetry. unfold cart_items_all.
  apply filter_none.
  intros ci Hci Hcc. apply Hitems in Hci. cbn in Hcc. lia.
Qed.

Lemma registration_creates_account_and_cart_witness :
  let r := RegisterView_post Sample.framework Sample.new_user Sample.site in
  r.1 = mkRegisterResponse HTTP_201_CREATED
          (UserData "newuser" "newuser@example.com" "New" "User") ∧
  accounts r.2 =
    [mkAccount 1 "newuser" "newuser@example.com" "New" "User"
               "hashed:newuserpass123"] ∧
  carts_of 1 (db (world r.2)) = [mkCart 1 1].
Proof.
  intros r.
  destruct (registration_creates_account_and_cart Sample.framework
              Sample.new_user
              (mkRegisterAttrs "newuser" "newuserpass123" "newuserpass123"
                 (Some "newuser@example.com") (Some "New") (Some "User"))
              "newuser@example.com" Sample.site eq_refl eq_refl eq_refl)
    as (H1 & H2 & _ & H4 & _).
  - intros a Ha. by apply elem_of_nil in Ha.
  - intros c Hc. by apply elem_of_nil in Hc.
  - intros ci Hci. by apply elem_of_nil in Hci.
  - split; [exact H1|]. split; [exact H2|exact H4].
Defined.

(** X21.  Registration runs three statements with no transaction around them.
    When the storage layer executes the two statements on the account and
    raises on the creation of the cart, the answer is 500 and the account
    stays, with its password, but without a cart: its cart view then
    answers 404. *)
Theorem registration_can_leave_account_without_cart fw data attrs mail s :
  write_budget (world s) = Some 2%nat →
  RegisterSerializer_is_valid fw data s = inl attrs →
  attrs_email attrs = Some mail →
  (∀ a, a ∈ accounts s → account_id a < next_account s) →
  (∀ c, c ∈ carts (db (world s)) → cart_user c < next_account s) →
  let user := mkAccount (next_account s)
                (normalize_username fw (attrs_username attrs))
                (normalize_email fw mail)
                (default "" (attrs_first_name attrs))
                (default "" (attrs_last_name attrs))
                (make_password fw (attrs_password attrs)) in
  let r := RegisterView_post fw data s in
  register_status r.1 = HTTP_500_INTERNAL_SERVER_ERROR ∧
  accounts r.2 = accounts s ++ [user] ∧
  carts (db (world r.2)) = carts (db (world s)) ∧
  CartViewSet_list (Some (session_user user)) (world r.2)
    = (mkResponse HTTP_404_NOT_FOUND (ErrorBody "detail" "Not found."),
       world r.2).
Proof.
  intros Hb Hvalid Hmail Hacc Hcarts user r.
  set (user0 := mkAccount (next_account s)
                  (normalize_username fw (attrs_username attrs))
                  (normalize_email fw mail)
                  (default "" (attrs_first_name attrs))
                  (default "" (attrs_last_name attrs))
                  (unusable_password fw)).
  set (s2 := mkSite (accounts s ++ [user]) (next_account s + 1) (next_cart s)
                    (mkWorld (db (world s)) (Some O))).
  assert (Er : r = (mkRegisterResponse HTTP_500_INTERNAL_SERVER_ERROR
                      RegisterFailure, s2)).
  { unfold r, RegisterView_post. rewrite Hvalid.
    unfold RegisterSerializer_create. rewrite Hmail. fold user0.
    unfold site_execute at 1. rewrite Hb.
    cbn [accounts next_account next_cart world db insert_account].
    cbn [account_id username email first_name last_name user0]. fold user.
    unfold site_execute at 1.
    cbn [world write_budget accounts next_account next_cart db save_account].
    rewrite (save_new_account user0 user) by done.
    unfold site_execute. cbn [world write_budget]. reflexivity. }
  rewrite Er. cbn [fst snd register_status].
  split; [reflexivity|]. split; [reflexivity|]. split; [reflexivity|].
  unfold CartViewSet_list. rewrite view_head. unfold dispatch.
  assert (H404 : get_cart_or_404 (session_user user) (world s2)
                 = Raise Http404 (world s2)).
  { unfold get_cart_or_404. rewrite bind_unfold. unfold query, carts_of.
    cbn [world s2 db session_user user_id account_id user].
    rewrite filter_none; [reflexivity|].
    intros c Hc Hcu. apply Hcarts in Hc. lia. }
  by rewrite (bind_Raise _ _ _ _ _ H404).
Qed.

Lemma registration_can_leave_account_without_cart_witness :
  let s := mkSite [] 1 1 (mkWorld (db (world Sample.site)) (Some 2%nat)) in
  let r := RegisterView_post Sample.framework Sample.new_user s in
  register_status r.1 = HTTP_500_INTERNAL_SERVER_ERROR ∧
  accounts r.2 =
    [mkAccount 1 "newuser" "newuser@example.com" "New" "User"
               "hashed:newuserpass123"] ∧
  carts (db (world r.2)) = [].
Proof.
  intros s r.
  destruct (registration_can_leave_account_without_cart Sample.framework
              Sample.new_user
              (mkRegisterAttrs "newuser" "newuserpass123" "newuserpass123"
                 (Some "newuser@example.com") (Some "New") (Some "User"))
              "newuser@example.com" s eq_refl eq_refl eq_refl)
    as (H1 & H2 & H3 & _).
  - intros a Ha. by apply elem_of_nil in Ha.
  - intros c Hc. by apply elem_of_nil in Hc.
  - split; [exact H1|]. split; [exact H2|exact H3].
Defined.

(** X22.  [create] reads [email] with a subscript, not with [get] as it reads the
    names: a body that passes the validation without an email makes it
    raise [KeyError] before any statement, so the answer is 500 and nothing
    is created. *)
Theorem registration_without_email_fails fw data attrs s :
  RegisterSerializer_is_valid fw data s = inl attrs →
  reg_email data = None →
  RegisterSerializer_create fw attrs s = (inr (KeyError "email"), s) ∧
  RegisterView_post fw data s =
    (mkRegisterResponse HTTP_500_INTERNAL_SERVER_ERROR RegisterFailure, s).
Proof.
  intros Hvalid Hmail.
  destruct (RegisterSerializer_is_valid_attrs fw data s attrs Hvalid)
    as (_ & _ & _ & _ & Hemail & _).
  rewrite Hmail in Hemail.
  assert (E : RegisterSerializer_create fw attrs s = (inr (KeyError "email"), s))
    by (unfold RegisterSerializer_create; by rewrite Hemail).
  split; [exact E|].
  unfold RegisterView_post. by rewrite Hvalid, E.
Qed.

Lemma registration_without_email_fails_witness :
  RegisterView_post Sample.framework
    (mkRegisterData (Some "newuser") (Some "newuserpass123")
       (Some "newuserpass123") None None None) Sample.site
  = (mkRegisterResponse HTTP_500_INTERNAL_SERVER_ERROR RegisterFailure,
     Sample.site).
Proof.
  exact (proj2 (registration_without_email_fails Sample.framework
           (mkRegisterData (Some "newuser") (Some "newuserpass123")
              (Some "newuserpass123") None None None)
           (mkRegisterAttrs "newuser" "newuserpass123" "newuserpass123"
              None None None)
           Sample.site eq_refl eq_refl)).
Defined.
